(** * The HDA API helper functions of the WEkEO notebook, embedded in Rocq

    The notebook [hda_api_functions.ipynb] is a chain of HTTP requests
    threaded through the dictionary [hda_dict], followed by polling loops and
    a chunked file download.  This development embeds its functions
    shallowly: pure helpers are Rocq functions, and everything that talks to
    the network, the clock, the file system or the console is a computation
    in a small state-and-exception monad over an explicit [World].

    - The transport and the process clock are oracles of the surroundings;
      the world records every request with its answer, every file written
      and every line printed.
    - A [while] loop runs on fuel: a poller that is still polling when the
      fuel is spent ends as [Running], so that "the loop never ends" is the
      statement that it is [Running] for every amount of fuel.
    - Python exceptions are values ([Raises]); the state at the moment of
      the exception is kept, as a file written before the exception is. *)

From Stdlib Require Import ZArith NArith List String Ascii Bool Lia Arith.
From Stdlib Require Strings.Byte.
Import ListNotations.

(** Python byte strings are lists of bytes; Python [str] values are modelled
    by [string] (a list of 8-bit characters), so that [str.encode] and
    [bytes.decode] are the two conversions between [string] and
    [list byte]. *)
Definition byte : Set := Byte.byte.
Definition bytes : Set := list byte.

Definition str_encode (s : string) : bytes := list_byte_of_string s.
Definition bytes_decode (b : bytes) : string := string_of_list_byte b.

(** ** Base64 (the standard alphabet, [altchars=None]) *)

Module Base64.

Local Open Scope N_scope.

Definition alphabet : string :=
  "ABCDEFGHIJKLMNOPQRSTUVWXYZabcdefghijklmnopqrstuvwxyz0123456789+/".

Definition table : bytes := list_byte_of_string alphabet.

Definition pad : byte := Byte.x3d.   (* the character '=' *)

(** The character of a 6-bit value. *)
Definition enc6 (n : N) : byte := nth (N.to_nat n) table Byte.x00.

Fixpoint index_from (c : byte) (l : bytes) (i : N) : option N :=
  match l with
  | [] => None
  | x :: l' => if Byte.eqb x c then Some i else index_from c l' (i + 1)
  end.

(** The 6-bit value of a character, [None] outside the alphabet. *)
Definition dec6 (c : byte) : option N := index_from c table 0.

(** An 8-bit value as a byte (values are masked to 8 bits first, as a cast
    to [unsigned char] does). *)
Definition byte_of_N (n : N) : byte :=
  match Byte.of_N (N.land n 255) with
  | Some b => b
  | None => Byte.x00
  end.

(** The four 6-bit groups of three bytes. *)
Definition sextet0 (b0 : N) : N := N.shiftr b0 2.
Definition sextet1 (b0 b1 : N) : N :=
  N.lor (N.shiftl (N.land b0 3) 4) (N.shiftr b1 4).
Definition sextet2 (b1 b2 : N) : N :=
  N.lor (N.shiftl (N.land b1 15) 2) (N.shiftr b2 6).
Definition sextet3 (b2 : N) : N := N.land b2 63.

(** The three bytes of four 6-bit groups. *)
Definition octet0 (c0 c1 : N) : N := N.lor (N.shiftl c0 2) (N.shiftr c1 4).
Definition octet1 (c1 c2 : N) : N :=
  N.lor (N.shiftl (N.land c1 15) 4) (N.shiftr c2 2).
Definition octet2 (c2 c3 : N) : N := N.lor (N.shiftl (N.land c2 3) 6) c3.

(** [base64.b64encode]: three bytes give four characters; a final group of
    one or two bytes is padded with '='. *)
Fixpoint b64encode (data : bytes) : bytes :=
  match data with
  | [] => []
  | [b0] =>
      let n0 := Byte.to_N b0 in
      [enc6 (sextet0 n0); enc6 (sextet1 n0 0); pad; pad]
  | [b0; b1] =>
      let n0 := Byte.to_N b0 in
      let n1 := Byte.to_N b1 in
      [enc6 (sextet0 n0); enc6 (sextet1 n0 n1); enc6 (sextet2 n1 0); pad]
  | b0 :: b1 :: b2 :: rest =>
      let n0 := Byte.to_N b0 in
      let n1 := Byte.to_N b1 in
      let n2 := Byte.to_N b2 in
      enc6 (sextet0 n0) :: enc6 (sextet1 n0 n1)
        :: enc6 (sextet2 n1 n2) :: enc6 (sextet3 n2) :: b64encode rest
  end.

Definition is_pad (c : byte) : bool := Byte.eqb c pad.

(** Base64 decoding of a padded text: four characters give three bytes; a
    final group may end in one or two '='.  [None] stands for
    [binascii.Error] (a character outside the alphabet, wrong padding). *)
Fixpoint b64decode (s : bytes) : option bytes :=
  match s with
  | [] => Some []
  | a :: b :: c :: d :: rest =>
      match dec6 a, dec6 b with
      | Some c0, Some c1 =>
          if is_pad c && is_pad d then
            match rest with
            | [] => Some [byte_of_N (octet0 c0 c1)]
            | _ => None
            end
          else
            match dec6 c with
            | Some c2 =>
                if is_pad d then
                  match rest with
                  | [] => Some [byte_of_N (octet0 c0 c1);
                                byte_of_N (octet1 c1 c2)]
                  | _ => None
                  end
                else
                  match dec6 d, b64decode rest with
                  | Some c3, Some tl =>
                      Some (byte_of_N (octet0 c0 c1)
                              :: byte_of_N (octet1 c1 c2)
                              :: byte_of_N (octet2 c2 c3) :: tl)
                  | _, _ => None
                  end
            | None => None
            end
      | _, _ => None
      end
  | _ => None
  end.

(** *** Checks by enumeration, used in the proofs *)

(** The values below a bound: facts about all of them are checked by running
    through them. *)
Definition below (k : nat) : list N := map N.of_nat (seq 0 k).

(** A character of the alphabet decodes to its index and is not '='. *)
Definition char_ok (n : N) : bool :=
  match dec6 (enc6 n) with
  | Some m => (m =? n) && negb (is_pad (enc6 n))
  | None => false
  end.

(** The first two 6-bit groups, and the byte they give back. *)
Definition front_ok (b0 b1 : N) : bool :=
  (sextet0 b0 <? 64) && (sextet1 b0 b1 <? 64)
  && (N.land (octet0 (sextet0 b0) (sextet1 b0 b1)) 255 =? b0)
  && (N.land (sextet1 b0 b1) 15 =? N.shiftr b1 4).

(** The last two 6-bit groups, and the two bytes they give back. *)
Definition back_ok (b1 b2 : N) : bool :=
  (sextet2 b1 b2 <? 64) && (sextet3 b2 <? 64)
  && (N.land (N.lor (N.shiftl (N.shiftr b1 4) 4)
                    (N.shiftr (sextet2 b1 b2) 2)) 255 =? b1)
  && (N.land (octet2 (sextet2 b1 b2) (sextet3 b2)) 255 =? b2).

End Base64.

(** ** [generate_api_key] *)

(** [s = username+':'+password]
    [return (base64.b64encode(str.encode(s), altchars=None)).decode()] *)
Definition generate_api_key (username password : string) : string :=
  let s := (username ++ ":" ++ password)%string in
  bytes_decode (Base64.b64encode (str_encode s)).

(** Base64-decoding a key: [base64.b64decode(key).decode()]. *)
Definition decode_api_key (key : string) : option string :=
  option_map bytes_decode (Base64.b64decode (str_encode key)).

(** ** Regular expression [filename=(.+)] and Python slices *)

Module Re.

Definition newline : ascii := "010"%char.

(** [.] matches every character but the newline. *)
Definition dot (c : ascii) : bool := negb (Ascii.eqb c newline).

(** [strip_prefix p s] is [Some r] when [s = p ++ r]. *)
Fixpoint strip_prefix (p s : string) : option string :=
  match p, s with
  | EmptyString, _ => Some s
  | String a p', String b s' =>
      if Ascii.eqb a b then strip_prefix p' s' else None
  | String _ _, EmptyString => None
  end.

(** The greedy [.+] at the end of the pattern takes the longest run of
    characters other than the newline. *)
Fixpoint dots (s : string) : string :=
  match s with
  | String c s' => if dot c then String c (dots s') else EmptyString
  | EmptyString => EmptyString
  end.

(** The group of a match of [filename=(.+)] that starts at the first
    character of [s]. *)
Definition match_here (s : string) : option string :=
  match strip_prefix "filename=" s with
  | Some rest =>
      match dots rest with
      | EmptyString => None
      | g => Some g
      end
  | None => None
  end.

(** [re.findall('filename=(.+)', s)]: the groups of the matches found
    scanning left to right, no two matches overlapping.  [skip] counts the
    characters still covered by the last match. *)
Fixpoint findall_from (skip : nat) (s : string) : list string :=
  match s with
  | EmptyString => []
  | String _ s' =>
      match skip with
      | S k => findall_from k s'
      | O =>
          match match_here s with
          | Some g => g :: findall_from (8 + String.length g) s'
          | None => findall_from 0 s'
          end
      end
  end.

Definition findall (s : string) : list string := findall_from 0 s.

(** What is left after the run of [dots]. *)
Fixpoint after_dots (s : string) : string :=
  match s with
  | String c s' => if dot c then after_dots s' else s
  | EmptyString => EmptyString
  end.

End Re.

(** A bound of a slice on a sequence of length [n]: negative bounds count
    from the end, and every bound is clamped to [0 .. n]. *)
Definition py_bound (n i : Z) : Z :=
  if (i <? 0)%Z then Z.max 0 (i + n) else Z.min i n.

(** [s[lo:hi]] *)
Definition py_slice (s : string) (lo hi : Z) : string :=
  let n := Z.of_nat (String.length s) in
  let a := py_bound n lo in
  let b := py_bound n hi in
  substring (Z.to_nat a) (Z.to_nat (b - a)) s.

(** ** [get_filename_from_cd] *)

(** [not cd] for a content disposition that is [None] or a string. *)
Definition py_not (cd : option string) : bool :=
  match cd with
  | None => true
  | Some s => (String.length s =? 0)%nat
  end.

(** [if not cd: return None]
    [fname = re.findall('filename=(.+)', cd)]
    [if len(fname) == 0: return None]
    [return fname[0][2:-1]] *)
Definition get_filename_from_cd (cd : option string) : option string :=
  if py_not cd then None
  else
    match cd with
    | None => None
    | Some s =>
        let fname := Re.findall s in
        if (List.length fname =? 0)%nat then None
        else
          match fname with
          | g :: _ => Some (py_slice g 2 (-1))
          | [] => None
          end
    end.

(** In the words of the specification: a string contains a match of
    [filename=(.+)] when it holds the literal [filename=] followed by a non-empty run of characters
    other than the newline. *)
Definition no_newline (g : string) : Prop :=
  forall c, In c (list_ascii_of_string g) -> c <> Re.newline.

Definition contains_match (s : string) : Prop :=
  exists pre g post,
    s = (pre ++ "filename=" ++ g ++ post)%string /\ g <> EmptyString /\ no_newline g.

(** A match that starts at the first character of [r]. *)
Definition starts_match (r : string) : Prop :=
  exists g post,
    r = ("filename=" ++ g ++ post)%string /\ g <> EmptyString /\ no_newline g.

(** [g] is the group of the leftmost match in [s], taken greedily: it sits
    behind the first [filename=] that a match can start at, and runs up to
    the next newline or the end of [s]. *)
Definition first_group (s g : string) : Prop :=
  exists pre post,
    s = (pre ++ "filename=" ++ g ++ post)%string
    /\ g <> EmptyString /\ no_newline g
    /\ (post = EmptyString \/ exists t, post = String Re.newline t)
    /\ forall pre' r', s = (pre' ++ r')%string ->
         (String.length pre' < String.length pre)%nat -> ~ starts_match r'.

(** In the words of the specification: the group with its first two
    characters and its last character removed. *)
Definition drop_first2_last1 (g : string) : string :=
  string_of_list_ascii (removelast (skipn 2 (list_ascii_of_string g))).

(** ** The world the notebook runs in *)

Open Scope string_scope.
Open Scope Z_scope.

(** An integer argument or [None]. *)
Definition PyInt : Set := option Z.

Inductive Method : Set := GET | POST | PUT.

(** A call of [requests.get] / [requests.post]. *)
Record Request : Set := mkRequest {
  rq_method : Method;
  rq_url : string;
  rq_headers : list (string * string);
  rq_json : list (string * string);     (* the [json=] body, [[]] when absent *)
  rq_stream : bool
}.

(** What the transport answers.  [text] is the body as [json.loads] reads
    it: [Some o] for a JSON object [o] whose values are strings, [None] for a
    body that is not valid JSON (there [json.loads] raises
    [JSONDecodeError]).  Bodies that are valid JSON of another shape (an
    array, a number, [null], an object with a value that is no string) are
    outside the model, which has no statement about them.
    [iter_content n] is the sequence of chunks that [r.iter_content(n)]
    yields. *)
Record Response : Type := mkResponse {
  status_code : Z;
  text : option (list (string * string));
  iter_content : Z -> list bytes
}.

(** The surroundings, fixed during a run: the transport (its answer may
    depend on how many requests came before; it always answers: a request
    that [requests] refuses to send, such as one to a URL without a scheme,
    and connection errors are outside the model), the readings of
    [time.process_time()] in the order they are taken (in clock ticks), and
    the file a path names. *)
Record Env : Type := mkEnv {
  transport : nat -> Request -> Response;
  clock : nat -> Z;
  realpath : string -> string
}.

(** A result file descriptor, an element of [hda_dict['results']['content']]. *)
Record Descriptor : Set := mkDescriptor {
  d_filename : string;
  d_size : PyInt;
  d_url : string
}.

(** The dictionary [hda_dict].  The keys that [init] writes are always
    there; the keys written by later stages are [None] until then. *)
Record Session : Type := mkSession {
  broker_endpoint : string;
  acceptTandC_address : string;
  accessToken_address : string;
  dataset_id : string;
  api_key : string;
  CONST_HTTP_SUCCESS_CODE : Z;
  download_dir_path : string;
  headers : option (list (string * string));
  job_id : option string;
  results : option (list Descriptor);
  order_ids : option (list string);
  order_sizes : option (list PyInt);
  order_status_response : option Response
}.

(** What is printed.  Texts are kept as they are; formatted numbers are kept
    as the operands of the format. *)
Inductive Out : Type :=
| Line (s : string)
| Unexpected (r : Response)              (* "Error: Unexpected response {}" *)
| FileSize (total_length : Z)            (* "File size is: %8.2f MB" *)
| ProgressBar (dl total_length elapsed : Z)   (* "\r[%s%s]  %8.2f Mbps" *)
| Downloaded (dl elapsed : Z)            (* "[%8.2f] MB downloaded, %8.2f kbps" *)
| Names (l : list string)
| Headers (h : list (string * string))
| Size (n : PyInt)
| TimeElapsed (t : PyInt).               (* "Time Elapsed: ... seconds" *)

(** The arguments of one call of [downloadFile]. *)
Record Download : Set := mkDownload {
  dl_url : string;
  dl_headers : list (string * string);
  dl_directory : string;
  dl_file_name : string;
  dl_total_length : PyInt
}.

(** The state: the one dictionary [hda_dict] every stage mutates, the
    requests sent with their answers (oldest first), the number of clock
    readings taken, the regular files (by [realpath]), the console, and the
    calls of [downloadFile] made so far (oldest first). *)
Record World : Type := mkWorld {
  hda : Session;
  exchanges : list (Request * Response);
  clock_reads : nat;
  files : string -> option bytes;
  stdout : list Out;
  downloads : list Download
}.

Definition set_hda (f : Session -> Session) (w : World) : World :=
  mkWorld (f (hda w)) (exchanges w) (clock_reads w) (files w) (stdout w) (downloads w).
Definition add_exchange (x : Request * Response) (w : World) : World :=
  mkWorld (hda w) (exchanges w ++ [x]) (clock_reads w) (files w) (stdout w) (downloads w).
Definition tick (w : World) : World :=
  mkWorld (hda w) (exchanges w) (S (clock_reads w)) (files w) (stdout w) (downloads w).
Definition set_file (p : string) (content : bytes) (w : World) : World :=
  mkWorld (hda w) (exchanges w) (clock_reads w)
          (fun q => if String.eqb q p then Some content else files w q)
          (stdout w) (downloads w).
Definition add_out (o : Out) (w : World) : World :=
  mkWorld (hda w) (exchanges w) (clock_reads w) (files w) (stdout w ++ [o]) (downloads w).
Definition add_download (d : Download) (w : World) : World :=
  mkWorld (hda w) (exchanges w) (clock_reads w) (files w) (stdout w) (downloads w ++ [d]).

(** ** Exceptions and the monad *)

(** The two divisions of [downloadFile]. *)
Inductive Division : Set := by_total_length | by_elapsed_time.

Inductive PyExc : Set :=
| ZeroDivisionError (d : Division)
| TypeError
| KeyError (key : string)
| IndexError
| UnboundLocalError (name : string)
| JSONDecodeError.

(** How a call ends: it returns a value, it raises, or its loop is still
    running when the fuel is spent. *)
Inductive Outcome (A : Type) : Type :=
| Returns (a : A)
| Raises (e : PyExc)
| Running.
Arguments Returns {A} a.
Arguments Raises {A} e.
Arguments Running {A}.

Definition M (A : Type) : Type := World -> Outcome A * World.

Definition ret {A} (a : A) : M A := fun w => (Returns a, w).
Definition raise {A} (e : PyExc) : M A := fun w => (Raises e, w).
Definition running {A} : M A := fun w => (Running, w).
Definition bind {A B} (c : M A) (k : A -> M B) : M B :=
  fun w =>
    match c w with
    | (Returns a, w') => k a w'
    | (Raises e, w') => (Raises e, w')
    | (Running, w') => (Running, w')
    end.

Declare Scope py_scope.
Delimit Scope py_scope with py.
Notation "x <- c ;; k" := (bind c (fun x => k))
  (at level 61, c at next level, right associativity) : py_scope.
Notation "c ;; k" := (bind c (fun _ => k))
  (at level 61, right associativity) : py_scope.
Open Scope py_scope.

(** *** The primitive effects *)

Definition modify (f : World -> World) : M unit := fun w => (Returns tt, f w).
Definition gets {A} (f : World -> A) : M A := fun w => (Returns (f w), w).

Definition print (o : Out) : M unit := modify (add_out o).

(** [hda_dict[key]] for a key that a stage may not have written yet. *)
Definition hda_get {A} (key : string) (f : Session -> option A) : M A :=
  fun w =>
    match f (hda w) with
    | Some a => (Returns a, w)
    | None => (Raises (KeyError key), w)
    end.

(** [hda_dict[key]] for a key that [init] writes. *)
Definition hda_const {A} (f : Session -> A) : M A := gets (fun w => f (hda w)).

(** One HTTP request that is sent and answered: the transport answers, the
    exchange is recorded.  (The exceptions of [requests] itself are outside
    the model, see [Env].) *)
Definition send (E : Env) (rq : Request) : M Response :=
  fun w =>
    let r := transport E (List.length (exchanges w)) rq in
    (Returns r, add_exchange (rq, r) w).

Definition requests_get (E : Env) (url : string) (h : list (string * string))
    (stream : bool) : M Response :=
  send E (mkRequest GET url h [] stream).

Definition requests_post (E : Env) (url : string) (h : list (string * string))
    (json : list (string * string)) : M Response :=
  send E (mkRequest POST url h json false).

(** [time.process_time()] *)
Definition process_time (E : Env) : M Z :=
  fun w => (Returns (clock E (clock_reads w)), tick w).

Fixpoint assoc (k : string) (o : list (string * string)) : option string :=
  match o with
  | [] => None
  | (k', v) :: o' => if String.eqb k' k then Some v else assoc k o'
  end.

(** [json.loads(response.text)[key]], for the bodies of the model: a body
    that is not valid JSON raises [JSONDecodeError], an object without the
    key raises [KeyError]. *)
Definition json_field (r : Response) (key : string) : M string :=
  match text r with
  | None => raise JSONDecodeError
  | Some o =>
      match assoc key o with
      | Some v => ret v
      | None => raise (KeyError key)
      end
  end.

(** [l[i]] *)
Definition py_index {A} (l : list A) (i : nat) : M A :=
  match nth_error l i with
  | Some a => ret a
  | None => raise IndexError
  end.

(** A division by [divisor], of which the model keeps the failure on zero
    only (the quotient is a float that is only printed). *)
Definition div_check (d : Division) (divisor : Z) : M unit :=
  if divisor =? 0 then raise (ZeroDivisionError d) else ret tt.

(** ** [init] *)

(** The dictionary that [init] builds.  (Directories are not part of the
    model, so the creation of the download directory leaves no trace.) *)
Definition init (dataset_id api_key download_dir_path : string) : Session :=
  let broker := "https://wekeo-broker.apps.mercator.dpi.wekeo.eu/databroker" in
  {| broker_endpoint := broker;
     acceptTandC_address := broker ++ "/termsaccepted/Copernicus_General_License";
     accessToken_address := broker ++ "/gettoken";
     dataset_id := dataset_id;
     api_key := api_key;
     CONST_HTTP_SUCCESS_CODE := 200;
     download_dir_path := download_dir_path;
     headers := None;
     job_id := None;
     results := None;
     order_ids := None;
     order_sizes := None;
     order_status_response := None |}.

(** ** The status pollers *)

(** A local variable that is read: unbound, it raises. *)
Definition local {A} (name : string) (v : option A) : M A :=
  match v with
  | Some a => ret a
  | None => raise (UnboundLocalError name)
  end.

(** The loop of [get_request_status]; [fuel] bounds the number of
    iterations.
    [while (status != "completed"):]
    [    response = requests.get(broker + '/datarequest/status/' + job_id, headers=...)]
    [    if (response.status_code == CONST): status = json.loads(response.text)['status']; print(...)]
    [    else: print("Error: Unexpected response {}".format(response))] *)
Fixpoint request_status_loop (E : Env) (fuel : nat) (status : string) : M unit :=
  if negb (String.eqb status "completed") then
    match fuel with
    | O => running
    | S fuel' =>
        broker <- hda_const broker_endpoint ;;
        job <- hda_get "job_id" job_id ;;
        h <- hda_get "headers" headers ;;
        response <- requests_get E (broker ++ "/datarequest/status/" ++ job) h false ;;
        ok <- hda_const CONST_HTTP_SUCCESS_CODE ;;
        if status_code response =? ok then
          status' <- json_field response "status" ;;
          print (Line ("Query successfully submitted. Status is " ++ status')) ;;
          request_status_loop E fuel' status'
        else
          print (Unexpected response) ;;
          request_status_loop E fuel' status
    end
  else ret tt.

Definition get_request_status (E : Env) (fuel : nat) : M unit :=
  request_status_loop E fuel "not started".

(** The loop of [get_order_status], which also carries the local variable
    [response] that is returned in the end. *)
Fixpoint order_status_loop (E : Env) (fuel : nat) (order_id : string)
    (status : string) (response : option Response) : M Response :=
  if negb (String.eqb status "completed") then
    match fuel with
    | O => running
    | S fuel' =>
        broker <- hda_const broker_endpoint ;;
        h <- hda_get "headers" headers ;;
        r <- requests_get E (broker ++ "/dataorder/status/" ++ order_id) h false ;;
        ok <- hda_const CONST_HTTP_SUCCESS_CODE ;;
        if status_code r =? ok then
          status' <- json_field r "status" ;;
          print (Line ("Query successfully submitted. Status is " ++ status')) ;;
          order_status_loop E fuel' order_id status' (Some r)
        else
          print (Unexpected r) ;;
          order_status_loop E fuel' order_id status (Some r)
    end
  else local "response" response.

Definition get_order_status (E : Env) (fuel : nat) (order_id : string) : M Response :=
  order_status_loop E fuel order_id "not started" None.

(** ** [get_order_ids] *)

(** The local variables of [get_order_ids]. *)
Record OrderLoop : Type := mkOrderLoop {
  ol_i : nat;
  ol_order_ids : list string;
  ol_order_sizes : list PyInt;
  ol_response : option Response
}.

(** The body of [for result in hda_dict['results']['content']]. *)
Definition order_step (E : Env) (fuel : nat) (result : Descriptor)
    (st : OrderLoop) : M OrderLoop :=
  job <- hda_get "job_id" job_id ;;
  let data := [("jobId", job); ("uri", d_url result)] in
  let order_sizes := (ol_order_sizes st ++ [d_size result])%list in
  broker <- hda_const broker_endpoint ;;
  h <- hda_get "headers" headers ;;
  response <- requests_post E (broker ++ "/dataorder") h data ;;
  ok <- hda_const CONST_HTTP_SUCCESS_CODE ;;
  if status_code response =? ok then
    order_id <- json_field response "orderId" ;;
    let order_ids := (ol_order_ids st ++ [order_id])%list in
    shown <- py_index order_ids (ol_i st) ;;
    print (Line ("Query successfully submitted. Order ID is " ++ shown)) ;;
    polled <- py_index order_ids (ol_i st) ;;
    response' <- get_order_status E fuel polled ;;
    ret (mkOrderLoop (S (ol_i st)) order_ids order_sizes (Some response'))
  else
    print (Unexpected response) ;;
    ret (mkOrderLoop (S (ol_i st)) (ol_order_ids st) order_sizes (Some response)).

Fixpoint order_loop (E : Env) (fuel : nat) (content : list Descriptor)
    (st : OrderLoop) : M OrderLoop :=
  match content with
  | [] => ret st
  | result :: more =>
      st' <- order_step E fuel result st ;;
      order_loop E fuel more st'
  end.

Definition set_order_ids (l : list string) (s : Session) : Session :=
  mkSession (broker_endpoint s) (acceptTandC_address s) (accessToken_address s)
    (dataset_id s) (api_key s) (CONST_HTTP_SUCCESS_CODE s) (download_dir_path s)
    (headers s) (job_id s) (results s) (Some l) (order_sizes s)
    (order_status_response s).
Definition set_order_sizes (l : list PyInt) (s : Session) : Session :=
  mkSession (broker_endpoint s) (acceptTandC_address s) (accessToken_address s)
    (dataset_id s) (api_key s) (CONST_HTTP_SUCCESS_CODE s) (download_dir_path s)
    (headers s) (job_id s) (results s) (order_ids s) (Some l)
    (order_status_response s).
Definition set_order_status_response (r : Response) (s : Session) : Session :=
  mkSession (broker_endpoint s) (acceptTandC_address s) (accessToken_address s)
    (dataset_id s) (api_key s) (CONST_HTTP_SUCCESS_CODE s) (download_dir_path s)
    (headers s) (job_id s) (results s) (order_ids s) (order_sizes s) (Some r).

(** [get_order_ids(hda_dict)]; [fuel] bounds each status poll.  The returned
    dictionary is [hda_dict] itself, which is in the world. *)
Definition get_order_ids (E : Env) (fuel : nat) : M unit :=
  content <- hda_get "results" results ;;
  st <- order_loop E fuel content (mkOrderLoop 0 [] [] None) ;;
  modify (set_hda (set_order_ids (ol_order_ids st))) ;;
  modify (set_hda (set_order_sizes (ol_order_sizes st))) ;;
  response <- local "response" (ol_response st) ;;
  modify (set_hda (set_order_status_response response)).

(** ** [get_filenames] *)

Definition get_filenames : M (list string) :=
  content <- hda_get "results" results ;;
  ret (map d_filename content).

(** ** Paths and files *)

Definition starts_with_slash (s : string) : bool :=
  match s with
  | String c _ => Ascii.eqb c "/"
  | EmptyString => false
  end.

Fixpoint ends_with_slash (s : string) : bool :=
  match s with
  | EmptyString => false
  | String c EmptyString => Ascii.eqb c "/"
  | String _ s' => ends_with_slash s'
  end.

(** [os.path.join(a, b)] of [posixpath]. *)
Definition os_path_join (a b : string) : string :=
  if starts_with_slash b then b
  else if (String.length a =? 0)%nat || ends_with_slash a then a ++ b
  else a ++ "/" ++ b.

(** [open(filename, 'wb')] when it succeeds: the file is created, or
    emptied.  The errors of [open] (a directory that is missing, a name
    that is a directory, a path that cannot be written) are outside the
    model: what is stated about a call of [downloadFile] past its success
    response is about a call whose file could be opened. *)
Definition open_wb (E : Env) (filename : string) : M unit :=
  modify (set_file (realpath E filename) []).

(** [f.write(chunk)] on the file opened at [filename]. *)
Definition f_write (E : Env) (filename : string) (chunk : bytes) : M unit :=
  modify (fun w =>
    let p := realpath E filename in
    let content := match files w p with Some c => c | None => [] end in
    set_file p (content ++ chunk)%list w).

(** [os.path.isfile(p)] *)
Definition os_path_isfile (E : Env) (p : string) : M bool :=
  gets (fun w => match files w (realpath E p) with Some _ => true | None => false end).

(** ** [downloadFile] *)

Definition CHUNK_SIZE : Z := 64738.

Definition len (chunk : bytes) : Z := Z.of_nat (List.length chunk).

(** The loop [for chunk in r.iter_content(64738)], with the counter [dl].
    [dl += len(chunk)]
    [f.write(chunk)]
    [if total_length is not None:]
    [    done = int(50 * dl / total_length)]
    [    print("\r[%s%s]  %8.2f Mbps" % (..., (dl//(time.process_time() - start))/(1024*1024)), ...)]
    [else:]
    [    if( dl % (1024)  == 0 ):]
    [        print("[%8.2f] MB downloaded, %8.2f kbps" % (..., (dl//(time.process_time() - start))/1024))] *)
Fixpoint download_loop (E : Env) (filename : string) (start : Z)
    (total_length : PyInt) (chunks : list bytes) (dl : Z) : M Z :=
  match chunks with
  | [] => ret dl
  | chunk :: more =>
      let dl := dl + len chunk in
      f_write E filename chunk ;;
      match total_length with
      | Some total =>
          div_check by_total_length total ;;
          now <- process_time E ;;
          div_check by_elapsed_time (now - start) ;;
          print (ProgressBar dl total (now - start))
      | None =>
          if dl mod 1024 =? 0 then
            now <- process_time E ;;
            div_check by_elapsed_time (now - start) ;;
            print (Downloaded dl (now - start))
          else ret tt
      end ;;
      download_loop E filename start total_length more dl
  end.

(** [total_length/(1024*1024)], which needs a number. *)
Definition number (v : PyInt) : M Z :=
  match v with
  | Some n => ret n
  | None => raise TypeError
  end.

(** [downloadFile(url, headers, directory, file_name, total_length)]; the
    result is the elapsed time, or [None] when the function falls off its
    end. *)
Definition downloadFile (E : Env) (url : string) (h : list (string * string))
    (directory file_name : string) (total_length : PyInt) : M PyInt :=
  modify (add_download (mkDownload url h directory file_name total_length)) ;;
  r <- requests_get E url h true ;;
  print (Line "OK") ;;
  print (Line "directory") ;;
  if status_code r =? 200 then
    let filename := os_path_join directory file_name in
    print (Line ("Downloading " ++ filename)) ;;
    open_wb E filename ;;
    start <- process_time E ;;
    total <- number total_length ;;
    print (FileSize total) ;;
    dl <- download_loop E filename start total_length (iter_content r CHUNK_SIZE) 0 ;;
    now <- process_time E ;;
    div_check by_elapsed_time (now - start) ;;
    print (Downloaded dl (now - start)) ;;
    now' <- process_time E ;;
    ret (Some (now' - start))
  else ret None.

(** The default of the last parameter: [total_length = 0]. *)
Definition downloadFile_default (E : Env) (url : string)
    (h : list (string * string)) (directory file_name : string) : M PyInt :=
  downloadFile E url h directory file_name (Some 0).

(** ** [download_data] *)

(** The body of [for order_id in hda_dict['order_ids']], at index [i]. *)
Definition download_step (E : Env) (fileName : list string) (i : nat)
    (order_id : string) : M unit :=
  print (Line order_id) ;;
  file_name <- py_index fileName i ;;
  broker <- hda_const broker_endpoint ;;
  let download_url := broker ++ "/dataorder/download/" ++ order_id in
  sizes <- hda_get "order_sizes" order_sizes ;;
  product_size <- py_index sizes i ;;
  print (Line download_url) ;;
  h <- hda_get "headers" headers ;;
  print (Headers h) ;;
  print (Line "<class 'str'>") ;;
  print (Size product_size) ;;
  directory <- hda_const download_dir_path ;;
  time_elapsed <- downloadFile E download_url h directory file_name product_size ;;
  print (Line "Download complete...") ;;
  print (TimeElapsed time_elapsed) ;;
  response <- hda_get "order_status_response" order_status_response ;;
  ok <- hda_const CONST_HTTP_SUCCESS_CODE ;;
  if status_code response =? ok then
    let order_file := "./" ++ file_name in
    there <- os_path_isfile E order_file ;;
    if there then raise TypeError   (* a text + a response *)
    else ret tt
  else print (Unexpected response).

Fixpoint download_loop_ids (E : Env) (fileName : list string) (i : nat)
    (ids : list string) : M unit :=
  match ids with
  | [] => ret tt
  | order_id :: more =>
      download_step E fileName i order_id ;;
      download_loop_ids E fileName (S i) more
  end.

Definition download_data (E : Env) : M unit :=
  fileName <- get_filenames ;;
  print (Names fileName) ;;
  ids <- hda_get "order_ids" order_ids ;;
  download_loop_ids E fileName 0 ids.

(** ** Vocabulary for the statements about the pollers *)

(** The request that [get_request_status] repeats. *)
Definition request_status_rq (s : Session) (h : list (string * string))
    (job : string) : Request :=
  mkRequest GET (broker_endpoint s ++ "/datarequest/status/" ++ job) h [] false.

(** The request that [get_order_status] repeats. *)
Definition order_status_rq (s : Session) (h : list (string * string))
    (order_id : string) : Request :=
  mkRequest GET (broker_endpoint s ++ "/dataorder/status/" ++ order_id) h [] false.

(** A success response whose [status] field is [st]. *)
Definition answers_status (st : string) (r : Response) : Prop :=
  status_code r = 200
  /\ exists o, text r = Some o /\ assoc "status" o = Some st.

(** A call with a loop terminates when some amount of fuel is enough for it
    to return or raise; it fails explicitly when it raises. *)
Definition terminates {A} (c : nat -> M A) (w : World) : Prop :=
  exists fuel, fst (c fuel w) <> Running.

Definition fails_explicitly {A} (c : nat -> M A) (w : World) : Prop :=
  exists fuel e, fst (c fuel w) = Raises e.

(** ** Vocabulary for the statements about [downloadFile] *)

(** The request that [downloadFile] sends. *)
Definition download_rq (url : string) (h : list (string * string)) : Request :=
  mkRequest GET url h [] true.

(** The sum of the lengths of some chunks. *)
Definition total_len (chunks : list bytes) : Z :=
  fold_right (fun c n => len c + n) 0 chunks.

(** The content of the file that [filename] names, if there is one. *)
Definition file_at (E : Env) (w : World) (filename : string) : option bytes :=
  files w (realpath E filename).

(** The world after the request of [downloadFile] and its first prints. *)
Definition requested (E : Env) (url : string) (h : list (string * string))
    (directory file_name : string) (total_length : PyInt) (w : World) : World :=
  let rq := download_rq url h in
  let r := transport E (List.length (exchanges w)) rq in
  add_out (Line "directory")
    (add_out (Line "OK")
       (add_exchange (rq, r)
          (add_download (mkDownload url h directory file_name total_length) w))).

(** The world when the file has been opened and [start] read. *)
Definition opened (E : Env) (url : string) (h : list (string * string))
    (directory file_name : string) (total_length : PyInt) (w : World) : World :=
  let filename := os_path_join directory file_name in
  tick (set_file (realpath E filename) []
          (add_out (Line ("Downloading " ++ filename))
             (requested E url h directory file_name total_length w))).

(** ** Vocabulary for the statements about orders and downloads *)

(** The request that [get_order_ids] sends for a result descriptor. *)
Definition order_rq (s : Session) (h : list (string * string)) (job : string)
    (d : Descriptor) : Request :=
  mkRequest POST (broker_endpoint s ++ "/dataorder") h
    [("jobId", job); ("uri", d_url d)] false.

Definition is_post (x : Request * Response) : bool :=
  match rq_method (fst x) with
  | POST => true
  | _ => false
  end.

(** The order requests among some exchanges, oldest first. *)
Definition order_posts (l : list (Request * Response)) : list (Request * Response) :=
  filter is_post l.

(** The result file an order request is for. *)
Definition ordered_uri (x : Request * Response) : option string :=
  assoc "uri" (rq_json (fst x)).

(** An order request that was answered with the success code. *)
Definition accepted (ok : Z) (x : Request * Response) : bool :=
  status_code (snd x) =? ok.

(** The order id in the answer to an order request. *)
Definition granted_id (x : Request * Response) : option string :=
  match text (snd x) with
  | Some o => assoc "orderId" o
  | None => None
  end.

(** The call of [downloadFile] that belongs to an order id and a result
    descriptor. *)
Definition download_of (s : Session) (h : list (string * string))
    (order_id : string) (d : Descriptor) : Download :=
  mkDownload (broker_endpoint s ++ "/dataorder/download/" ++ order_id) h
    (download_dir_path s) (d_filename d) (d_size d).

(** A broker that accepts every order request, with an order id. *)
Definition accepts_orders (E : Env) : Prop :=
  forall k rq,
    rq_method rq = POST ->
    status_code (transport E k rq) = 200
    /\ exists oid, granted_id (rq, transport E k rq) = Some oid.

(** An answer that keeps a poller polling: not a success, or a status other
    than ["completed"]. *)
Definition pending (r : Response) : Prop :=
  status_code r <> 200
  \/ exists st, st <> "completed" /\ answers_status st r.

(** A broker that answers ["completed"] to every status request repeated
    fewer than [bound] times, whenever the repetition starts. *)
Definition completes_within (E : Env) (bound : nat) : Prop :=
  forall k rq,
    rq_method rq = GET -> rq_stream rq = false ->
    exists n,
      (n < bound)%nat
      /\ answers_status "completed" (transport E (k + n) rq)
      /\ forall m, (m < n)%nat -> pending (transport E (k + m) rq).

(** A clock that never reads the same twice. *)
Definition clock_moves (E : Env) : Prop :=
  forall n m, (n < m)%nat -> clock E n <> clock E m.

(** A result file whose size is a number other than zero. *)
Definition sized (d : Descriptor) : Prop :=
  exists t, d_size d = Some t /\ t <> 0.

(** ** Sample surroundings *)

Definition no_chunks : Z -> list bytes := fun _ => [].

(** A session after [init], [get_access_token] and [get_job_id]. *)
Definition sample_session (content : option (list Descriptor)) : Session :=
  let s := init "EO:ECMWF:DAT:CAMS_EUROPE_AIR_QUALITY_FORECASTS" "a2V5" "./data/" in
  mkSession (broker_endpoint s) (acceptTandC_address s) (accessToken_address s)
    (dataset_id s) (api_key s) (CONST_HTTP_SUCCESS_CODE s) (download_dir_path s)
    (Some [("Authorization", "Bearer t"); ("Accept", "application/json")])
    (Some "job-1") content None None None.

Definition sample_world (content : option (list Descriptor)) : World :=
  mkWorld (sample_session content) [] 0 (fun _ => None) [] [].

Definition sample_headers : list (string * string) :=
  [("Authorization", "Bearer t"); ("Accept", "application/json")].

(** A transport that answers every request with the status [st]. *)
Definition status_transport (st : string) : nat -> Request -> Response :=
  fun _ _ => mkResponse 200 (Some [("status", st)]) no_chunks.

(** A clock that advances by one tick at every reading. *)
Definition ticking : nat -> Z := fun k => Z.of_nat k.

Definition same_path : string -> string := fun p => p.

Definition failed_env : Env := mkEnv (status_transport "failed") ticking same_path.
Definition completed_env : Env := mkEnv (status_transport "completed") ticking same_path.

(** A transport that answers every request with the status code [code] and
    a body of the given chunks. *)
Definition body_transport (code : Z) (chunks : list bytes) : nat -> Request -> Response :=
  fun _ _ => mkResponse code None (fun _ => chunks).

Definition two_chunks : list bytes := [[Byte.x61]; [Byte.x62; Byte.x63]].

(** A clock that does not move. *)
Definition frozen : nat -> Z := fun _ => 5.

Definition steady_env : Env := mkEnv (body_transport 200 two_chunks) ticking same_path.
Definition frozen_env : Env := mkEnv (body_transport 200 two_chunks) frozen same_path.
Definition empty_env : Env := mkEnv (body_transport 200 []) ticking same_path.
Definition not_found_env : Env := mkEnv (body_transport 404 two_chunks) ticking same_path.

Definition sample_url : string :=
  "https://wekeo-broker.apps.mercator.dpi.wekeo.eu/databroker/dataorder/download/order-1".

(** Two result files. *)
Definition file_a : Descriptor := mkDescriptor "a.nc" (Some 3) "https://archive/a.nc".
Definition file_b : Descriptor := mkDescriptor "b.nc" (Some 7) "https://archive/b.nc".
Definition two_results : list Descriptor := [file_a; file_b].

(** A broker that completes every job and order at once and serves the same
    three bytes for every download; it may refuse the orders of one file. *)
Definition broker_transport (refused : option string) : nat -> Request -> Response :=
  fun _ rq =>
    match rq_method rq with
    | POST =>
        let uri := match assoc "uri" (rq_json rq) with
                   | Some u => u
                   | None => ""
                   end in
        match refused with
        | Some u =>
            if String.eqb uri u then mkResponse 500 None no_chunks
            else mkResponse 200 (Some [("orderId", "order-" ++ uri)]) no_chunks
        | None => mkResponse 200 (Some [("orderId", "order-" ++ uri)]) no_chunks
        end
    | _ => mkResponse 200 (Some [("status", "completed")]) (fun _ => two_chunks)
    end.

Definition broker_env : Env := mkEnv (broker_transport None) ticking same_path.
Definition picky_env : Env :=
  mkEnv (broker_transport (Some "https://archive/b.nc")) ticking same_path.

(** The world after [get_order_ids] with the broker that refuses the order of
    the second file. *)
Definition picky_ordered : World :=
  snd (get_order_ids picky_env 1 (sample_world (Some two_results))).

(** The world after [get_order_ids] when the only result file is the one
    whose order the broker refuses. *)
Definition refused_ordered : World :=
  snd (get_order_ids picky_env 1 (sample_world (Some [file_b]))).

(** ** The stages before the orders *)

Definition set_headers (h : list (string * string)) (s : Session) : Session :=
  mkSession (broker_endpoint s) (acceptTandC_address s) (accessToken_address s)
    (dataset_id s) (api_key s) (CONST_HTTP_SUCCESS_CODE s) (download_dir_path s)
    (Some h) (job_id s) (results s) (order_ids s) (order_sizes s)
    (order_status_response s).
Definition set_job_id (j : string) (s : Session) : Session :=
  mkSession (broker_endpoint s) (acceptTandC_address s) (accessToken_address s)
    (dataset_id s) (api_key s) (CONST_HTTP_SUCCESS_CODE s) (download_dir_path s)
    (headers s) (Some j) (results s) (order_ids s) (order_sizes s)
    (order_status_response s).

(** The keys [access_token] and [parsedResponse] of [hda_dict].  Only
    [get_access_token] and [query_metadata] touch them, and each writes them
    in its last statements, after everything that can raise: the two stages
    take these keys and return them as they leave them. *)
Record Keys : Set := mkKeys {
  access_token : option string;
  parsedResponse : option (list (string * string))
}.

(** [get_access_token(hda_dict)].  [response_headers] gives the headers of a
    response, which are only printed.
    [headers = { 'Authorization': 'Basic ' + hda_dict['api_key'] }]
    [response = requests.get(hda_dict['accessToken_address'], headers=headers, verify=False)]
    [if (response.status_code == CONST): access_token = json.loads(response.text)['access_token']; print(...)]
    [else: print("Error: Unexpected response {}".format(response)); print(response.headers)]
    [hda_dict['access_token'] = access_token]
    [hda_dict['headers'] = {'Authorization': 'Bearer ' + hda_dict["access_token"], 'Accept': 'application/json'}] *)
Definition get_access_token (E : Env)
    (response_headers : Response -> list (string * string)) (keys : Keys) : M Keys :=
  api <- hda_const api_key ;;
  let h := [("Authorization", "Basic " ++ api)] in
  print (Line "Getting an access token. This token is valid for one hour only.") ;;
  address <- hda_const accessToken_address ;;
  response <- requests_get E address h false ;;
  ok <- hda_const CONST_HTTP_SUCCESS_CODE ;;
  bound <- (if status_code response =? ok then
              token <- json_field response "access_token" ;;
              print (Line ("Success: Access token is " ++ token)) ;;
              ret (Some token)
            else
              print (Unexpected response) ;;
              print (Headers (response_headers response)) ;;
              ret None) ;;
  token <- local "access_token" bound ;;
  modify (set_hda (set_headers [("Authorization", "Bearer " ++ token);
                                ("Accept", "application/json")])) ;;
  ret (mkKeys (Some token) (parsedResponse keys)).

(** [json.loads(response.text)], for the bodies of the model. *)
Definition json_loads (r : Response) : M (list (string * string)) :=
  match text r with
  | Some o => ret o
  | None => raise JSONDecodeError
  end.

(** [hda_dict[key]] for one of the two keys kept beside the world. *)
Definition key_get {A} (key : string) (v : option A) : M A :=
  match v with
  | Some a => ret a
  | None => raise (KeyError key)
  end.

(** [query_metadata(hda_dict)].  [dumps] is
    [json.dumps(_, indent=4, sort_keys=True)], whose text is only printed. *)
Definition query_metadata (E : Env) (dumps : list (string * string) -> string)
    (keys : Keys) : M Keys :=
  broker <- hda_const broker_endpoint ;;
  dataset <- hda_const dataset_id ;;
  h <- hda_get "headers" headers ;;
  response <- requests_get E (broker ++ "/querymetadata/" ++ dataset) h false ;;
  token <- key_get "access_token" (access_token keys) ;;
  print (Line ("Getting query metadata, URL Is " ++ broker ++ "/querymetadata/"
               ++ dataset ++ "?access_token=" ++ token)) ;;
  print (Line ("************** Query Metadata for " ++ dataset ++ " **************")) ;;
  ok <- hda_const CONST_HTTP_SUCCESS_CODE ;;
  bound <- (if status_code response =? ok then
              parsed <- json_loads response ;;
              print (Line (dumps parsed)) ;;
              print (Line "**************************************************************************") ;;
              ret (Some parsed)
            else
              print (Unexpected response) ;;
              ret None) ;;
  parsed <- local "parsedResponse" bound ;;
  ret (mkKeys (access_token keys) (Some parsed)).

(** [get_job_id(hda_dict, data)]; [data] is the dataset description that is
    sent as it is, [fuel] bounds the status poll.
    [response = requests.post(hda_dict['broker_endpoint'] + '/datarequest', headers=hda_dict['headers'], json=data, verify=False)]
    [if (response.status_code == CONST): job_id=json.loads(response.text)['jobId']; print(...)]
    [else: job_id=""; print("Error: Unexpected response {}".format(response))]
    [hda_dict['job_id']=job_id]
    [get_request_status(hda_dict)] *)
Definition get_job_id (E : Env) (fuel : nat) (data : list (string * string)) : M unit :=
  broker <- hda_const broker_endpoint ;;
  h <- hda_get "headers" headers ;;
  response <- requests_post E (broker ++ "/datarequest") h data ;;
  ok <- hda_const CONST_HTTP_SUCCESS_CODE ;;
  job <- (if status_code response =? ok then
            job <- json_field response "jobId" ;;
            print (Line ("Query successfully submitted. Job ID is " ++ job)) ;;
            ret job
          else
            print (Unexpected response) ;;
            ret "") ;;
  modify (set_hda (set_job_id job)) ;;
  get_request_status E fuel.

(** ** Vocabulary for the further statements *)

(** The request of [get_access_token]. *)
Definition token_rq (s : Session) : Request :=
  mkRequest GET (accessToken_address s)
    [("Authorization", "Basic " ++ api_key s)] [] false.

(** The headers that [get_access_token] stores for a token. *)
Definition bearer (token : string) : list (string * string) :=
  [("Authorization", "Bearer " ++ token); ("Accept", "application/json")].

(** The request of [query_metadata]. *)
Definition metadata_rq (s : Session) (h : list (string * string)) : Request :=
  mkRequest GET (broker_endpoint s ++ "/querymetadata/" ++ dataset_id s) h [] false.

(** The request with which [get_job_id] submits the dataset description. *)
Definition submit_rq (s : Session) (h : list (string * string))
    (data : list (string * string)) : Request :=
  mkRequest POST (broker_endpoint s ++ "/datarequest") h data false.

(** The field [key] of a response that is a JSON object. *)
Definition field (key : string) (r : Response) : option string :=
  match text r with
  | Some o => assoc key o
  | None => None
  end.

(** A character of the Base64 alphabet, or the padding. *)
Definition base64_char (c : byte) : Prop := In c Base64.table \/ c = Base64.pad.

(** The call of [downloadFile] that [download_data] makes for an order id, a
    file name and a size. *)
Definition download_call (s : Session) (h : list (string * string))
    (x : string * string * PyInt) : Download :=
  mkDownload (broker_endpoint s ++ "/dataorder/download/" ++ fst (fst x)) h
    (download_dir_path s) (snd (fst x)) (snd x).

(** A clock whose readings grow. *)
Definition clock_grows (E : Env) : Prop :=
  forall n m, (n < m)%nat -> clock E n < clock E m.

(** A transport for the first stages: it hands out the token [tok-1], takes
    every dataset description as the job [job-7] and reports every job as
    completed. *)
Definition portal_transport : nat -> Request -> Response :=
  fun _ rq =>
    match rq_method rq with
    | POST => mkResponse 200 (Some [("jobId", "job-7")]) no_chunks
    | _ => mkResponse 200 (Some [("access_token", "tok-1"); ("status", "completed")])
             no_chunks
    end.

Definition portal_env : Env := mkEnv portal_transport ticking same_path.

(** A transport that refuses everything. *)
Definition refusing_env : Env := mkEnv (body_transport 503 []) ticking same_path.

(** The world with the dictionary as [init] leaves it. *)
Definition fresh_world : World :=
  mkWorld (init "EO:ECMWF:DAT:CAMS_EUROPE_AIR_QUALITY_FORECASTS" "a2V5" "./data/")
    [] 0 (fun _ => None) [] [].

Definition no_keys : Keys := mkKeys None None.
Definition no_response_headers : Response -> list (string * string) := fun _ => [].
Definition sample_data : list (string * string) :=
  [("datasetId", "EO:ECMWF:DAT:CAMS_EUROPE_AIR_QUALITY_FORECASTS")].

(** A transport whose first [n] answers say ["running"] and whose later
    answers say ["completed"]. *)
Definition slow_transport (n : nat) : nat -> Request -> Response :=
  fun k _ =>
    if (k <? n)%nat then mkResponse 200 (Some [("status", "running")]) no_chunks
    else mkResponse 200 (Some [("status", "completed")]) no_chunks.

Definition slow_env : Env := mkEnv (slow_transport 2) ticking same_path.

(** A dictionary whose download directory is the working directory, after
    two orders were placed and completed. *)
Definition here_world : World :=
  let s := init "EO:ECMWF:DAT:CAMS_EUROPE_AIR_QUALITY_FORECASTS" "a2V5" "./" in
  mkWorld
    (mkSession (broker_endpoint s) (acceptTandC_address s) (accessToken_address s)
       (dataset_id s) (api_key s) (CONST_HTTP_SUCCESS_CODE s) (download_dir_path s)
       (Some sample_headers) (Some "job-1") (Some two_results)
       (Some ["order-1"; "order-2"]) (Some [Some 3; Some 7])
       (Some (mkResponse 200 (Some [("status", "completed")]) no_chunks)))
    [] 0 (fun _ => None) [] [].

(** The dictionary after [get_order_ids] with the broker that accepts every
    order. *)
Definition broker_ordered : World :=
  snd (get_order_ids broker_env 1 (sample_world (Some two_results))).

(** * Properties *)

(** ** Base64 decoding undoes Base64 encoding *)

Module Base64Facts.
Import Base64.
Local Open Scope N_scope.

Lemma below_complete (k : nat) (n : N) : n < N.of_nat k -> In n (below k).
Proof.
  intros H. unfold below. apply in_map_iff.
  exists (N.to_nat n). split.
  - apply N2Nat.id.
  - apply in_seq. lia.
Qed.

Lemma forall_below (k : nat) (f : N -> bool) :
  forallb f (below k) = true -> forall n, n < N.of_nat k -> f n = true.
Proof.
  intros H n Hn. rewrite forallb_forall in H.
  apply H, below_complete, Hn.
Qed.

Lemma forall_below2 (k : nat) (f : N -> N -> bool) :
  forallb (fun a => forallb (f a) (below k)) (below k) = true ->
  forall a b, a < N.of_nat k -> b < N.of_nat k -> f a b = true.
Proof.
  intros H a b Ha Hb.
  pose proof (forall_below k _ H a Ha) as Hrow. cbv beta in Hrow.
  apply (forall_below k _ Hrow b Hb).
Qed.

Lemma to_N_lt (b : byte) : Byte.to_N b < N.of_nat 256.
Proof. pose proof (Byte.to_N_bounded b). lia. Qed.

Lemma char_ok_all n : n < 64 -> char_ok n = true.
Proof. apply (forall_below 64 char_ok). vm_compute. reflexivity. Qed.

Lemma dec6_enc6 n : n < 64 -> dec6 (enc6 n) = Some n.
Proof.
  intros H. pose proof (char_ok_all n H) as C. unfold char_ok in C.
  destruct (dec6 (enc6 n)) as [m|]; [|discriminate].
  apply andb_prop in C. destruct C as [C _].
  apply N.eqb_eq in C. now subst.
Qed.

Lemma enc6_not_pad n : n < 64 -> is_pad (enc6 n) = false.
Proof.
  intros H. pose proof (char_ok_all n H) as C. unfold char_ok in C.
  destruct (dec6 (enc6 n)) as [m|]; [|discriminate].
  apply andb_prop in C. destruct C as [_ C].
  now apply negb_true_iff in C.
Qed.

Lemma is_pad_pad : is_pad pad = true.
Proof. reflexivity. Qed.

Lemma front_ok_all b0 b1 : b0 < 256 -> b1 < 256 -> front_ok b0 b1 = true.
Proof. apply (forall_below2 256 front_ok). vm_compute. reflexivity. Qed.

Lemma back_ok_all b1 b2 : b1 < 256 -> b2 < 256 -> back_ok b1 b2 = true.
Proof. apply (forall_below2 256 back_ok). vm_compute. reflexivity. Qed.

Lemma front_spec b0 b1 :
  b0 < 256 -> b1 < 256 ->
  sextet0 b0 < 64 /\ sextet1 b0 b1 < 64
  /\ N.land (octet0 (sextet0 b0) (sextet1 b0 b1)) 255 = b0
  /\ N.land (sextet1 b0 b1) 15 = N.shiftr b1 4.
Proof.
  intros H0 H1. pose proof (front_ok_all b0 b1 H0 H1) as C.
  unfold front_ok in C.
  repeat (apply andb_prop in C; destruct C as [C ?]).
  repeat split;
    first [ now apply N.ltb_lt | now apply N.eqb_eq ].
Qed.

Lemma back_spec b1 b2 :
  b1 < 256 -> b2 < 256 ->
  sextet2 b1 b2 < 64 /\ sextet3 b2 < 64
  /\ N.land (N.lor (N.shiftl (N.shiftr b1 4) 4)
                   (N.shiftr (sextet2 b1 b2) 2)) 255 = b1
  /\ N.land (octet2 (sextet2 b1 b2) (sextet3 b2)) 255 = b2.
Proof.
  intros H1 H2. pose proof (back_ok_all b1 b2 H1 H2) as C.
  unfold back_ok in C.
  repeat (apply andb_prop in C; destruct C as [C ?]).
  repeat split;
    first [ now apply N.ltb_lt | now apply N.eqb_eq ].
Qed.

Lemma byte_of_N_masked (b : byte) (n : N) :
  N.land n 255 = Byte.to_N b -> byte_of_N n = b.
Proof.
  intros H. unfold byte_of_N. rewrite H, Byte.of_to_N. reflexivity.
Qed.

Lemma octet0_back (b0 b1 : byte) :
  byte_of_N (octet0 (sextet0 (Byte.to_N b0))
                    (sextet1 (Byte.to_N b0) (Byte.to_N b1))) = b0.
Proof.
  apply byte_of_N_masked.
  apply (front_spec _ _ (to_N_lt b0) (to_N_lt b1)).
Qed.

Lemma octet1_back (b0 b1 b2 : byte) :
  byte_of_N (octet1 (sextet1 (Byte.to_N b0) (Byte.to_N b1))
                    (sextet2 (Byte.to_N b1) (Byte.to_N b2))) = b1.
Proof.
  apply byte_of_N_masked. unfold octet1.
  destruct (front_spec _ _ (to_N_lt b0) (to_N_lt b1)) as (_ & _ & _ & ->).
  apply (back_spec _ _ (to_N_lt b1) (to_N_lt b2)).
Qed.

Lemma octet2_back (b1 b2 : byte) :
  byte_of_N (octet2 (sextet2 (Byte.to_N b1) (Byte.to_N b2))
                    (sextet3 (Byte.to_N b2))) = b2.
Proof.
  apply byte_of_N_masked.
  apply (back_spec _ _ (to_N_lt b1) (to_N_lt b2)).
Qed.

Lemma zero_lt : 0 < N.of_nat 256.
Proof. reflexivity. Qed.

(** Lists are taken apart three elements at a time. *)
Lemma list_ind3 {A} (P : list A -> Prop) :
  P [] -> (forall a, P [a]) -> (forall a b, P [a; b]) ->
  (forall a b c l, P l -> P (a :: b :: c :: l)) ->
  forall l, P l.
Proof.
  intros H0 H1 H2 H3.
  assert (G : forall n l, (List.length l <= n)%nat -> P l).
  { induction n as [n IH] using lt_wf_ind. intros l Hl.
    destruct l as [|a [|b [|c l]]]; auto.
    apply H3. apply (IH (List.length l)); simpl in Hl; lia. }
  intros l. apply (G (List.length l)). lia.
Qed.

Theorem b64decode_b64encode (data : bytes) :
  b64decode (b64encode data) = Some data.
Proof.
  induction data as [|b0|b0 b1|b0 b1 b2 rest IH] using list_ind3.
  - reflexivity.
  - destruct (front_spec _ _ (to_N_lt b0) zero_lt) as (S0 & S1 & _).
    cbn [b64encode b64decode].
    rewrite (dec6_enc6 _ S0), (dec6_enc6 _ S1), is_pad_pad. cbn [andb].
    pose proof (octet0_back b0 Byte.x00) as B. cbn [Byte.to_N] in B.
    now rewrite B.
  - destruct (front_spec _ _ (to_N_lt b0) (to_N_lt b1)) as (S0 & S1 & _).
    destruct (back_spec _ _ (to_N_lt b1) zero_lt) as (S2 & _).
    cbn [b64encode b64decode].
    rewrite (dec6_enc6 _ S0), (dec6_enc6 _ S1), (dec6_enc6 _ S2).
    rewrite (enc6_not_pad _ S2), is_pad_pad. cbn [andb].
    rewrite octet0_back.
    pose proof (octet1_back b0 b1 Byte.x00) as B. cbn [Byte.to_N] in B.
    now rewrite B.
  - destruct (front_spec _ _ (to_N_lt b0) (to_N_lt b1)) as (S0 & S1 & _).
    destruct (back_spec _ _ (to_N_lt b1) (to_N_lt b2)) as (S2 & S3 & _).
    cbn [b64encode b64decode].
    rewrite (dec6_enc6 _ S0), (dec6_enc6 _ S1), (dec6_enc6 _ S2),
      (dec6_enc6 _ S3).
    rewrite (enc6_not_pad _ S2), (enc6_not_pad _ S3). cbn [andb].
    fold b64decode. rewrite IH.
    now rewrite octet0_back, octet1_back, octet2_back.
Qed.

End Base64Facts.

Example generate_api_key_ex :
  generate_api_key "user" "pass" = "dXNlcjpwYXNz".
Proof. reflexivity. Qed.

Example generate_api_key_ex_pad :
  generate_api_key "ab" "c" = "YWI6Yw==".
Proof. reflexivity. Qed.

Example decode_api_key_ex :
  decode_api_key "YWI6Yw==" = Some "ab:c".
Proof. reflexivity. Qed.

(** C8.  For every username and password, Base64-decoding
    [generate_api_key username password] yields the two inputs joined by a
    colon; the key is a function of the two inputs, and keys are equal only
    for equal joined texts. *)
Theorem generate_api_key_reversible :
  (forall username password,
      decode_api_key (generate_api_key username password)
      = Some (username ++ ":" ++ password))
  /\ (forall u p u' p',
      generate_api_key u p = generate_api_key u' p' ->
      u ++ ":" ++ p = u' ++ ":" ++ p').
Proof.
  assert (R : forall username password,
      decode_api_key (generate_api_key username password)
      = Some (username ++ ":" ++ password)).
  { intros username password.
    unfold decode_api_key, generate_api_key, str_encode, bytes_decode.
    rewrite list_byte_of_string_of_list_byte.
    rewrite Base64Facts.b64decode_b64encode. cbn [option_map].
    now rewrite string_of_list_byte_of_string. }
  split; [exact R|].
  intros u p u' p' H.
  pose proof (R u p) as A. rewrite H, R in A. now inversion A.
Qed.

(** ** [get_filename_from_cd] *)

Module ReFacts.
Import Re.

Lemma append_assoc (a b c : string) : (a ++ b) ++ c = a ++ (b ++ c).
Proof. induction a as [|x a IH]; cbn; [reflexivity | now rewrite IH]. Qed.

Lemma strip_prefix_app (p r : string) : strip_prefix p (p ++ r) = Some r.
Proof.
  induction p as [|a p IH]; cbn; [reflexivity|].
  now rewrite Ascii.eqb_refl.
Qed.

Lemma strip_prefix_inv (p s r : string) :
  strip_prefix p s = Some r -> s = p ++ r.
Proof.
  revert s. induction p as [|a p IH]; intros s H; cbn in H.
  - now inversion H.
  - destruct s as [|b s]; [discriminate|].
    destruct (Ascii.eqb_spec a b) as [->|]; [|discriminate].
    cbn. f_equal. now apply IH.
Qed.

Lemma dots_split (s : string) : s = dots s ++ after_dots s.
Proof.
  induction s as [|c s IH]; cbn; [reflexivity|].
  destruct (dot c); cbn; [now rewrite <- IH | reflexivity].
Qed.

Lemma dots_no_newline (s : string) : no_newline (dots s).
Proof.
  induction s as [|c s IH]; cbn; intros x Hx.
  - destruct Hx.
  - destruct (dot c) eqn:D; cbn in Hx; [|destruct Hx].
    destruct Hx as [<-|Hx]; [|now apply IH].
    unfold dot in D. apply negb_true_iff in D.
    now apply Ascii.eqb_neq in D.
Qed.

Lemma after_dots_stop (s : string) :
  after_dots s = "" \/ exists t, after_dots s = String newline t.
Proof.
  induction s as [|c s IH]; cbn; [now left|].
  destruct (dot c) eqn:D; [exact IH|].
  right. exists s. unfold dot in D. apply negb_false_iff in D.
  apply Ascii.eqb_eq in D. now subst.
Qed.

(** A run without newline in front of anything is inside the greedy run. *)
Lemma dots_app (g post : string) :
  no_newline g -> dots (g ++ post) = g ++ dots post.
Proof.
  induction g as [|c g IH]; intros H; cbn; [reflexivity|].
  assert (D : dot c = true).
  { unfold dot. apply negb_true_iff, Ascii.eqb_neq, H. now left. }
  rewrite D, IH; [reflexivity|].
  intros x Hx. apply H. now right.
Qed.

Lemma contains_match_iff (s : string) :
  contains_match s <-> exists pre r, s = pre ++ r /\ starts_match r.
Proof.
  split.
  - intros (pre & g & post & -> & Hg & Hn).
    exists pre, ("filename=" ++ g ++ post). split; [reflexivity|].
    now exists g, post.
  - intros (pre & r & -> & g & post & -> & Hg & Hn).
    now exists pre, g, post.
Qed.

Lemma match_here_Some (r g : string) :
  match_here r = Some g ->
  exists post, r = "filename=" ++ g ++ post /\ g <> "" /\ no_newline g
    /\ (post = "" \/ exists t, post = String newline t).
Proof.
  unfold match_here. intros H.
  destruct (strip_prefix "filename=" r) as [rest|] eqn:P; [|discriminate].
  apply strip_prefix_inv in P. subst r.
  assert (G : g = dots rest /\ g <> "").
  { destruct (dots rest) eqn:D; [discriminate|].
    inversion H. split; [reflexivity|discriminate]. }
  destruct G as [-> G]. exists (after_dots rest). repeat split.
  - now rewrite <- dots_split.
  - exact G.
  - apply dots_no_newline.
  - apply after_dots_stop.
Qed.

Lemma match_here_starts (r : string) :
  starts_match r -> exists g, match_here r = Some g.
Proof.
  intros (g & post & -> & Hg & Hn). unfold match_here.
  rewrite strip_prefix_app, (dots_app g post Hn).
  destruct g as [|c g]; [contradiction|]. cbn. eauto.
Qed.

Lemma match_here_None (r : string) :
  match_here r = None <-> ~ starts_match r.
Proof.
  split.
  - intros H S. apply match_here_starts in S. destruct S as [g S]. congruence.
  - intros H. destruct (match_here r) as [g|] eqn:M; [|reflexivity].
    exfalso. apply H. apply match_here_Some in M.
    destruct M as (post & E & Hg & Hn & _). now exists g, post.
Qed.

(** The first group that [findall] returns belongs to the leftmost match;
    there is none when no match starts anywhere. *)
Lemma findall_hd (s : string) :
  match findall s with
  | [] => forall pre r, s = pre ++ r -> match_here r = None
  | g :: _ =>
      exists pre r, s = pre ++ r /\ match_here r = Some g
        /\ forall pre' r', s = pre' ++ r' ->
             (String.length pre' < String.length pre)%nat ->
             match_here r' = None
  end.
Proof.
  unfold findall. induction s as [|c s IH].
  - cbn. intros pre r H. destruct pre; [|discriminate]. cbn in H. now subst.
  - cbn [findall_from]. destruct (match_here (String c s)) as [g|] eqn:M.
    + exists "", (String c s). repeat split; [exact M|].
      intros pre' r' _ L. cbn in L. lia.
    + destruct (findall_from 0 s) as [|g l].
      * intros pre r H. destruct pre as [|x pre]; cbn in H.
        -- now subst.
        -- inversion H. now apply (IH pre).
      * destruct IH as (pre & r & -> & Hm & Hl).
        exists (String c pre), r. repeat split; [exact Hm|].
        intros pre' r' H L. destruct pre' as [|x pre']; cbn in H.
        -- now subst.
        -- inversion H. apply (Hl pre'); [assumption|]. cbn in L. lia.
Qed.

Lemma findall_nil_iff (s : string) :
  findall s = [] <-> ~ contains_match s.
Proof.
  rewrite contains_match_iff. pose proof (findall_hd s) as H. split.
  - intros E. rewrite E in H. intros (pre & r & Hs & S).
    apply (proj1 (match_here_None r)) in S; [exact S|]. now apply (H pre).
  - intros N. destruct (findall s) as [|g l]; [reflexivity|].
    exfalso. apply N. destruct H as (pre & r & Hs & Hm & _).
    exists pre, r. split; [exact Hs|].
    apply match_here_Some in Hm. destruct Hm as (post & E & Hg & Hn & _).
    now exists g, post.
Qed.

End ReFacts.

(** The slice [[2:-1]] removes the first two characters and the last one. *)
Lemma substring_as_list (s : string) (a l : nat) :
  substring a l s
  = string_of_list_ascii (firstn l (skipn a (list_ascii_of_string s))).
Proof.
  revert a l. induction s as [|c s IH]; intros a l.
  - destruct a, l; reflexivity.
  - destruct a as [|a].
    + destruct l as [|l]; cbn; [reflexivity|].
      specialize (IH 0%nat l). cbn in IH. now rewrite IH.
    + cbn. apply IH.
Qed.

Lemma length_list_ascii (s : string) :
  List.length (list_ascii_of_string s) = String.length s.
Proof. induction s; cbn; [reflexivity | now f_equal]. Qed.

Lemma py_slice_2_m1 (g : string) : py_slice g 2 (-1) = drop_first2_last1 g.
Proof.
  unfold py_slice, drop_first2_last1, py_bound.
  rewrite substring_as_list, removelast_firstn_len, length_skipn, length_list_ascii.
  cbn [Z.ltb Z.compare].
  set (n := String.length g). f_equal.
  destruct (le_lt_dec 2 n) as [L|L].
  - replace (Z.to_nat (Z.min 2 (Z.of_nat n))) with 2%nat by lia.
    f_equal. lia.
  - replace (Z.to_nat (Z.max 0 (-1 + Z.of_nat n) - Z.min 2 (Z.of_nat n)))
      with 0%nat by lia.
    replace (Nat.pred (n - 2)) with 0%nat by lia. reflexivity.
Qed.

Example get_filename_from_cd_ex :
  get_filename_from_cd (Some "attachment; filename=  abc.nc; ")
  = Some "abc.nc;".
Proof. reflexivity. Qed.

(** C10.  [get_filename_from_cd] returns [None] exactly when its argument is
    [None], is empty, or contains no match of [filename=(.+)]; otherwise
    [re.findall] has a first group, the group of the leftmost match, and the
    result is that group without its first two characters and its last
    one. *)
Theorem get_filename_from_cd_spec :
  (forall cd,
      get_filename_from_cd cd = None
      <-> (cd = None \/ cd = Some ""
           \/ exists s, cd = Some s /\ ~ contains_match s))
  /\ (forall s,
      s <> "" -> contains_match s ->
      exists g rest,
        Re.findall s = g :: rest
        /\ first_group s g
        /\ get_filename_from_cd (Some s) = Some (drop_first2_last1 g)).
Proof.
  split.
  - intros [s|]; [|cbn; split; auto].
    destruct s as [|c s]; [cbn; split; auto|].
    unfold get_filename_from_cd. cbn [py_not String.length Nat.eqb].
    pose proof (ReFacts.findall_nil_iff (String c s)) as N.
    destruct (Re.findall (String c s)) as [|g l]; cbn [List.length Nat.eqb].
    + split; [|reflexivity]. intros _. right. right.
      exists (String c s). split; [reflexivity|]. now apply N.
    + split; [discriminate|].
      intros [H|[H|(s' & H & C)]]; try discriminate.
      inversion H. subst s'. apply N in C. discriminate.
  - intros s Hs C.
    pose proof (ReFacts.findall_hd s) as H.
    pose proof (ReFacts.findall_nil_iff s) as N.
    destruct (Re.findall s) as [|g l] eqn:F.
    + exfalso. now apply (proj1 N).
    + destruct H as (pre & r & Es & Hm & Hl).
      apply ReFacts.match_here_Some in Hm.
      destruct Hm as (post & Er & Hg & Hn & Hp).
      exists g, l. repeat split.
      * exists pre, post. repeat split; try assumption.
        -- now rewrite Es, Er.
        -- intros pre' r' E' L. apply ReFacts.match_here_None.
           now apply (Hl pre').
      * unfold get_filename_from_cd. destruct s as [|c s]; [contradiction|].
        cbn [py_not String.length Nat.eqb]. rewrite F.
        cbn [List.length Nat.eqb]. now rewrite py_slice_2_m1.
Qed.

(** ** Running computations *)

Section Run.
Context {A B : Type}.
Variables (k : A -> M B) (w : World).

Lemma run_ret (a : A) : (x <- ret a ;; k x) w = k a w.
Proof. reflexivity. Qed.

Lemma run_raise (e : PyExc) : (x <- raise e ;; k x) w = (Raises e, w).
Proof. reflexivity. Qed.

Lemma run_running : (x <- running ;; k x) w = (Running, w).
Proof. reflexivity. Qed.

Lemma run_gets (f : World -> A) : (x <- gets f ;; k x) w = k (f w) w.
Proof. reflexivity. Qed.

Lemma run_hda_const (f : Session -> A) :
  (x <- hda_const f ;; k x) w = k (f (hda w)) w.
Proof. reflexivity. Qed.

Lemma run_hda_get (key : string) (f : Session -> option A) :
  (x <- hda_get key f ;; k x) w
  = match f (hda w) with
    | Some a => k a w
    | None => (Raises (KeyError key), w)
    end.
Proof. unfold bind, hda_get. now destruct (f (hda w)). Qed.

Lemma run_local (name : string) (v : option A) :
  (x <- local name v ;; k x) w
  = match v with
    | Some a => k a w
    | None => (Raises (UnboundLocalError name), w)
    end.
Proof. now destruct v. Qed.

Lemma run_py_index (l : list A) (i : nat) :
  (x <- py_index l i ;; k x) w
  = match nth_error l i with
    | Some a => k a w
    | None => (Raises IndexError, w)
    end.
Proof. unfold py_index. now destruct (nth_error l i). Qed.

Lemma run_bind_bind {C} (c : M C) (f : C -> M A) :
  (x <- (y <- c ;; f y) ;; k x) w = (y <- c ;; x <- f y ;; k x) w.
Proof. unfold bind. now destruct (c w) as [[c0|e|] w0]. Qed.
End Run.

Section RunUnit.
Context {B : Type}.
Variables (k : unit -> M B) (w : World).

Lemma run_modify (f : World -> World) : (x <- modify f ;; k x) w = k tt (f w).
Proof. reflexivity. Qed.

Lemma run_print (o : Out) : (x <- print o ;; k x) w = k tt (add_out o w).
Proof. reflexivity. Qed.

Lemma run_div_check (d : Division) (z : Z) :
  (x <- div_check d z ;; k x) w
  = if z =? 0 then (Raises (ZeroDivisionError d), w) else k tt w.
Proof. unfold div_check. now destruct (z =? 0). Qed.
End RunUnit.

Lemma run_send {B} (E : Env) (rq : Request) (k : Response -> M B) (w : World) :
  (r <- send E rq ;; k r) w
  = let r := transport E (List.length (exchanges w)) rq in
    k r (add_exchange (rq, r) w).
Proof. reflexivity. Qed.

Lemma run_process_time {B} (E : Env) (k : Z -> M B) (w : World) :
  (t <- process_time E ;; k t) w = k (clock E (clock_reads w)) (tick w).
Proof. reflexivity. Qed.

Lemma run_json_field {B} (r : Response) (key : string) (k : string -> M B)
    (w : World) :
  (v <- json_field r key ;; k v) w
  = match text r with
    | None => (Raises JSONDecodeError, w)
    | Some o =>
        match assoc key o with
        | Some v => k v w
        | None => (Raises (KeyError key), w)
        end
    end.
Proof.
  unfold json_field. destruct (text r) as [o|]; [|reflexivity].
  now destruct (assoc key o).
Qed.

Lemma run_number {B} (v : PyInt) (k : Z -> M B) (w : World) :
  (n <- number v ;; k n) w
  = match v with
    | Some n => k n w
    | None => (Raises TypeError, w)
    end.
Proof. now destruct v. Qed.

Create Rewrite HintDb py.
#[export] Hint Rewrite @run_ret @run_raise @run_running @run_gets @run_hda_const
  @run_hda_get @run_local @run_py_index @run_bind_bind @run_modify @run_print
  @run_div_check @run_send @run_process_time @run_json_field @run_number : py.

(** One step of a computation: the rules above, then the projections of the
    world that was built. *)
Ltac run :=
  repeat (progress (autorewrite with py;
                    cbn [hda exchanges clock_reads files stdout downloads
                         set_hda add_exchange tick set_file add_out
                         add_download];
                    repeat match goal with
                      | H : ?f (hda ?w) = Some _ |- context [?f (hda ?w)] =>
                          rewrite H
                      end)).

(** ** The status pollers *)

Section Pollers.
Variable E : Env.

(** What one more iteration of [get_request_status] does. *)
Lemma request_status_loop_step fuel status w h job :
  headers (hda w) = Some h -> job_id (hda w) = Some job ->
  status <> "completed" ->
  request_status_loop E (S fuel) status w
  = let rq := request_status_rq (hda w) h job in
    let r := transport E (List.length (exchanges w)) rq in
    let w1 := add_exchange (rq, r) w in
    if status_code r =? CONST_HTTP_SUCCESS_CODE (hda w) then
      match text r with
      | None => (Raises JSONDecodeError, w1)
      | Some o =>
          match assoc "status" o with
          | None => (Raises (KeyError "status"), w1)
          | Some st =>
              request_status_loop E fuel st
                (add_out (Line ("Query successfully submitted. Status is " ++ st)) w1)
          end
      end
    else request_status_loop E fuel status (add_out (Unexpected r) w1).
Proof.
  intros Hh Hj Hs. apply String.eqb_neq in Hs.
  cbn [request_status_loop]. rewrite Hs. cbn [negb].
  unfold requests_get. run. fold (request_status_rq (hda w) h job).
  cbv zeta. destruct (status_code _ =? _); run; [|reflexivity].
  destruct (text _) as [o|]; [|reflexivity].
  destruct (assoc "status" o); run; reflexivity.
Qed.

(** What one more iteration of [get_order_status] does. *)
Lemma order_status_loop_step fuel order_id status response w h :
  headers (hda w) = Some h ->
  status <> "completed" ->
  order_status_loop E (S fuel) order_id status response w
  = let rq := order_status_rq (hda w) h order_id in
    let r := transport E (List.length (exchanges w)) rq in
    let w1 := add_exchange (rq, r) w in
    if status_code r =? CONST_HTTP_SUCCESS_CODE (hda w) then
      match text r with
      | None => (Raises JSONDecodeError, w1)
      | Some o =>
          match assoc "status" o with
          | None => (Raises (KeyError "status"), w1)
          | Some st =>
              order_status_loop E fuel order_id st (Some r)
                (add_out (Line ("Query successfully submitted. Status is " ++ st)) w1)
          end
      end
    else order_status_loop E fuel order_id status (Some r)
           (add_out (Unexpected r) w1).
Proof.
  intros Hh Hs. apply String.eqb_neq in Hs.
  cbn [order_status_loop]. rewrite Hs. cbn [negb].
  unfold requests_get. run. fold (order_status_rq (hda w) h order_id).
  cbv zeta. destruct (status_code _ =? _); run; [|reflexivity].
  destruct (text _) as [o|]; [|reflexivity].
  destruct (assoc "status" o); run; reflexivity.
Qed.

Lemma request_status_loop_completed fuel w :
  request_status_loop E fuel "completed" w = (Returns tt, w).
Proof. destruct fuel; reflexivity. Qed.

Lemma order_status_loop_completed fuel order_id r w :
  order_status_loop E fuel order_id "completed" (Some r) w = (Returns r, w).
Proof. destruct fuel; reflexivity. Qed.

(** A status other than ["completed"] on every call keeps
    [get_request_status] in its loop, one request per iteration. *)
Lemma request_status_loop_pending h job :
  (forall k rq, exists st,
      st <> "completed" /\ answers_status st (transport E k rq)) ->
  forall fuel status w,
    headers (hda w) = Some h -> job_id (hda w) = Some job ->
    CONST_HTTP_SUCCESS_CODE (hda w) = 200 ->
    status <> "completed" ->
    exists w',
      request_status_loop E fuel status w = (Running, w')
      /\ List.length (exchanges w') = (List.length (exchanges w) + fuel)%nat.
Proof.
  intros HT. induction fuel as [|fuel IH]; intros status w Hh Hj Hc Hs.
  - exists w. split; [|lia]. cbn. apply String.eqb_neq in Hs. now rewrite Hs.
  - rewrite (request_status_loop_step fuel status w h job Hh Hj Hs). cbv zeta.
    destruct (HT (List.length (exchanges w)) (request_status_rq (hda w) h job))
      as (st & Hst & Hcode & o & Ho & Ha).
    rewrite Hcode, Hc, Z.eqb_refl, Ho, Ha.
    edestruct (IH st) as (w' & R & L); [..|exact Hst|]; cycle -1.
    + exists w'. split; [exact R|]. rewrite L. cbn. rewrite length_app. cbn. lia.
    + exact Hh.
    + exact Hj.
    + exact Hc.
Qed.

Lemma order_status_loop_pending h order_id :
  (forall k rq, exists st,
      st <> "completed" /\ answers_status st (transport E k rq)) ->
  forall fuel status response w,
    headers (hda w) = Some h ->
    CONST_HTTP_SUCCESS_CODE (hda w) = 200 ->
    status <> "completed" ->
    exists w',
      order_status_loop E fuel order_id status response w = (Running, w')
      /\ List.length (exchanges w') = (List.length (exchanges w) + fuel)%nat.
Proof.
  intros HT. induction fuel as [|fuel IH]; intros status response w Hh Hc Hs.
  - exists w. split; [|lia]. cbn. apply String.eqb_neq in Hs. now rewrite Hs.
  - rewrite (order_status_loop_step fuel order_id status response w h Hh Hs).
    cbv zeta.
    destruct (HT (List.length (exchanges w)) (order_status_rq (hda w) h order_id))
      as (st & Hst & Hcode & o & Ho & Ha).
    rewrite Hcode, Hc, Z.eqb_refl, Ho, Ha.
    edestruct (IH st) as (w' & R & L); [..|exact Hst|]; cycle -1.
    + exists w'. split; [exact R|]. rewrite L. cbn. rewrite length_app. cbn. lia.
    + exact Hh.
    + exact Hc.
Qed.

(** A first answer ["completed"] ends [get_request_status] after one
    request. *)
Lemma get_request_status_first fuel w h job :
  headers (hda w) = Some h -> job_id (hda w) = Some job ->
  CONST_HTTP_SUCCESS_CODE (hda w) = 200 ->
  let rq := request_status_rq (hda w) h job in
  let r := transport E (List.length (exchanges w)) rq in
  answers_status "completed" r ->
  get_request_status E (S fuel) w
  = (Returns tt,
     add_out (Line "Query successfully submitted. Status is completed")
       (add_exchange (rq, r) w)).
Proof.
  intros Hh Hj Hc rq r (Hcode & o & Ho & Ha). unfold get_request_status.
  rewrite (request_status_loop_step fuel _ w h job Hh Hj); [|discriminate].
  cbv zeta. fold rq. fold r.
  rewrite Hcode, Hc, Z.eqb_refl, Ho, Ha.
  apply request_status_loop_completed.
Qed.

Lemma get_order_status_first fuel order_id w h :
  headers (hda w) = Some h ->
  CONST_HTTP_SUCCESS_CODE (hda w) = 200 ->
  let rq := order_status_rq (hda w) h order_id in
  let r := transport E (List.length (exchanges w)) rq in
  answers_status "completed" r ->
  get_order_status E (S fuel) order_id w
  = (Returns r,
     add_out (Line "Query successfully submitted. Status is completed")
       (add_exchange (rq, r) w)).
Proof.
  intros Hh Hc rq r (Hcode & o & Ho & Ha). unfold get_order_status.
  rewrite (order_status_loop_step fuel order_id _ _ w h Hh); [|discriminate].
  cbv zeta. fold rq. fold r.
  rewrite Hcode, Hc, Z.eqb_refl, Ho, Ha.
  apply order_status_loop_completed.
Qed.

End Pollers.

(** C7.  When the transport answers the first request with a success
    response whose status is ["completed"], [get_request_status] and
    [get_order_status] return after exactly one status request (and
    [get_order_status] returns that response). *)
Theorem status_polling_one_call (E : Env) (w : World)
    (h : list (string * string)) (job order_id : string) (fuel : nat) :
  headers (hda w) = Some h ->
  job_id (hda w) = Some job ->
  CONST_HTTP_SUCCESS_CODE (hda w) = 200 ->
  (forall rq, answers_status "completed"
                (transport E (List.length (exchanges w)) rq)) ->
  (exists r w',
      get_request_status E (S fuel) w = (Returns tt, w')
      /\ exchanges w' = (exchanges w ++ [(request_status_rq (hda w) h job, r)])%list)
  /\ (exists r w',
      get_order_status E (S fuel) order_id w = (Returns r, w')
      /\ exchanges w' = (exchanges w ++ [(order_status_rq (hda w) h order_id, r)])%list).
Proof.
  intros Hh Hj Hc HT. split; eexists; eexists; split.
  - apply (get_request_status_first E fuel w h job Hh Hj Hc), HT.
  - reflexivity.
  - apply (get_order_status_first E fuel order_id w h Hh Hc), HT.
  - reflexivity.
Qed.

Lemma status_polling_one_call_witness :
  (exists r w',
      get_request_status completed_env 1 (sample_world None) = (Returns tt, w')
      /\ exchanges w'
         = [(request_status_rq (sample_session None) sample_headers "job-1", r)])
  /\ (exists r w',
      get_order_status completed_env 1 "order-1" (sample_world None)
      = (Returns r, w')
      /\ exchanges w'
         = [(order_status_rq (sample_session None) sample_headers "order-1", r)]).
Proof.
  apply (status_polling_one_call completed_env (sample_world None)
           sample_headers "job-1" "order-1" 0).
  - reflexivity.
  - reflexivity.
  - reflexivity.
  - intros rq. split; [reflexivity|].
    exists [("status", "completed")]. split; reflexivity.
Defined.

(** C2, as the code has it.  When every answer is a success response with a
    status other than ["completed"], neither poller ever ends: whatever the
    number of iterations allowed, the loop is still running after having
    sent that many requests, and no failure is reported. *)
Theorem status_polling_never_ends (E : Env) (w : World)
    (h : list (string * string)) (job order_id : string) :
  headers (hda w) = Some h ->
  job_id (hda w) = Some job ->
  CONST_HTTP_SUCCESS_CODE (hda w) = 200 ->
  (forall k rq, exists st,
      st <> "completed" /\ answers_status st (transport E k rq)) ->
  forall fuel,
    (exists w',
        get_request_status E fuel w = (Running, w')
        /\ List.length (exchanges w') = (List.length (exchanges w) + fuel)%nat)
    /\ (exists w',
        get_order_status E fuel order_id w = (Running, w')
        /\ List.length (exchanges w') = (List.length (exchanges w) + fuel)%nat).
Proof.
  intros Hh Hj Hc HT fuel. split.
  - apply (request_status_loop_pending E h job HT); auto. discriminate.
  - apply (order_status_loop_pending E h order_id HT); auto. discriminate.
Qed.

Lemma failed_env_pending :
  forall k rq, exists st,
    st <> "completed" /\ answers_status st (transport failed_env k rq).
Proof.
  intros k rq. exists "failed". split; [discriminate|].
  split; [reflexivity|]. exists [("status", "failed")]. split; reflexivity.
Qed.

Lemma status_polling_never_ends_witness :
  (exists w',
      get_request_status failed_env 3 (sample_world None) = (Running, w')
      /\ List.length (exchanges w') = 3%nat)
  /\ (exists w',
      get_order_status failed_env 3 "order-1" (sample_world None) = (Running, w')
      /\ List.length (exchanges w') = 3%nat).
Proof.
  apply (status_polling_never_ends failed_env (sample_world None)
           sample_headers "job-1" "order-1").
  - reflexivity.
  - reflexivity.
  - reflexivity.
  - exact failed_env_pending.
Defined.

(** C2 as stated fails: with a transport that always answers ["failed"],
    neither poller terminates, so neither ends with a failure. *)
Lemma status_polling_failed_loops :
  ~ terminates (get_request_status failed_env) (sample_world None)
  /\ ~ terminates (fun fuel => get_order_status failed_env fuel "order-1")
       (sample_world None)
  /\ ~ fails_explicitly (get_request_status failed_env) (sample_world None)
  /\ ~ fails_explicitly (fun fuel => get_order_status failed_env fuel "order-1")
       (sample_world None).
Proof.
  assert (R : forall fuel,
             fst (get_request_status failed_env fuel (sample_world None)) = Running).
  { intros fuel.
    destruct (request_status_loop_pending failed_env sample_headers "job-1"
                failed_env_pending fuel "not started" (sample_world None))
      as (w' & H & _); try reflexivity; [discriminate|].
    unfold get_request_status. now rewrite H. }
  assert (O : forall fuel,
             fst (get_order_status failed_env fuel "order-1" (sample_world None))
             = Running).
  { intros fuel.
    destruct (order_status_loop_pending failed_env sample_headers "order-1"
                failed_env_pending fuel "not started" None (sample_world None))
      as (w' & H & _); try reflexivity; [discriminate|].
    unfold get_order_status. now rewrite H. }
  repeat split.
  - intros (fuel & H). now apply H.
  - intros (fuel & H). now apply H.
  - intros (fuel & e & H). rewrite R in H. discriminate.
  - intros (fuel & e & H). cbv beta in H. rewrite O in H. discriminate.
Qed.

(** ** [downloadFile] *)

Lemma len_app (a b : bytes) : len (a ++ b)%list = len a + len b.
Proof. unfold len. rewrite length_app. lia. Qed.

Lemma total_len_concat (chunks : list bytes) :
  len (List.concat chunks) = total_len chunks.
Proof.
  induction chunks as [|c cs IH]; [reflexivity|].
  cbn [List.concat total_len fold_right]. rewrite len_app. unfold total_len in IH.
  now rewrite IH.
Qed.

Section Download.
Variables (E : Env) (filename : string) (start : Z).

Let p := realpath E filename.

Lemma files_set_same c w : files (set_file p c w) p = Some c.
Proof. cbn. now rewrite String.eqb_refl. Qed.

Lemma files_set_other c w q : q <> p -> files (set_file p c w) q = files w q.
Proof. intros H. cbn. apply String.eqb_neq in H. now rewrite H. Qed.

(** What the loop leaves behind, however it ends: the file holds the
    chunks received so far, all of them when the loop returns; it only
    ever raises from one of its two divisions. *)
Lemma download_loop_run (total_length : PyInt) :
  forall chunks dl w c0,
    files w p = Some c0 ->
    exists o w' k,
      download_loop E filename start total_length chunks dl w = (o, w')
      /\ (k <= List.length chunks)%nat
      /\ files w' p = Some (c0 ++ List.concat (firstn k chunks))%list
      /\ (forall q, q <> p -> files w' q = files w q)
      /\ hda w' = hda w /\ exchanges w' = exchanges w
      /\ downloads w' = downloads w
      /\ match o with
         | Returns dl' => k = List.length chunks /\ dl' = dl + total_len chunks
         | Raises e => exists d, e = ZeroDivisionError d
         | Running => False
         end.
Proof.
  induction chunks as [|c cs IH]; intros dl w c0 Hf.
  - exists (Returns dl), w, 0%nat. cbn. rewrite app_nil_r.
    repeat split; auto. lia.
  - cbn [download_loop]. unfold f_write. run. fold p. rewrite Hf.
    set (w1 := set_file p (c0 ++ c)%list w).
    assert (F1 : files w1 p = Some (c0 ++ c)%list) by apply files_set_same.
    assert (O1 : forall q, q <> p -> files w1 q = files w q)
      by (intros; now apply files_set_other).
    assert (stop : forall (d : Division) (w2 : World),
               files w2 p = files w1 p ->
               (forall q, files w2 q = files w1 q) ->
               hda w2 = hda w -> exchanges w2 = exchanges w ->
               downloads w2 = downloads w ->
               exists o w' k,
                 (Raises (ZeroDivisionError d) : Outcome Z, w2) = (o, w')
                 /\ (k <= List.length (c :: cs))%nat
                 /\ files w' p = Some (c0 ++ List.concat (firstn k (c :: cs)))%list
                 /\ (forall q, q <> p -> files w' q = files w q)
                 /\ hda w' = hda w /\ exchanges w' = exchanges w
                 /\ downloads w' = downloads w
                 /\ match o with
                    | Returns dl' =>
                        k = List.length (c :: cs)
                        /\ dl' = dl + total_len (c :: cs)
                    | Raises e => exists d, e = ZeroDivisionError d
                    | Running => False
                    end).
    { intros d w2 G1 G2 G3 G4 G5.
      exists (Raises (ZeroDivisionError d)), w2, 1%nat.
      cbn [firstn List.concat List.length]. rewrite app_nil_r.
      repeat split; auto.
      - lia.
      - now rewrite G1.
      - intros q Hq. rewrite G2. now apply O1.
      - now exists d. }
    assert (go : forall w2,
               (forall q, files w2 q = files w1 q) ->
               hda w2 = hda w -> exchanges w2 = exchanges w ->
               downloads w2 = downloads w ->
               exists o w' k,
                 download_loop E filename start total_length cs (dl + len c) w2
                 = (o, w')
                 /\ (k <= List.length (c :: cs))%nat
                 /\ files w' p = Some (c0 ++ List.concat (firstn k (c :: cs)))%list
                 /\ (forall q, q <> p -> files w' q = files w q)
                 /\ hda w' = hda w /\ exchanges w' = exchanges w
                 /\ downloads w' = downloads w
                 /\ match o with
                    | Returns dl' =>
                        k = List.length (c :: cs)
                        /\ dl' = dl + total_len (c :: cs)
                    | Raises e => exists d, e = ZeroDivisionError d
                    | Running => False
                    end).
    { intros w2 G2 G3 G4 G5.
      destruct (IH (dl + len c) w2 (c0 ++ c)%list) as
        (o & w' & k & R & Hk & Hfile & Hoth & Hh & Hx & Hd & Ho).
      { now rewrite G2. }
      exists o, w', (S k). rewrite R. cbn [firstn List.concat List.length].
      repeat split; auto.
      - lia.
      - now rewrite Hfile, app_assoc.
      - intros q Hq. rewrite Hoth by exact Hq. rewrite G2. now apply O1.
      - congruence.
      - congruence.
      - congruence.
      - destruct o as [dl'| |]; auto. destruct Ho as [-> ->].
        split; [reflexivity|]. cbn [total_len fold_right]. unfold total_len. lia. }
    destruct total_length as [total|].
    + run. destruct (total =? 0); [now apply stop|].
      run. destruct (_ =? 0); [now apply stop|].
      run. now apply go.
    + destruct (_ =? 0).
      * run. destruct (_ =? 0); [now apply stop|].
        run. now apply go.
      * run. now apply go.
Qed.

(** A total length of zero stops the loop at its first chunk, in the
    division by the total length. *)
Lemma download_loop_zero_total c cs dl w :
  download_loop E filename start (Some 0) (c :: cs) dl w
  = (Raises (ZeroDivisionError by_total_length),
     set_file p (match files w p with Some c0 => c0 | None => [] end ++ c)%list w).
Proof. cbn [download_loop]. unfold f_write. run. reflexivity. Qed.

(** With a total length other than zero, a clock that has not moved since
    [start] stops the loop at its first chunk, in the division by the
    elapsed time. *)
Lemma download_loop_zero_elapsed total c cs dl w :
  total <> 0 ->
  clock E (clock_reads w) = start ->
  download_loop E filename start (Some total) (c :: cs) dl w
  = (Raises (ZeroDivisionError by_elapsed_time),
     tick (set_file p (match files w p with Some c0 => c0 | None => [] end ++ c)%list w)).
Proof.
  intros Ht Hc. cbn [download_loop]. unfold f_write. run.
  apply Z.eqb_neq in Ht. rewrite Ht. run.
  rewrite Hc, Z.sub_diag. reflexivity.
Qed.

(** With a total length other than zero and a clock that stays ahead of
    [start], the loop returns. *)
Lemma download_loop_returns total :
  total <> 0 ->
  forall chunks dl w,
    (forall k, (clock_reads w <= k)%nat -> clock E k <> start) ->
    exists w',
      download_loop E filename start (Some total) chunks dl w
      = (Returns (dl + total_len chunks), w')
      /\ clock_reads w' = (clock_reads w + List.length chunks)%nat.
Proof.
  intros Ht. apply Z.eqb_neq in Ht.
  induction chunks as [|c cs IH]; intros dl w Hc.
  - exists w. cbn [download_loop total_len fold_right List.length].
    rewrite Z.add_0_r, Nat.add_0_r. split; reflexivity.
  - cbn [download_loop]. unfold f_write. run. rewrite Ht. run.
    assert (N : (clock E (clock_reads w) - start =? 0) = false).
    { apply Z.eqb_neq. specialize (Hc (clock_reads w) (le_n _)). lia. }
    rewrite N. run.
    edestruct (IH (dl + len c)) as (w' & R & T); cycle 1.
    + exists w'. rewrite R. split.
      * f_equal. f_equal. cbn [total_len fold_right]. unfold total_len. lia.
      * rewrite T. cbn. lia.
    + cbn. intros k Hk. apply Hc. lia.
Qed.

End Download.

Lemma run_bind_with {A B} (c : M A) (k : A -> M B) (w : World) o w' :
  c w = (o, w') ->
  (x <- c ;; k x) w
  = match o with
    | Returns a => k a w'
    | Raises e => (Raises e, w')
    | Running => (Running, w')
    end.
Proof. intros H. unfold bind. rewrite H. now destruct o. Qed.

Section DownloadFile.
Variables (E : Env) (url : string) (h : list (string * string)).
Variables (directory file_name : string).

Lemma downloadFile_not_200 total_length w :
  status_code (transport E (List.length (exchanges w)) (download_rq url h)) <> 200 ->
  downloadFile E url h directory file_name total_length w
  = (Returns None, requested E url h directory file_name total_length w).
Proof.
  intros H. apply Z.eqb_neq in H. unfold downloadFile, requests_get. run.
  cbv zeta. fold (download_rq url h). rewrite H. reflexivity.
Qed.

Lemma downloadFile_200 total_length w :
  status_code (transport E (List.length (exchanges w)) (download_rq url h)) = 200 ->
  downloadFile E url h directory file_name total_length w
  = (let filename := os_path_join directory file_name in
     let start := clock E (clock_reads w) in
     let r := transport E (List.length (exchanges w)) (download_rq url h) in
     total <- number total_length ;;
     print (FileSize total) ;;
     dl <- download_loop E filename start total_length
             (iter_content r CHUNK_SIZE) 0 ;;
     now <- process_time E ;;
     div_check by_elapsed_time (now - start) ;;
     print (Downloaded dl (now - start)) ;;
     now' <- process_time E ;;
     ret (Some (now' - start)))
      (opened E url h directory file_name total_length w).
Proof.
  intros H. unfold downloadFile, requests_get, open_wb. run.
  cbv zeta. fold (download_rq url h). rewrite H. cbn [Z.eqb Pos.eqb].
  run. reflexivity.
Qed.

End DownloadFile.

(** A download that goes through: the two chunks [a] and [bc] end up in the
    file, and the call returns the elapsed time. *)
Example downloadFile_steady :
  let run := downloadFile steady_env sample_url sample_headers "./data/" "a.nc"
               (Some 3) (sample_world None) in
  fst run = Returns (Some 4)
  /\ file_at steady_env (snd run) "./data/a.nc"
     = Some [Byte.x61; Byte.x62; Byte.x63].
Proof. split; reflexivity. Qed.

(** C1: what the code does when a division of its progress report fails.
    The call [downloadFile(url, headers, './data/', 'a.nc')] leaves
    [total_length] at its default [0]; the response is a success and its
    body comes in the two chunks [a] and [bc].  The first chunk is written,
    then [int(50 * dl / total_length)] raises [ZeroDivisionError] and the
    rest of the stream is never written: the file holds one byte of the
    three, and is not the concatenation of the chunks of the stream. *)
Theorem downloadFile_default_truncates :
  let run := downloadFile_default steady_env sample_url sample_headers "./data/"
               "a.nc" (sample_world None) in
  let r := transport steady_env 0 (download_rq sample_url sample_headers) in
  status_code r = 200
  /\ iter_content r 64738 = [[Byte.x61]; [Byte.x62; Byte.x63]]
  /\ fst run = Raises (ZeroDivisionError by_total_length)
  /\ file_at steady_env (snd run) (os_path_join "./data/" "a.nc")
     = Some [Byte.x61]
  /\ file_at steady_env (snd run) (os_path_join "./data/" "a.nc")
     <> Some (List.concat (iter_content r 64738)).
Proof. repeat split; try reflexivity. discriminate. Qed.

(** C4.  In every execution of [downloadFile] with a success response, a
    total length other than zero, at least one chunk, and a clock that reads
    the same at the first chunk as at [start], the division by the elapsed
    time raises [ZeroDivisionError]: nothing guards it.  The first chunk has
    been written by then. *)
Theorem downloadFile_zero_elapsed (E : Env) (url : string)
    (h : list (string * string)) (directory file_name : string)
    (total : Z) (w : World) (c : bytes) (cs : list bytes) :
  let r := transport E (List.length (exchanges w)) (download_rq url h) in
  status_code r = 200 ->
  total <> 0 ->
  iter_content r 64738 = c :: cs ->
  clock E (S (clock_reads w)) = clock E (clock_reads w) ->
  exists w',
    downloadFile E url h directory file_name (Some total) w
    = (Raises (ZeroDivisionError by_elapsed_time), w')
    /\ file_at E w' (os_path_join directory file_name) = Some c.
Proof.
  intros r H200 Ht Hc Hclock.
  rewrite (downloadFile_200 E url h directory file_name (Some total) w H200).
  cbv zeta. fold r. change CHUNK_SIZE with 64738. rewrite Hc. run.
  rewrite (run_bind_with _ _ _ _ _
             (download_loop_zero_elapsed E (os_path_join directory file_name)
                (clock E (clock_reads w)) total c cs 0
                (add_out (FileSize total)
                   (opened E url h directory file_name (Some total) w))
                Ht Hclock)).
  eexists. split; [reflexivity|].
  unfold file_at, opened. cbn [files tick add_out].
  rewrite !files_set_same. reflexivity.
Qed.

Lemma downloadFile_zero_elapsed_witness :
  exists w',
    downloadFile frozen_env sample_url sample_headers "./data/" "a.nc" (Some 3)
      (sample_world None)
    = (Raises (ZeroDivisionError by_elapsed_time), w')
    /\ file_at frozen_env w' (os_path_join "./data/" "a.nc") = Some [Byte.x61].
Proof.
  apply (downloadFile_zero_elapsed frozen_env sample_url sample_headers
           "./data/" "a.nc" 3 (sample_world None) [Byte.x61]
           [[Byte.x62; Byte.x63]]).
  - reflexivity.
  - discriminate.
  - reflexivity.
  - reflexivity.
Defined.

(** C3: what the code does at the default [total_length = 0].  The test
    [total_length is not None] lets a total length of zero through: at the
    first chunk the call raises [ZeroDivisionError] in the division by the
    total length, and no progress bar is printed.  With [total_length = None]
    the call raises [TypeError] at the print of the file size, before any
    chunk: the branch that prints the byte-count milestones is never
    reached. *)
Theorem downloadFile_default_divides_by_zero :
  fst (downloadFile_default steady_env sample_url sample_headers "./data/" "a.nc"
         (sample_world None))
  = Raises (ZeroDivisionError by_total_length)
  /\ stdout (snd (downloadFile_default steady_env sample_url sample_headers
                    "./data/" "a.nc" (sample_world None)))
     = [Line "OK"; Line "directory"; Line "Downloading ./data/a.nc"; FileSize 0]
  /\ fst (downloadFile steady_env sample_url sample_headers "./data/" "a.nc"
            None (sample_world None))
     = Raises TypeError
  /\ stdout (snd (downloadFile steady_env sample_url sample_headers
                    "./data/" "a.nc" None (sample_world None)))
     = [Line "OK"; Line "directory"; Line "Downloading ./data/a.nc"].
Proof. repeat split; reflexivity. Qed.

(** The same for every call: a total length of zero and a first chunk end in
    the division by the total length. *)
Lemma downloadFile_zero_total (E : Env) (url : string)
    (h : list (string * string)) (directory file_name : string)
    (w : World) (c : bytes) (cs : list bytes) :
  let r := transport E (List.length (exchanges w)) (download_rq url h) in
  status_code r = 200 ->
  iter_content r 64738 = c :: cs ->
  exists w',
    downloadFile_default E url h directory file_name w
    = (Raises (ZeroDivisionError by_total_length), w')
    /\ file_at E w' (os_path_join directory file_name) = Some c.
Proof.
  intros r H200 Hc. unfold downloadFile_default.
  rewrite (downloadFile_200 E url h directory file_name (Some 0) w H200).
  cbv zeta. fold r. change CHUNK_SIZE with 64738. rewrite Hc. run.
  rewrite (run_bind_with _ _ _ _ _ (download_loop_zero_total E _ _ c cs 0 _)).
  eexists. split; [reflexivity|].
  unfold file_at, opened. cbn [files tick add_out].
  rewrite !files_set_same. reflexivity.
Qed.

(** C5, as the code has it.  When the response status is not 200,
    [downloadFile] raises nothing, leaves every file as it was and returns
    [None]; a call with a success response never returns [None] (it returns
    an elapsed time, or raises), so the returned value tells the two
    apart. *)
Theorem downloadFile_failure_returns_None (E : Env) (url : string)
    (h : list (string * string)) (directory file_name : string)
    (total_length : PyInt) (w : World) :
  status_code (transport E (List.length (exchanges w)) (download_rq url h)) <> 200 ->
  (exists w',
      downloadFile E url h directory file_name total_length w = (Returns None, w')
      /\ files w' = files w)
  /\ (forall E2 url2 h2 directory2 file_name2 total_length2 w2 v w2',
      status_code (transport E2 (List.length (exchanges w2)) (download_rq url2 h2))
      = 200 ->
      downloadFile E2 url2 h2 directory2 file_name2 total_length2 w2
      = (Returns v, w2') ->
      exists elapsed, v = Some elapsed).
Proof.
  intros H. split.
  - eexists. split; [now apply downloadFile_not_200 | reflexivity].
  - intros E2 url2 h2 d2 f2 t2 w2 v w2' H200 R.
    rewrite (downloadFile_200 E2 url2 h2 d2 f2 t2 w2 H200) in R. cbv zeta in R.
    repeat (rewrite run_number in R || rewrite run_print in R).
    destruct t2 as [t|]; [|discriminate].
    revert R. run. unfold bind at 1.
    destruct (download_loop _ _ _ _ _ _ _) as [[dl|e|] w3]; try discriminate.
    run. destruct (_ =? 0); [discriminate|]. run.
    intros [= <- _]. now eexists.
Qed.

Lemma downloadFile_failure_returns_None_witness :
  (exists w',
      downloadFile not_found_env sample_url sample_headers "./data/" "a.nc"
        (Some 3) (sample_world None) = (Returns None, w')
      /\ files w' = files (sample_world None))
  /\ (forall E2 url2 h2 directory2 file_name2 total_length2 w2 v w2',
      status_code (transport E2 (List.length (exchanges w2)) (download_rq url2 h2))
      = 200 ->
      downloadFile E2 url2 h2 directory2 file_name2 total_length2 w2
      = (Returns v, w2') ->
      exists elapsed, v = Some elapsed).
Proof.
  apply (downloadFile_failure_returns_None not_found_env sample_url
           sample_headers "./data/" "a.nc" (Some 3) (sample_world None)).
  discriminate.
Defined.

(** C5 as stated fails in its last part: a failed call returns [None], an
    empty successful transfer returns the elapsed time. *)
Lemma downloadFile_failure_differs_from_empty :
  fst (downloadFile not_found_env sample_url sample_headers "./data/" "a.nc"
         (Some 3) (sample_world None))
  = Returns None
  /\ fst (downloadFile empty_env sample_url sample_headers "./data/" "a.nc"
            (Some 3) (sample_world None))
     = Returns (Some 2)
  /\ file_at empty_env
       (snd (downloadFile empty_env sample_url sample_headers "./data/" "a.nc"
               (Some 3) (sample_world None)))
       (os_path_join "./data/" "a.nc")
     = Some []
  /\ (Returns None : Outcome PyInt) <> Returns (Some 2).
Proof. repeat split; try reflexivity. discriminate. Qed.

(** ** [get_order_ids] *)

Section Orders.
Variables (E : Env) (fuel : nat).

(** Whatever [get_order_status] does, it only adds GET requests (and
    prints); a response it returns carries the success code. *)
Lemma order_status_loop_frame order_id :
  forall n status response w o w',
    order_status_loop E n order_id status response w = (o, w') ->
    hda w' = hda w /\ files w' = files w /\ downloads w' = downloads w
    /\ clock_reads w' = clock_reads w
    /\ (exists polls,
           exchanges w' = (exchanges w ++ polls)%list
           /\ order_posts polls = [])
    /\ (forall r, o = Returns r ->
          (status = "completed" /\ response = Some r)
          \/ status_code r = CONST_HTTP_SUCCESS_CODE (hda w)).
Proof.
  assert (done : forall n status response w o w',
             negb (status =? "completed")%string = false ->
             order_status_loop E n order_id status response w = (o, w') ->
             w' = w
             /\ forall r, o = Returns r ->
                  status = "completed" /\ response = Some r).
  { intros n status response w o w' N R.
    assert (R' : local "response" response w = (o, w')).
    { destruct n; cbn [order_status_loop] in R; now rewrite N in R. }
    apply negb_false_iff, String.eqb_eq in N.
    destruct response as [r|]; inversion R'; subst.
    - split; [reflexivity|]. now intros r' [= <-].
    - split; [reflexivity|]. discriminate. }
  induction n as [|n IH]; intros status response w o w' R.
  - destruct (negb (status =? "completed")%string) eqn:N.
    + cbn [order_status_loop] in R. rewrite N in R.
      inversion R. subst. repeat split; auto.
      * exists []. now rewrite app_nil_r.
      * discriminate.
    + destruct (done _ _ _ _ _ _ N R) as [-> D]. repeat split; auto.
      exists []. now rewrite app_nil_r.
  - destruct (negb (status =? "completed")%string) eqn:N.
    2:{ destruct (done _ _ _ _ _ _ N R) as [-> D]. repeat split; auto.
        exists []. now rewrite app_nil_r. }
    cbn [order_status_loop] in R. rewrite N in R.
    revert R. unfold requests_get. run.
    destruct (headers (hda w)) as [h|].
    2:{ intros [= <- <-]. repeat split; auto.
        - exists []. now rewrite app_nil_r.
        - discriminate. }
    run. cbv zeta.
    set (rq := mkRequest GET _ h [] false).
    set (r := transport E _ rq).
    assert (step : forall st out,
               order_status_loop E n order_id st (Some r)
                 (add_out out (add_exchange (rq, r) w)) = (o, w') ->
               (st = status \/ status_code r = CONST_HTTP_SUCCESS_CODE (hda w)) ->
               hda w' = hda w /\ files w' = files w /\ downloads w' = downloads w
               /\ clock_reads w' = clock_reads w
               /\ (exists polls,
                      exchanges w' = (exchanges w ++ polls)%list
                      /\ order_posts polls = [])
               /\ (forall r0, o = Returns r0 ->
                     (status = "completed" /\ response = Some r0)
                     \/ status_code r0 = CONST_HTTP_SUCCESS_CODE (hda w))).
    { intros st out R Hst.
      destruct (IH _ _ _ _ _ R) as (H1 & H2 & H3 & H4 & (polls & H5 & H6) & H7).
      cbn [hda files downloads clock_reads exchanges add_out add_exchange] in *.
      repeat split; auto.
      - exists ((rq, r) :: polls). rewrite H5, <- app_assoc. split; [reflexivity|].
        unfold order_posts in *. cbn [filter is_post fst rq_method rq]. exact H6.
      - intros r0 Hr0. right.
        destruct (H7 r0 Hr0) as [[Hst' [= <-]]|Hc]; [|exact Hc].
        destruct Hst as [->|Hc]; [|exact Hc].
        subst status. discriminate. }
    destruct (status_code r =? CONST_HTTP_SUCCESS_CODE (hda w)) eqn:C.
    + run. destruct (text r) as [ob|].
      2:{ intros [= <- <-]. cbn. repeat split; auto.
          - exists [(rq, r)]. split; reflexivity.
          - discriminate. }
      destruct (assoc "status" ob) as [st|].
      2:{ intros [= <- <-]. cbn. repeat split; auto.
          - exists [(rq, r)]. split; reflexivity.
          - discriminate. }
      run. intros R. apply (step st _ R). right. now apply Z.eqb_eq.
    + run. intros R. apply (step status _ R). now left.
Qed.

(** One turn of the loop of [get_order_ids] that comes to its end: one
    order request was sent for the descriptor, then status requests only;
    the size was appended; the order id was appended when the request was
    accepted, which needs the list of ids to be as long as the count of
    turns. *)
Lemma order_step_returns d st w st' w' :
  order_step E fuel d st w = (Returns st', w') ->
  hda w' = hda w /\ files w' = files w /\ downloads w' = downloads w
  /\ clock_reads w' = clock_reads w
  /\ ol_i st' = S (ol_i st)
  /\ ol_order_sizes st' = (ol_order_sizes st ++ [d_size d])%list
  /\ exists x polls,
       exchanges w' = (exchanges w ++ x :: polls)%list
       /\ is_post x = true /\ order_posts polls = []
       /\ ordered_uri x = Some (d_url d)
       /\ ((accepted (CONST_HTTP_SUCCESS_CODE (hda w)) x = true
            /\ (ol_i st <= List.length (ol_order_ids st))%nat
            /\ exists oid,
                 granted_id x = Some oid
                 /\ ol_order_ids st' = (ol_order_ids st ++ [oid])%list)
           \/ (accepted (CONST_HTTP_SUCCESS_CODE (hda w)) x = false
               /\ ol_order_ids st' = ol_order_ids st)).
Proof.
  unfold order_step, requests_post. run.
  destruct (job_id (hda w)) as [job|]; [|discriminate]. run.
  destruct (headers (hda w)) as [h|]; [|discriminate]. run. cbv zeta.
  set (rq := mkRequest POST _ h _ false).
  set (r := transport E _ rq).
  destruct (status_code r =? CONST_HTTP_SUCCESS_CODE (hda w)) eqn:C.
  - run. destruct (text r) as [ob|] eqn:T; [|discriminate].
    destruct (assoc "orderId" ob) as [oid|] eqn:A; [|discriminate].
    run. destruct (nth_error _ (ol_i st)) as [shown|] eqn:N; [|discriminate].
    run. rewrite N. unfold bind at 1.
    destruct (get_order_status E fuel shown _) as [[r'| |] w2] eqn:R;
      try discriminate.
    intros [= <- <-].
    apply order_status_loop_frame in R.
    destruct R as (H1 & H2 & H3 & H4 & (polls & H5 & H6) & _).
    cbn [hda files downloads clock_reads exchanges add_out add_exchange] in *.
    repeat split; auto.
    exists (rq, r), polls. rewrite H5, <- app_assoc.
    repeat split; auto. left. repeat split.
    + exact C.
    + assert (L : (ol_i st < List.length (ol_order_ids st ++ [oid]))%nat)
        by (apply nth_error_Some; rewrite N; discriminate).
      rewrite length_app in L. cbn in L. lia.
    + exists oid. unfold granted_id. cbn [snd]. rewrite T. now split.
  - run. intros [= <- <-]. cbn. repeat split; auto.
    exists (rq, r), []. repeat split; auto.
Qed.

(** The loop of [get_order_ids] that comes to its end. *)
Lemma order_loop_returns :
  forall content st w st' w',
    order_loop E fuel content st w = (Returns st', w') ->
    (List.length (ol_order_ids st) <= ol_i st)%nat ->
    hda w' = hda w /\ files w' = files w /\ downloads w' = downloads w
    /\ clock_reads w' = clock_reads w
    /\ ol_order_sizes st' = (ol_order_sizes st ++ map d_size content)%list
    /\ exists new k ids,
         exchanges w' = (exchanges w ++ new)%list
         /\ map ordered_uri (order_posts new)
            = map (fun d => Some (d_url d)) content
         /\ (k <= List.length content)%nat
         /\ forallb (accepted (CONST_HTTP_SUCCESS_CODE (hda w)))
              (firstn k (order_posts new)) = true
         /\ forallb (fun x => negb (accepted (CONST_HTTP_SUCCESS_CODE (hda w)) x))
              (skipn k (order_posts new)) = true
         /\ map granted_id (firstn k (order_posts new)) = map Some ids
         /\ ol_order_ids st' = (ol_order_ids st ++ ids)%list
         /\ ((List.length (ol_order_ids st) < ol_i st)%nat -> k = 0%nat).
Proof.
  induction content as [|d more IH]; intros st w st' w' R Inv.
  - inversion R. subst. repeat split; auto using app_nil_r.
    exists [], 0%nat, []. rewrite !app_nil_r. repeat split; auto.
  - cbn [order_loop] in R. unfold bind in R.
    destruct (order_step E fuel d st w) as [[st1| |] w1] eqn:S1;
      try discriminate.
    apply order_step_returns in S1.
    destruct S1 as (A1 & A2 & A3 & A4 & A5 & A6 & x & polls & A7 & A8 & A9
                    & A10 & A11).
    assert (Inv1 : (List.length (ol_order_ids st1) <= ol_i st1)%nat).
    { rewrite A5. destruct A11 as [(_ & _ & oid & _ & ->)|(_ & ->)].
      - rewrite length_app. cbn. lia.
      - lia. }
    destruct (IH _ _ _ _ R Inv1) as
      (B1 & B2 & B3 & B4 & B5 & new & k & ids & B6 & B7 & B8 & B9 & B10 & B11
       & B12 & B13).
    rewrite A1 in *.
    assert (P : order_posts (x :: polls ++ new) = x :: order_posts new).
    { unfold order_posts in *. cbn [filter]. rewrite A8, filter_app, A9.
      reflexivity. }
    repeat split; try congruence.
    { rewrite B5, A6, <- app_assoc. reflexivity. }
    destruct A11 as [(C1 & C2 & oid & C3 & C4)|(C1 & C4)].
    + exists (x :: polls ++ new)%list, (S k), (oid :: ids). rewrite P.
      cbn [firstn skipn map forallb List.length]. rewrite A10, B7, C1, B9, B10, B11, C3.
      repeat split; auto.
      * rewrite B6, A7, <- app_assoc. reflexivity.
      * lia.
      * rewrite B12, C4, <- app_assoc. reflexivity.
      * intros L. lia.
    + assert (K : k = 0%nat).
      { apply B13. rewrite C4, A5. lia. }
      subst k. cbn [firstn skipn map] in *.
      destruct ids as [|? ?]; [|discriminate].
      exists (x :: polls ++ new)%list, 0%nat, []. rewrite P.
      cbn [firstn skipn map forallb List.length]. rewrite A10, B7, C1, B10.
      repeat split; auto.
      * rewrite B6, A7, <- app_assoc. reflexivity.
      * rewrite B12, C4. reflexivity.
Qed.

End Orders.

Lemma filter_prefix {A} (f : A -> bool) (k : nat) (l : list A) :
  forallb f (firstn k l) = true ->
  forallb (fun x => negb (f x)) (skipn k l) = true ->
  filter f l = firstn k l.
Proof.
  intros H1 H2. rewrite <- (firstn_skipn k l) at 1. rewrite filter_app.
  assert (F1 : forall m, forallb f m = true -> filter f m = m).
  { induction m as [|a m IH]; cbn; [reflexivity|].
    intros H. apply andb_prop in H. destruct H as [-> H]. now rewrite IH. }
  assert (F2 : forall m, forallb (fun x => negb (f x)) m = true -> filter f m = []).
  { induction m as [|a m IH]; cbn; [reflexivity|].
    intros H. apply andb_prop in H. destruct H as [Ha H].
    apply negb_true_iff in Ha. rewrite Ha. now apply IH. }
  rewrite (F1 _ H1), (F2 _ H2). apply app_nil_r.
Qed.

(** C9, as the code has it.  When [get_order_ids] returns, it has sent one
    order request per result descriptor, in order; [order_sizes] has one
    entry per descriptor; [order_ids] has one entry per accepted request.
    The accepted requests are the first ones: an accepted request after a
    refused one raises [IndexError] at [order_ids[i]].  So [order_ids] is
    strictly shorter than [order_sizes] when a request was refused, and its
    i-th entry still is the order of the i-th descriptor. *)
Theorem get_order_ids_lists (E : Env) (fuel : nat) (w w' : World)
    (content : list Descriptor) :
  results (hda w) = Some content ->
  get_order_ids E fuel w = (Returns tt, w') ->
  exists new ids,
    exchanges w' = (exchanges w ++ new)%list
    /\ map ordered_uri (order_posts new) = map (fun d => Some (d_url d)) content
    /\ order_sizes (hda w') = Some (map d_size content)
    /\ order_ids (hda w') = Some ids
    /\ map granted_id
         (filter (accepted (CONST_HTTP_SUCCESS_CODE (hda w))) (order_posts new))
       = map Some ids
    /\ filter (accepted (CONST_HTTP_SUCCESS_CODE (hda w))) (order_posts new)
       = firstn (List.length ids) (order_posts new)
    /\ (List.length ids <= List.length content)%nat
    /\ ((exists x, In x (order_posts new)
                   /\ accepted (CONST_HTTP_SUCCESS_CODE (hda w)) x = false) ->
        (List.length ids < List.length (map d_size content))%nat).
Proof.
  intros Hr. unfold get_order_ids. run. unfold bind at 1.
  destruct (order_loop E fuel content _ w) as [[st| |] w1] eqn:L;
    try discriminate.
  run. destruct (ol_response st) as [r|]; [|discriminate].
  run. intros [= <-].
  apply order_loop_returns in L; [|cbn; lia].
  destruct L as (A1 & _ & _ & _ & A5 & new & k & ids & B1 & B2 & B3 & B4 & B5
                 & B6 & B7 & _).
  cbn [ol_order_ids ol_order_sizes app] in *.
  set (ok := CONST_HTTP_SUCCESS_CODE (hda w)) in *.
  assert (Lp : List.length (order_posts new) = List.length content).
  { apply (f_equal (@List.length _)) in B2. now rewrite !length_map in B2. }
  assert (Lk : List.length ids = k).
  { apply (f_equal (@List.length _)) in B6.
    rewrite !length_map, length_firstn in B6. lia. }
  pose proof (filter_prefix (accepted ok) k (order_posts new) B4 B5) as F.
  exists new, ids. cbn [hda set_hda order_sizes order_ids set_order_ids
                        set_order_sizes set_order_status_response exchanges].
  rewrite A5, B7, F, Lk. repeat split; auto.
  intros (x & Hin & Hx). rewrite length_map.
  destruct (Nat.eq_dec k (List.length content)) as [K|]; [|lia].
  exfalso. rewrite K, <- Lp, firstn_all in F.
  rewrite <- F in Hin. apply filter_In in Hin. destruct Hin as [_ Hin].
  congruence.
Qed.

Lemma get_order_ids_lists_witness :
  exists new ids,
    exchanges picky_ordered = ([] ++ new)%list
    /\ map ordered_uri (order_posts new)
       = map (fun d => Some (d_url d)) two_results
    /\ order_sizes (hda picky_ordered) = Some (map d_size two_results)
    /\ order_ids (hda picky_ordered) = Some ids
    /\ map granted_id (filter (accepted 200) (order_posts new)) = map Some ids
    /\ filter (accepted 200) (order_posts new)
       = firstn (List.length ids) (order_posts new)
    /\ (List.length ids <= 2)%nat
    /\ ((exists x, In x (order_posts new) /\ accepted 200 x = false) ->
        (List.length ids < List.length (map d_size two_results))%nat).
Proof.
  apply (get_order_ids_lists picky_env 1 (sample_world (Some two_results))
           picky_ordered two_results).
  - reflexivity.
  - reflexivity.
Defined.

(** C9 as stated fails in its last part.  The broker refuses the order of
    the second of two files: [get_order_ids] returns, [order_ids] has one
    entry and [order_sizes] two, and the one download that [download_data]
    then makes pairs the order of the first file with the name and the size
    of the first file: nothing is shifted. *)
Lemma refused_order_keeps_pairing :
  fst (get_order_ids picky_env 1 (sample_world (Some two_results))) = Returns tt
  /\ map (fun x => (ordered_uri x, granted_id x))
       (order_posts (exchanges picky_ordered))
     = [(Some (d_url file_a), Some "order-https://archive/a.nc");
        (Some (d_url file_b), None)]
  /\ order_ids (hda picky_ordered) = Some ["order-https://archive/a.nc"]
  /\ order_sizes (hda picky_ordered) = Some [d_size file_a; d_size file_b]
  /\ fst (download_data picky_env picky_ordered) = Returns tt
  /\ downloads (snd (download_data picky_env picky_ordered))
     = [download_of (sample_session None) sample_headers
          "order-https://archive/a.nc" file_a].
Proof. repeat split; reflexivity. Qed.

(** ** Orders that are all accepted *)

Section Accepted.
Variables (E : Env) (bound : nat).
Hypothesis Horders : accepts_orders E.
Hypothesis Hstatus : completes_within E bound.

(** A poll whose answers become ["completed"] after [n] pending ones returns
    when it may run for more than [n] iterations. *)
Lemma order_status_loop_within h order_id :
  forall n fuel status response w,
    headers (hda w) = Some h ->
    CONST_HTTP_SUCCESS_CODE (hda w) = 200 ->
    status <> "completed" ->
    (n < fuel)%nat ->
    answers_status "completed"
      (transport E (List.length (exchanges w) + n) (order_status_rq (hda w) h order_id)) ->
    (forall m, (m < n)%nat ->
       pending (transport E (List.length (exchanges w) + m)
                  (order_status_rq (hda w) h order_id))) ->
    exists r w', order_status_loop E fuel order_id status response w = (Returns r, w').
Proof.
  induction n as [|n IH]; intros fuel status response w Hh Hc Hs Hf Hdone Hpend;
    (destruct fuel as [|fuel]; [lia|]);
    rewrite (order_status_loop_step E fuel order_id status response w h Hh Hs);
    cbv zeta.
  - rewrite Nat.add_0_r in Hdone. destruct Hdone as (H200 & o & Ho & Ha).
    rewrite H200, Hc, Z.eqb_refl, Ho, Ha.
    rewrite order_status_loop_completed. now eexists _, _.
  - set (rq := order_status_rq (hda w) h order_id) in *.
    set (r := transport E (List.length (exchanges w)) rq).
    assert (next : forall st out,
               st <> "completed" ->
               exists r' w',
                 order_status_loop E fuel order_id st (Some r)
                   (add_out out (add_exchange (rq, r) w)) = (Returns r', w')).
    { intros st out Hst. apply (IH fuel st); auto; try lia.
      - cbn [exchanges add_out add_exchange hda]. rewrite length_app. cbn.
        fold rq. replace (List.length (exchanges w) + 1 + n)%nat
          with (List.length (exchanges w) + S n)%nat by lia. exact Hdone.
      - intros m Hm. cbn [exchanges add_out add_exchange hda].
        rewrite length_app. cbn. fold rq.
        replace (List.length (exchanges w) + 1 + m)%nat
          with (List.length (exchanges w) + S m)%nat by lia.
        apply Hpend. lia. }
    pose proof (Hpend 0%nat (Nat.lt_0_succ n)) as P.
    rewrite Nat.add_0_r in P. fold r in P.
    destruct P as [P|(st & Hst & H200 & o & Ho & Ha)].
    + rewrite Hc. apply Z.eqb_neq in P. rewrite P. now apply next.
    + rewrite H200, Hc, Z.eqb_refl, Ho, Ha. now apply next.
Qed.

Lemma nth_error_snoc {A} (l : list A) (a : A) :
  nth_error (l ++ [a]) (List.length l) = Some a.
Proof. rewrite nth_error_app2 by lia. now rewrite Nat.sub_diag. Qed.

(** One turn of the loop of [get_order_ids] with such a broker, when the
    list of ids is as long as the count of turns. *)
Lemma order_step_accepts d st w h job :
  headers (hda w) = Some h -> job_id (hda w) = Some job ->
  CONST_HTTP_SUCCESS_CODE (hda w) = 200 ->
  ol_i st = List.length (ol_order_ids st) ->
  let x := (order_rq (hda w) h job d,
            transport E (List.length (exchanges w)) (order_rq (hda w) h job d)) in
  exists oid r' w' polls,
    order_step E bound d st w
    = (Returns (mkOrderLoop (S (ol_i st)) (ol_order_ids st ++ [oid])
                  (ol_order_sizes st ++ [d_size d]) (Some r')), w')
    /\ granted_id x = Some oid
    /\ hda w' = hda w /\ files w' = files w /\ downloads w' = downloads w
    /\ exchanges w' = (exchanges w ++ x :: polls)%list
    /\ order_posts polls = [].
Proof.
  intros Hh Hj Hc Hi x.
  destruct (Horders (List.length (exchanges w)) (order_rq (hda w) h job d)
              eq_refl) as (H200 & oid & Hoid).
  fold x in Hoid. unfold granted_id in Hoid. cbn [snd x] in Hoid.
  destruct (text _) as [ob|] eqn:T; [|discriminate].
  unfold order_step, requests_post. run. cbv zeta.
  fold (order_rq (hda w) h job d). rewrite H200, Hc, Z.eqb_refl. run.
  rewrite T, Hoid. run. rewrite Hi, nth_error_snoc. run.
  rewrite nth_error_snoc.
  set (w1 := add_out _ (add_exchange _ w)).
  assert (Hh1 : headers (hda w1) = Some h) by exact Hh.
  assert (Hc1 : CONST_HTTP_SUCCESS_CODE (hda w1) = 200) by exact Hc.
  destruct (Hstatus (List.length (exchanges w1))
              (order_status_rq (hda w1) h oid) eq_refl eq_refl)
    as (n & Hn & Hdone & Hpend).
  destruct (order_status_loop_within h oid n bound "not started" None w1
              Hh1 Hc1) as (r' & w2 & G); auto; [discriminate|].
  fold (get_order_status E bound oid) in G.
  rewrite (run_bind_with _ _ _ _ _ G). run.
  apply order_status_loop_frame in G.
  destruct G as (G1 & G2 & G3 & _ & (polls & G5 & G6) & _).
  exists oid, r', w2, polls. repeat split.
  - unfold granted_id. cbn [snd x]. now rewrite T.
  - exact G1.
  - exact G2.
  - exact G3.
  - rewrite G5. cbn [exchanges add_out add_exchange w1].
    rewrite <- app_assoc. reflexivity.
  - exact G6.
Qed.

(** The loop of [get_order_ids] with such a broker. *)
Lemma order_loop_accepts h job :
  forall content st w,
    headers (hda w) = Some h -> job_id (hda w) = Some job ->
    CONST_HTTP_SUCCESS_CODE (hda w) = 200 ->
    ol_i st = List.length (ol_order_ids st) ->
    exists st' w' new ids,
      order_loop E bound content st w = (Returns st', w')
      /\ hda w' = hda w /\ files w' = files w /\ downloads w' = downloads w
      /\ exchanges w' = (exchanges w ++ new)%list
      /\ map fst (order_posts new) = map (order_rq (hda w) h job) content
      /\ map granted_id (order_posts new) = map Some ids
      /\ ol_order_ids st' = (ol_order_ids st ++ ids)%list
      /\ ol_order_sizes st' = (ol_order_sizes st ++ map d_size content)%list
      /\ (content <> [] -> ol_response st' <> None).
Proof.
  induction content as [|d more IH]; intros st w Hh Hj Hc Hi.
  - exists st, w, [], []. rewrite !app_nil_r. repeat split; auto.
  - destruct (order_step_accepts d st w h job Hh Hj Hc Hi)
      as (oid & r' & w1 & polls & S1 & G1 & A1 & A2 & A3 & A4 & A5).
    set (st1 := mkOrderLoop _ _ _ _) in S1.
    destruct (IH st1 w1) as (st' & w' & new & ids & L & B1 & B2 & B3 & B4 & B5
                             & B6 & B7 & B8 & B9); try congruence.
    { cbn. rewrite length_app. cbn. lia. }
    set (x := (order_rq (hda w) h job d, _)) in *.
    exists st', w', (x :: polls ++ new)%list, (oid :: ids).
    cbn [order_loop]. rewrite (run_bind_with _ _ _ _ _ S1), L.
    assert (P : order_posts (x :: polls ++ new) = x :: order_posts new).
    { unfold order_posts in *. cbn [filter is_post fst x order_rq rq_method].
      now rewrite filter_app, A5. }
    rewrite P. cbn [map fst x]. rewrite A1 in B5. rewrite B5, B6, G1.
    repeat split; try congruence.
    + rewrite B4, A4, <- app_assoc. reflexivity.
    + rewrite B7. cbn [st1 ol_order_ids]. now rewrite <- app_assoc.
    + rewrite B8. cbn [st1 ol_order_sizes]. now rewrite <- app_assoc.
    + intros _. destruct more as [|d' more'].
      * cbn [order_loop] in L. inversion L. subst st'. discriminate.
      * apply B9. discriminate.
Qed.

End Accepted.

(** ** [download_data] *)

Section Downloads.
Variable E : Env.

(** What every call of [downloadFile] does around the file it writes: the
    call is recorded, the dictionary is left alone, no other file is
    touched; with a total length other than zero and a clock that moves, the
    call returns. *)
Lemma downloadFile_frame url h directory file_name total_length w :
  exists o w',
    downloadFile E url h directory file_name total_length w = (o, w')
    /\ hda w' = hda w
    /\ downloads w'
       = (downloads w ++ [mkDownload url h directory file_name total_length])%list
    /\ (forall q, q <> realpath E (os_path_join directory file_name) ->
                  files w' q = files w q)
    /\ (forall t, total_length = Some t -> t <> 0 -> clock_moves E ->
                  exists v, o = Returns v).
Proof.
  set (r := transport E (List.length (exchanges w)) (download_rq url h)).
  destruct (Z.eq_dec (status_code r) 200) as [H200|H200].
  2:{ rewrite (downloadFile_not_200 E url h directory file_name total_length w H200).
      eexists _, _. split; [reflexivity|]. repeat split; eauto. }
  rewrite (downloadFile_200 E url h directory file_name total_length w H200).
  cbv zeta. fold r.
  set (filename := os_path_join directory file_name).
  set (start := clock E (clock_reads w)).
  set (w0 := opened E url h directory file_name total_length w).
  assert (F0 : files w0 (realpath E filename) = Some []).
  { unfold w0, opened. fold filename. cbn [tick files]. apply files_set_same. }
  assert (O0 : forall q, q <> realpath E filename -> files w0 q = files w q).
  { intros q Hq. unfold w0, opened. fold filename. cbn [tick files].
    now rewrite files_set_other. }
  destruct total_length as [total|]; run.
  2:{ exists (Raises TypeError), w0. repeat split; auto. discriminate. }
  destruct (download_loop_run E filename start (Some total)
              (iter_content r CHUNK_SIZE) 0 (add_out (FileSize total) w0) [] F0)
    as (o & w1 & k & R & _ & _ & Hoth & Hh & _ & Hd & Ho).
  assert (Good : total <> 0 -> clock_moves E ->
                 o = Returns (0 + total_len (iter_content r CHUNK_SIZE))
                 /\ (clock_reads w < clock_reads w1)%nat).
  { intros Ht Hc.
    destruct (download_loop_returns E filename start total Ht
                (iter_content r CHUNK_SIZE) 0 (add_out (FileSize total) w0))
      as (w1' & R' & T').
    - intros n Hn. cbn [clock_reads add_out] in Hn.
      intros Heq. apply (Hc (clock_reads w) n); [|now symmetry].
      change (clock_reads w0) with (S (clock_reads w)) in Hn. lia.
    - rewrite R in R'. inversion R'. subst w1'. split; [reflexivity|].
      rewrite T'. cbn [clock_reads add_out].
      change (clock_reads w0) with (S (clock_reads w)). lia. }
  rewrite (run_bind_with _ _ _ _ _ R).
  cbn [hda downloads add_out] in Hh, Hd.
  assert (Hoth' : forall q, q <> realpath E filename -> files w1 q = files w q).
  { intros q Hq. rewrite Hoth by exact Hq. cbn [files add_out]. now apply O0. }
  destruct o as [dl|e|]; [| |contradiction].
  - run. destruct (_ =? 0) eqn:Z0.
    + eexists _, _. split; [reflexivity|].
      cbn [hda downloads files tick]. repeat split; auto.
      intros t [= <-] Ht Hc. exfalso. destruct (Good Ht Hc) as [_ L].
      apply Z.eqb_eq in Z0. apply (Hc _ _ L). fold start. lia.
    + run. eexists _, _. split; [reflexivity|].
      cbn [hda downloads files tick add_out]. repeat split; auto.
      intros. now eexists.
  - eexists _, _. split; [reflexivity|]. repeat split; auto.
    intros t [= <-] Ht Hc. destruct (Good Ht Hc) as [G _]. discriminate.
Qed.

(** One turn of the loop of [download_data] that meets no obstacle. *)
Lemma download_step_ok fileName i order_id w h sizes response fn t :
  headers (hda w) = Some h ->
  order_sizes (hda w) = Some sizes ->
  order_status_response (hda w) = Some response ->
  nth_error fileName i = Some fn ->
  nth_error sizes i = Some (Some t) ->
  t <> 0 -> clock_moves E ->
  files w (realpath E ("./" ++ fn)) = None ->
  realpath E ("./" ++ fn)
  <> realpath E (os_path_join (download_dir_path (hda w)) fn) ->
  exists w',
    download_step E fileName i order_id w = (Returns tt, w')
    /\ hda w' = hda w
    /\ downloads w'
       = (downloads w
          ++ [mkDownload (broker_endpoint (hda w) ++ "/dataorder/download/" ++ order_id)
                h (download_dir_path (hda w)) fn (Some t)])%list
    /\ (forall q, q <> realpath E (os_path_join (download_dir_path (hda w)) fn) ->
                  files w' q = files w q).
Proof.
  intros Hh Hs Hr Hfn Hsz Ht Hc Hnone Hneq.
  unfold download_step. run. rewrite Hfn. run. rewrite Hsz. run.
  set (w0 := add_out _ (add_out _ (add_out _ (add_out _ (add_out _ w))))).
  destruct (downloadFile_frame
              (broker_endpoint (hda w) ++ "/dataorder/download/" ++ order_id)
              h (download_dir_path (hda w)) fn (Some t) w0)
    as (o & w1 & R & A1 & A2 & A3 & A4).
  destruct (A4 t eq_refl Ht Hc) as [v ->].
  rewrite (run_bind_with _ _ _ _ _ R). run.
  cbn [hda w0 add_out] in A1. rewrite A1, Hr. run. rewrite A1.
  assert (F : files w1 (realpath E ("./" ++ fn)) = None).
  { rewrite (A3 _ Hneq). exact Hnone. }
  unfold os_path_isfile.
  destruct (status_code response =? CONST_HTTP_SUCCESS_CODE (hda w)).
  - run. rewrite F. eexists. split; [reflexivity|].
    cbn [hda downloads files add_out]. repeat split; auto.
  - eexists. split; [reflexivity|].
    cbn [hda downloads files add_out]. repeat split; auto.
Qed.

End Downloads.

Lemma skipn_cons_nth {A} (l : list A) :
  forall i d ds,
    skipn i l = d :: ds -> nth_error l i = Some d /\ skipn (S i) l = ds.
Proof.
  induction l as [|a l IH]; intros i d ds H.
  - destruct i; discriminate.
  - destruct i as [|i].
    + cbn in H. inversion H. subst. split; reflexivity.
    + cbn [skipn] in H. destruct (IH i d ds H) as [N S1].
      split; [exact N|]. exact S1.
Qed.

Lemma In_skipn {A} (l : list A) (i : nat) (x : A) : In x (skipn i l) -> In x l.
Proof.
  intros H. rewrite <- (firstn_skipn i l). apply in_or_app. now right.
Qed.

Section DownloadLoop.
Variables (E : Env) (content : list Descriptor) (h : list (string * string)).
Variable response : Response.
Hypothesis Hclock : clock_moves E.
Hypothesis Hsized : Forall sized content.

(** The loop of [download_data] over order ids that stand for the result
    descriptors from position [i] on, when no download meets an obstacle. *)
Lemma download_loop_ids_ok :
  forall ids ds i w,
    headers (hda w) = Some h ->
    order_sizes (hda w) = Some (map d_size content) ->
    order_status_response (hda w) = Some response ->
    skipn i content = ds ->
    List.length ids = List.length ds ->
    (forall d, In d ds -> files w (realpath E ("./" ++ d_filename d)) = None) ->
    (forall d d', In d content -> In d' content ->
       realpath E ("./" ++ d_filename d)
       <> realpath E (os_path_join (download_dir_path (hda w)) (d_filename d'))) ->
    exists w',
      download_loop_ids E (map d_filename content) i ids w = (Returns tt, w')
      /\ hda w' = hda w
      /\ downloads w'
         = (downloads w
            ++ map (fun x => download_of (hda w) h (fst x) (snd x))
                 (combine ids ds))%list.
Proof.
  induction ids as [|oid ids IH]; intros ds i w Hh Hs Hr Hskip Hlen Hnone Hneq.
  - exists w. cbn. rewrite app_nil_r. repeat split; reflexivity.
  - destruct ds as [|d ds]; [discriminate|].
    destruct (skipn_cons_nth content i d ds Hskip) as [Hn Hskip'].
    assert (Hd : In d content) by (apply (In_skipn content i); rewrite Hskip; now left).
    assert (Hsd : sized d) by (rewrite Forall_forall in Hsized; now apply Hsized).
    destruct Hsd as (t & Hsize & Ht).
    destruct (download_step_ok E (map d_filename content) i oid w h
                (map d_size content) response (d_filename d) t Hh Hs Hr)
      as (w1 & S1 & A1 & A2 & A3); auto.
    { now apply map_nth_error. }
    { rewrite <- Hsize. now apply map_nth_error. }
    { apply Hnone. now left. }
    destruct (IH ds (S i) w1) as (w' & L & B1 & B2); try congruence.
    { cbn in Hlen. lia. }
    { intros d' Hd'. rewrite A3.
      - apply Hnone. now right.
      - apply Hneq; [|exact Hd].
        apply (In_skipn content (S i)). now rewrite Hskip'. }
    { rewrite A1. exact Hneq. }
    exists w'. cbn [download_loop_ids]. rewrite (run_bind_with _ _ _ _ _ S1), L.
    repeat split; [congruence|].
    rewrite B2, A2, A1, <- app_assoc. cbn [combine map app fst snd].
    rewrite <- Hsize. reflexivity.
Qed.

End DownloadLoop.


Lemma broker_env_accepts : accepts_orders broker_env.
Proof.
  intros k rq Hm. cbn. unfold broker_transport, granted_id. cbn [snd].
  rewrite Hm. cbn. split; [reflexivity|]. now eexists.
Qed.

Lemma broker_env_completes : completes_within broker_env 1.
Proof.
  intros k rq Hm _. exists 0%nat. repeat split; [lia| | |intros m Hm'; lia].
  - cbn. unfold broker_transport. now rewrite Hm.
  - cbn. unfold broker_transport. rewrite Hm.
    exists [("status", "completed")]. split; reflexivity.
Qed.

Lemma ticking_moves (tr : nat -> Request -> Response) (rp : string -> string) :
  clock_moves (mkEnv tr ticking rp).
Proof. intros n m L. cbn. unfold ticking. lia. Qed.


Example orders_and_downloads_run :
  let w1 := snd (get_order_ids broker_env 1 (sample_world (Some two_results))) in
  order_ids (hda w1)
  = Some ["order-https://archive/a.nc"; "order-https://archive/b.nc"]
  /\ downloads (snd (download_data broker_env w1))
     = [download_of (sample_session None) sample_headers
          "order-https://archive/a.nc" file_a;
        download_of (sample_session None) sample_headers
          "order-https://archive/b.nc" file_b].
Proof. split; reflexivity. Qed.


(** * Further properties *)

(** ** The pollers, whatever the answers *)

Section PollersMore.
Variable E : Env.

(** Every request of the loop of [get_request_status] is the same status
    request; a loop that is still running has used all its fuel. *)
Lemma request_status_loop_frame h job :
  forall fuel status w o w',
    headers (hda w) = Some h -> job_id (hda w) = Some job ->
    request_status_loop E fuel status w = (o, w') ->
    hda w' = hda w /\ files w' = files w /\ downloads w' = downloads w
    /\ exists polls,
         exchanges w' = (exchanges w ++ polls)%list
         /\ Forall (fun x => fst x = request_status_rq (hda w) h job) polls
         /\ (List.length polls <= fuel)%nat
         /\ (o = Running -> List.length polls = fuel).
Proof.
  induction fuel as [|fuel IH]; intros status w o w' Hh Hj R.
  - cbn [request_status_loop] in R.
    destruct (negb (status =? "completed")%string); inversion R; subst;
      repeat split; auto; exists []; rewrite app_nil_r; repeat split; auto.
  - destruct (String.eqb_spec status "completed") as [->|Hs].
    + rewrite request_status_loop_completed in R. inversion R. subst.
      repeat split; auto. exists []. rewrite app_nil_r. repeat split; auto.
      * cbn. lia.
      * discriminate.
    + rewrite (request_status_loop_step E fuel status w h job Hh Hj Hs) in R.
      cbv zeta in R.
      set (rq := request_status_rq (hda w) h job) in *.
      set (r := transport E (List.length (exchanges w)) rq) in *.
      assert (next : forall st out,
                 request_status_loop E fuel st
                   (add_out out (add_exchange (rq, r) w)) = (o, w') ->
                 hda w' = hda w /\ files w' = files w /\ downloads w' = downloads w
                 /\ exists polls,
                      exchanges w' = (exchanges w ++ polls)%list
                      /\ Forall (fun x => fst x = rq) polls
                      /\ (List.length polls <= S fuel)%nat
                      /\ (o = Running -> List.length polls = S fuel)).
      { intros st out R'. apply IH in R'; [|exact Hh|exact Hj].
        destruct R' as (A1 & A2 & A3 & polls & A4 & A5 & A6 & A7).
        cbn [hda files downloads exchanges add_out add_exchange] in *.
        repeat split; auto. exists ((rq, r) :: polls).
        rewrite A4, <- app_assoc. repeat split; auto.
        - cbn. lia.
        - intros Ho. cbn. now rewrite (A7 Ho). }
      assert (stop : forall e,
                 (Raises e : Outcome unit, add_exchange (rq, r) w) = (o, w') ->
                 hda w' = hda w /\ files w' = files w /\ downloads w' = downloads w
                 /\ exists polls,
                      exchanges w' = (exchanges w ++ polls)%list
                      /\ Forall (fun x => fst x = rq) polls
                      /\ (List.length polls <= S fuel)%nat
                      /\ (o = Running -> List.length polls = S fuel)).
      { intros e [= <- <-]. repeat split; auto. exists [(rq, r)].
        repeat split; auto.
        - cbn. lia.
        - discriminate. }
      destruct (status_code r =? CONST_HTTP_SUCCESS_CODE (hda w)).
      * destruct (text r) as [ob|]; [|now apply (stop _ R)].
        destruct (assoc "status" ob) as [st|]; [|now apply (stop _ R)].
        now apply (next _ _ R).
      * now apply (next _ _ R).
Qed.

(** A poll of [get_request_status] whose answers become ["completed"] after
    [n] pending ones returns after [n + 1] requests. *)
Lemma request_status_loop_exact h job :
  forall n fuel status w,
    headers (hda w) = Some h -> job_id (hda w) = Some job ->
    CONST_HTTP_SUCCESS_CODE (hda w) = 200 ->
    status <> "completed" ->
    (n < fuel)%nat ->
    answers_status "completed"
      (transport E (List.length (exchanges w) + n) (request_status_rq (hda w) h job)) ->
    (forall m, (m < n)%nat ->
       pending (transport E (List.length (exchanges w) + m)
                  (request_status_rq (hda w) h job))) ->
    exists w',
      request_status_loop E fuel status w = (Returns tt, w')
      /\ List.length (exchanges w') = (List.length (exchanges w) + S n)%nat.
Proof.
  induction n as [|n IH]; intros fuel status w Hh Hj Hc Hs Hf Hdone Hpend;
    (destruct fuel as [|fuel]; [lia|]);
    rewrite (request_status_loop_step E fuel status w h job Hh Hj Hs);
    cbv zeta.
  - rewrite Nat.add_0_r in Hdone. destruct Hdone as (H200 & o & Ho & Ha).
    rewrite H200, Hc, Z.eqb_refl, Ho, Ha.
    rewrite request_status_loop_completed. eexists. split; [reflexivity|].
    cbn. rewrite length_app. reflexivity.
  - set (rq := request_status_rq (hda w) h job) in *.
    set (r := transport E (List.length (exchanges w)) rq).
    assert (next : forall st out,
               st <> "completed" ->
               exists w',
                 request_status_loop E fuel st
                   (add_out out (add_exchange (rq, r) w)) = (Returns tt, w')
                 /\ List.length (exchanges w')
                    = (List.length (exchanges w) + S (S n))%nat).
    { intros st out Hst.
      destruct (IH fuel st (add_out out (add_exchange (rq, r) w)))
        as (w' & R & L); auto; try lia.
      - cbn [exchanges add_out add_exchange hda]. rewrite length_app. cbn.
        fold rq. replace (List.length (exchanges w) + 1 + n)%nat
          with (List.length (exchanges w) + S n)%nat by lia. exact Hdone.
      - intros m Hm. cbn [exchanges add_out add_exchange hda].
        rewrite length_app. cbn. fold rq.
        replace (List.length (exchanges w) + 1 + m)%nat
          with (List.length (exchanges w) + S m)%nat by lia.
        apply Hpend. lia.
      - exists w'. split; [exact R|]. rewrite L.
        cbn [exchanges add_out add_exchange]. rewrite length_app. cbn. lia. }
    pose proof (Hpend 0%nat (Nat.lt_0_succ n)) as P.
    rewrite Nat.add_0_r in P. fold r in P.
    destruct P as [P|(st & Hst & H200 & o & Ho & Ha)].
    + rewrite Hc. apply Z.eqb_neq in P. rewrite P. now apply next.
    + rewrite H200, Hc, Z.eqb_refl, Ho, Ha. now apply next.
Qed.

(** The same for [get_order_status], which returns the answer that says
    ["completed"]. *)
Lemma order_status_loop_exact h order_id :
  forall n fuel status response w,
    headers (hda w) = Some h ->
    CONST_HTTP_SUCCESS_CODE (hda w) = 200 ->
    status <> "completed" ->
    (n < fuel)%nat ->
    answers_status "completed"
      (transport E (List.length (exchanges w) + n) (order_status_rq (hda w) h order_id)) ->
    (forall m, (m < n)%nat ->
       pending (transport E (List.length (exchanges w) + m)
                  (order_status_rq (hda w) h order_id))) ->
    exists w',
      order_status_loop E fuel order_id status response w
      = (Returns (transport E (List.length (exchanges w) + n)
                    (order_status_rq (hda w) h order_id)), w')
      /\ List.length (exchanges w') = (List.length (exchanges w) + S n)%nat.
Proof.
  induction n as [|n IH]; intros fuel status response w Hh Hc Hs Hf Hdone Hpend;
    (destruct fuel as [|fuel]; [lia|]);
    rewrite (order_status_loop_step E fuel order_id status response w h Hh Hs);
    cbv zeta.
  - rewrite Nat.add_0_r in Hdone |- *. destruct Hdone as (H200 & o & Ho & Ha).
    rewrite H200, Hc, Z.eqb_refl, Ho, Ha.
    rewrite order_status_loop_completed. eexists. split; [reflexivity|].
    cbn. rewrite length_app. reflexivity.
  - set (rq := order_status_rq (hda w) h order_id) in *.
    set (r := transport E (List.length (exchanges w)) rq).
    assert (next : forall st out,
               st <> "completed" ->
               exists w',
                 order_status_loop E fuel order_id st (Some r)
                   (add_out out (add_exchange (rq, r) w))
                 = (Returns (transport E (List.length (exchanges w) + S n) rq), w')
                 /\ List.length (exchanges w')
                    = (List.length (exchanges w) + S (S n))%nat).
    { intros st out Hst.
      destruct (IH fuel st (Some r) (add_out out (add_exchange (rq, r) w)))
        as (w' & R & L); auto; try lia.
      - cbn [exchanges add_out add_exchange hda]. rewrite length_app. cbn.
        fold rq. replace (List.length (exchanges w) + 1 + n)%nat
          with (List.length (exchanges w) + S n)%nat by lia. exact Hdone.
      - intros m Hm. cbn [exchanges add_out add_exchange hda].
        rewrite length_app. cbn. fold rq.
        replace (List.length (exchanges w) + 1 + m)%nat
          with (List.length (exchanges w) + S m)%nat by lia.
        apply Hpend. lia.
      - exists w'. split.
        + rewrite R. cbn [exchanges add_out add_exchange hda].
          rewrite length_app. cbn. fold rq.
          replace (List.length (exchanges w) + 1 + n)%nat
            with (List.length (exchanges w) + S n)%nat by lia. reflexivity.
        + rewrite L. cbn [exchanges add_out add_exchange].
          rewrite length_app. cbn. lia. }
    pose proof (Hpend 0%nat (Nat.lt_0_succ n)) as P.
    rewrite Nat.add_0_r in P. fold r in P.
    destruct P as [P|(st & Hst & H200 & o & Ho & Ha)].
    + rewrite Hc. apply Z.eqb_neq in P. rewrite P. now apply next.
    + rewrite H200, Hc, Z.eqb_refl, Ho, Ha. now apply next.
Qed.

(** Pending answers only keep both loops running. *)
Lemma request_status_loop_spins h job :
  (forall k rq, pending (transport E k rq)) ->
  forall fuel status w,
    headers (hda w) = Some h -> job_id (hda w) = Some job ->
    CONST_HTTP_SUCCESS_CODE (hda w) = 200 ->
    status <> "completed" ->
    exists w',
      request_status_loop E fuel status w = (Running, w')
      /\ List.length (exchanges w') = (List.length (exchanges w) + fuel)%nat
      /\ List.length (stdout w') = (List.length (stdout w) + fuel)%nat.
Proof.
  intros HT. induction fuel as [|fuel IH]; intros status w Hh Hj Hc Hs.
  - exists w. repeat split; try lia. cbn. apply String.eqb_neq in Hs. now rewrite Hs.
  - rewrite (request_status_loop_step E fuel status w h job Hh Hj Hs). cbv zeta.
    set (rq := request_status_rq (hda w) h job).
    set (r := transport E (List.length (exchanges w)) rq).
    assert (next : forall st out,
               st <> "completed" ->
               exists w',
                 request_status_loop E fuel st
                   (add_out out (add_exchange (rq, r) w)) = (Running, w')
                 /\ List.length (exchanges w')
                    = (List.length (exchanges w) + S fuel)%nat
                 /\ List.length (stdout w')
                    = (List.length (stdout w) + S fuel)%nat).
    { intros st out Hst.
      destruct (IH st (add_out out (add_exchange (rq, r) w)))
        as (w' & R & L1 & L2); auto.
      exists w'. split; [exact R|]. rewrite L1, L2.
      cbn [exchanges stdout add_out add_exchange]. rewrite !length_app. cbn. lia. }
    pose proof (HT (List.length (exchanges w)) rq) as P. fold r in P.
    destruct P as [P|(st & Hst & H200 & o & Ho & Ha)].
    + rewrite Hc. apply Z.eqb_neq in P. rewrite P. now apply next.
    + rewrite H200, Hc, Z.eqb_refl, Ho, Ha. now apply next.
Qed.

Lemma order_status_loop_spins h order_id :
  (forall k rq, pending (transport E k rq)) ->
  forall fuel status response w,
    headers (hda w) = Some h ->
    CONST_HTTP_SUCCESS_CODE (hda w) = 200 ->
    status <> "completed" ->
    exists w',
      order_status_loop E fuel order_id status response w = (Running, w')
      /\ List.length (exchanges w') = (List.length (exchanges w) + fuel)%nat
      /\ List.length (stdout w') = (List.length (stdout w) + fuel)%nat.
Proof.
  intros HT. induction fuel as [|fuel IH]; intros status response w Hh Hc Hs.
  - exists w. repeat split; try lia. cbn. apply String.eqb_neq in Hs. now rewrite Hs.
  - rewrite (order_status_loop_step E fuel order_id status response w h Hh Hs).
    cbv zeta.
    set (rq := order_status_rq (hda w) h order_id).
    set (r := transport E (List.length (exchanges w)) rq).
    assert (next : forall st out,
               st <> "completed" ->
               exists w',
                 order_status_loop E fuel order_id st (Some r)
                   (add_out out (add_exchange (rq, r) w)) = (Running, w')
                 /\ List.length (exchanges w')
                    = (List.length (exchanges w) + S fuel)%nat
                 /\ List.length (stdout w')
                    = (List.length (stdout w) + S fuel)%nat).
    { intros st out Hst.
      destruct (IH st (Some r) (add_out out (add_exchange (rq, r) w)))
        as (w' & R & L1 & L2); auto.
      exists w'. split; [exact R|]. rewrite L1, L2.
      cbn [exchanges stdout add_out add_exchange]. rewrite !length_app. cbn. lia. }
    pose proof (HT (List.length (exchanges w)) rq) as P. fold r in P.
    destruct P as [P|(st & Hst & H200 & o & Ho & Ha)].
    + rewrite Hc. apply Z.eqb_neq in P. rewrite P. now apply next.
    + rewrite H200, Hc, Z.eqb_refl, Ho, Ha. now apply next.
Qed.

End PollersMore.

(** X1.  Answers that are errors (any status code but 200) count as "not yet
    completed" like any other pending answer: when every answer is pending,
    neither poller ever ends; after any number of iterations it has sent
    that many requests and printed that many lines. *)
Theorem status_polling_spins_on_errors (E : Env) (w : World)
    (h : list (string * string)) (job order_id : string) :
  headers (hda w) = Some h ->
  job_id (hda w) = Some job ->
  CONST_HTTP_SUCCESS_CODE (hda w) = 200 ->
  (forall k rq, pending (transport E k rq)) ->
  forall fuel,
    (exists w',
        get_request_status E fuel w = (Running, w')
        /\ List.length (exchanges w') = (List.length (exchanges w) + fuel)%nat
        /\ List.length (stdout w') = (List.length (stdout w) + fuel)%nat)
    /\ (exists w',
        get_order_status E fuel order_id w = (Running, w')
        /\ List.length (exchanges w') = (List.length (exchanges w) + fuel)%nat
        /\ List.length (stdout w') = (List.length (stdout w) + fuel)%nat).
Proof.
  intros Hh Hj Hc HT fuel. split.
  - apply (request_status_loop_spins E h job HT); auto. discriminate.
  - apply (order_status_loop_spins E h order_id HT); auto. discriminate.
Qed.

Lemma status_polling_spins_on_errors_witness :
  (exists w',
      get_request_status refusing_env 4 (sample_world None) = (Running, w')
      /\ List.length (exchanges w') = 4%nat
      /\ List.length (stdout w') = 4%nat)
  /\ (exists w',
      get_order_status refusing_env 4 "order-1" (sample_world None) = (Running, w')
      /\ List.length (exchanges w') = 4%nat
      /\ List.length (stdout w') = 4%nat).
Proof.
  apply (status_polling_spins_on_errors refusing_env (sample_world None)
           sample_headers "job-1" "order-1").
  - reflexivity.
  - reflexivity.
  - reflexivity.
  - intros k rq. left. discriminate.
Defined.

(** X2.  When the answers are pending [n] times and then say ["completed"],
    both pollers return after exactly [n + 1] requests, whatever the fuel
    above [n]; [get_order_status] returns the answer that said
    ["completed"]. *)
Theorem status_polling_returns_after (E : Env) (w : World)
    (h : list (string * string)) (job order_id : string) (n fuel : nat) :
  headers (hda w) = Some h ->
  job_id (hda w) = Some job ->
  CONST_HTTP_SUCCESS_CODE (hda w) = 200 ->
  (n < fuel)%nat ->
  (forall rq, answers_status "completed"
                (transport E (List.length (exchanges w) + n) rq)) ->
  (forall m rq, (m < n)%nat ->
                pending (transport E (List.length (exchanges w) + m) rq)) ->
  (exists w',
      get_request_status E fuel w = (Returns tt, w')
      /\ List.length (exchanges w') = (List.length (exchanges w) + S n)%nat)
  /\ (exists w',
      get_order_status E fuel order_id w
      = (Returns (transport E (List.length (exchanges w) + n)
                    (order_status_rq (hda w) h order_id)), w')
      /\ List.length (exchanges w') = (List.length (exchanges w) + S n)%nat).
Proof.
  intros Hh Hj Hc Hf Hdone Hpend. split.
  - apply (request_status_loop_exact E h job n fuel); auto. discriminate.
  - apply (order_status_loop_exact E h order_id n fuel); auto. discriminate.
Qed.

Lemma status_polling_returns_after_witness :
  (exists w',
      get_request_status slow_env 5 (sample_world None) = (Returns tt, w')
      /\ List.length (exchanges w') = 3%nat)
  /\ (exists w',
      get_order_status slow_env 5 "order-1" (sample_world None)
      = (Returns (transport slow_env 2
                    (order_status_rq (sample_session None) sample_headers "order-1")),
         w')
      /\ List.length (exchanges w') = 3%nat).
Proof.
  apply (status_polling_returns_after slow_env (sample_world None)
           sample_headers "job-1" "order-1" 2 5).
  - reflexivity.
  - reflexivity.
  - reflexivity.
  - lia.
  - intros rq. split; [reflexivity|].
    exists [("status", "completed")]. split; reflexivity.
  - intros m rq Hm. right. exists "running". split; [discriminate|].
    assert (K : (m <? 2)%nat = true) by (apply Nat.ltb_lt; exact Hm).
    cbn. unfold slow_transport. rewrite K. split; [reflexivity|].
    exists [("status", "running")]. split; reflexivity.
Defined.

(** X3.  A success answer without a [status] field ends the polling with an
    exception, after that one request: [JSONDecodeError] when the body is
    not valid JSON, [KeyError('status')] when it is a JSON object (of
    strings) that has no such field. *)
Theorem status_polling_malformed_answer (E : Env) (w : World)
    (h : list (string * string)) (job order_id : string) (fuel : nat) :
  headers (hda w) = Some h ->
  job_id (hda w) = Some job ->
  CONST_HTTP_SUCCESS_CODE (hda w) = 200 ->
  (forall rq, status_code (transport E (List.length (exchanges w)) rq) = 200
              /\ field "status" (transport E (List.length (exchanges w)) rq) = None) ->
  let malformed (r : Response) : PyExc :=
    match text r with
    | None => JSONDecodeError
    | Some _ => KeyError "status"
    end in
  (let rq := request_status_rq (hda w) h job in
   let r := transport E (List.length (exchanges w)) rq in
   get_request_status E (S fuel) w
   = (Raises (malformed r), add_exchange (rq, r) w))
  /\ (let rq := order_status_rq (hda w) h order_id in
      let r := transport E (List.length (exchanges w)) rq in
      get_order_status E (S fuel) order_id w
      = (Raises (malformed r), add_exchange (rq, r) w)).
Proof.
  intros Hh Hj Hc HT malformed. split; cbv zeta.
  - unfold get_request_status.
    rewrite (request_status_loop_step E fuel _ w h job Hh Hj); [|discriminate].
    cbv zeta. destruct (HT (request_status_rq (hda w) h job)) as [H200 Hf].
    rewrite H200, Hc, Z.eqb_refl. unfold field in Hf. unfold malformed.
    destruct (text _) as [o|]; [|reflexivity]. now rewrite Hf.
  - unfold get_order_status.
    rewrite (order_status_loop_step E fuel order_id _ _ w h Hh); [|discriminate].
    cbv zeta. destruct (HT (order_status_rq (hda w) h order_id)) as [H200 Hf].
    rewrite H200, Hc, Z.eqb_refl. unfold field in Hf. unfold malformed.
    destruct (text _) as [o|]; [|reflexivity]. now rewrite Hf.
Qed.

Lemma status_polling_malformed_answer_witness :
  (let rq := request_status_rq (sample_session None) sample_headers "job-1" in
   get_request_status steady_env 3 (sample_world None)
   = (Raises JSONDecodeError,
      add_exchange (rq, transport steady_env 0 rq) (sample_world None)))
  /\ (let rq := order_status_rq (sample_session None) sample_headers "order-1" in
      get_order_status steady_env 3 "order-1" (sample_world None)
      = (Raises JSONDecodeError,
         add_exchange (rq, transport steady_env 0 rq) (sample_world None))).
Proof.
  apply (status_polling_malformed_answer steady_env (sample_world None)
           sample_headers "job-1" "order-1" 2).
  - reflexivity.
  - reflexivity.
  - reflexivity.
  - intros rq. split; reflexivity.
Defined.

(** ** [get_access_token], [query_metadata] and [get_job_id] *)

(** X4.  With a success answer that carries an [access_token],
    [get_access_token] sends one GET to the token address with the header
    [Authorization: Basic <api_key>], stores the token, and sets the headers
    that every later stage sends: [Authorization: Bearer <token>] and
    [Accept: application/json]; no other key of the dictionary changes. *)
Theorem get_access_token_sets_bearer (E : Env)
    (response_headers : Response -> list (string * string)) (keys : Keys)
    (w : World) (token : string) :
  let r := transport E (List.length (exchanges w)) (token_rq (hda w)) in
  status_code r = CONST_HTTP_SUCCESS_CODE (hda w) ->
  field "access_token" r = Some token ->
  exists w',
    get_access_token E response_headers keys w
    = (Returns (mkKeys (Some token) (parsedResponse keys)), w')
    /\ hda w' = set_headers (bearer token) (hda w)
    /\ exchanges w' = (exchanges w ++ [(token_rq (hda w), r)])%list
    /\ files w' = files w.
Proof.
  intros r Hs Hf. unfold get_access_token, requests_get. run. cbv zeta.
  fold (token_rq (hda w)). fold r. rewrite Hs, Z.eqb_refl. run.
  unfold field in Hf. destruct (text r) as [o|]; [|discriminate].
  rewrite Hf. run. eexists. repeat split.
Qed.

Lemma get_access_token_sets_bearer_witness :
  exists w',
    get_access_token portal_env no_response_headers no_keys fresh_world
    = (Returns (mkKeys (Some "tok-1") None), w')
    /\ hda w' = set_headers (bearer "tok-1") (hda fresh_world)
    /\ exchanges w'
       = ([] ++ [(token_rq (hda fresh_world),
                  transport portal_env 0 (token_rq (hda fresh_world)))])%list
    /\ files w' = files fresh_world.
Proof.
  apply (get_access_token_sets_bearer portal_env no_response_headers no_keys
           fresh_world "tok-1").
  - reflexivity.
  - reflexivity.
Defined.

(** X5.  When the token request is refused, [get_access_token] prints the
    error and then raises [UnboundLocalError] on [access_token]: nothing is
    stored, the dictionary is as before (so it still has no headers if it
    had none). *)
Theorem get_access_token_refused (E : Env)
    (response_headers : Response -> list (string * string)) (keys : Keys)
    (w : World) :
  let r := transport E (List.length (exchanges w)) (token_rq (hda w)) in
  status_code r <> CONST_HTTP_SUCCESS_CODE (hda w) ->
  exists w',
    get_access_token E response_headers keys w
    = (Raises (UnboundLocalError "access_token"), w')
    /\ hda w' = hda w
    /\ exchanges w' = (exchanges w ++ [(token_rq (hda w), r)])%list
    /\ stdout w'
       = (stdout w
          ++ [Line "Getting an access token. This token is valid for one hour only.";
              Unexpected r; Headers (response_headers r)])%list.
Proof.
  intros r Hs. apply Z.eqb_neq in Hs.
  unfold get_access_token, requests_get. run. cbv zeta.
  fold (token_rq (hda w)). fold r. rewrite Hs. run.
  eexists. repeat split. cbn. now rewrite <- !app_assoc.
Qed.

Lemma get_access_token_refused_witness :
  exists w',
    get_access_token refusing_env no_response_headers no_keys fresh_world
    = (Raises (UnboundLocalError "access_token"), w')
    /\ hda w' = hda fresh_world
    /\ exchanges w'
       = ([] ++ [(token_rq (hda fresh_world),
                  transport refusing_env 0 (token_rq (hda fresh_world)))])%list
    /\ stdout w'
       = ([] ++ [Line "Getting an access token. This token is valid for one hour only.";
                 Unexpected (transport refusing_env 0 (token_rq (hda fresh_world)));
                 Headers []])%list.
Proof.
  apply (get_access_token_refused refusing_env no_response_headers no_keys
           fresh_world).
  discriminate.
Defined.

(** X6.  [query_metadata] sends its one request before it reads the key
    [access_token]: without that key it raises [KeyError] after the request.
    With the key, a refused request makes it raise [UnboundLocalError] on
    [parsedResponse], a success answer that is not valid JSON makes it raise
    [JSONDecodeError], and a success answer that is a JSON object of strings
    is stored. *)
Theorem query_metadata_outcomes (E : Env)
    (dumps : list (string * string) -> string) (keys : Keys) (w : World)
    (h : list (string * string)) :
  headers (hda w) = Some h ->
  let r := transport E (List.length (exchanges w)) (metadata_rq (hda w) h) in
  exists o w',
    query_metadata E dumps keys w = (o, w')
    /\ hda w' = hda w
    /\ exchanges w' = (exchanges w ++ [(metadata_rq (hda w) h, r)])%list
    /\ o = match access_token keys with
           | None => Raises (KeyError "access_token")
           | Some token =>
               if status_code r =? CONST_HTTP_SUCCESS_CODE (hda w) then
                 match text r with
                 | Some parsed => Returns (mkKeys (Some token) (Some parsed))
                 | None => Raises JSONDecodeError
                 end
               else Raises (UnboundLocalError "parsedResponse")
           end.
Proof.
  intros Hh r. unfold query_metadata, requests_get, key_get, json_loads. run.
  cbv zeta. fold (metadata_rq (hda w) h). fold r.
  destruct (access_token keys) as [token|]; run.
  2:{ eexists _, _. repeat split. }
  destruct (status_code r =? CONST_HTTP_SUCCESS_CODE (hda w)); run.
  - destruct (text r) as [parsed|]; run; eexists _, _; repeat split.
  - eexists _, _. repeat split.
Qed.

Lemma query_metadata_outcomes_witness :
  exists o w',
    query_metadata refusing_env (fun _ => "{}") (mkKeys (Some "tok-1") None)
      (sample_world None) = (o, w')
    /\ hda w' = hda (sample_world None)
    /\ exchanges w'
       = ([] ++ [(metadata_rq (sample_session None) sample_headers,
                  transport refusing_env 0
                    (metadata_rq (sample_session None) sample_headers))])%list
    /\ o = Raises (UnboundLocalError "parsedResponse").
Proof.
  apply (query_metadata_outcomes refusing_env (fun _ => "{}")
           (mkKeys (Some "tok-1") None) (sample_world None) sample_headers).
  reflexivity.
Defined.



(** X8.  When the data request is accepted with a [jobId] and the status
    answers say ["completed"] after [n] pending ones, [get_job_id] returns
    with that job id stored, after one POST and [n + 1] status requests. *)
Theorem get_job_id_accepted (E : Env) (fuel n : nat)
    (data : list (string * string)) (w : World) (h : list (string * string))
    (job : string) :
  headers (hda w) = Some h ->
  CONST_HTTP_SUCCESS_CODE (hda w) = 200 ->
  let r := transport E (List.length (exchanges w)) (submit_rq (hda w) h data) in
  let poll := request_status_rq (hda w) h job in
  status_code r = 200 ->
  field "jobId" r = Some job ->
  (n < fuel)%nat ->
  answers_status "completed" (transport E (S (List.length (exchanges w)) + n) poll) ->
  (forall m, (m < n)%nat ->
             pending (transport E (S (List.length (exchanges w)) + m) poll)) ->
  exists w',
    get_job_id E fuel data w = (Returns tt, w')
    /\ job_id (hda w') = Some job
    /\ List.length (exchanges w') = (List.length (exchanges w) + 1 + S n)%nat.
Proof.
  intros Hh Hc r poll Hs Hf Hn Hdone Hpend.
  unfold get_job_id, requests_post. run. cbv zeta.
  fold (submit_rq (hda w) h data). fold r. rewrite Hs, Hc. cbn [Z.eqb Pos.eqb].
  run. unfold field in Hf. destruct (text r) as [o|]; [|discriminate].
  rewrite Hf. run.
  set (w1 := set_hda _ _).
  assert (L1 : List.length (exchanges w1) = S (List.length (exchanges w))).
  { cbn [w1 exchanges set_hda add_out add_exchange]. rewrite length_app. cbn. lia. }
  destruct (request_status_loop_exact E h job n fuel "not started" w1)
    as (w' & R & L); auto; try discriminate.
  - rewrite L1. exact Hdone.
  - intros m Hm. rewrite L1. now apply Hpend.
  - exists w'. unfold get_request_status. rewrite R. repeat split.
    + apply (request_status_loop_frame E h job) in R; auto.
      destruct R as (A1 & _). now rewrite A1.
    + rewrite L, L1. lia.
Qed.

Lemma get_job_id_accepted_witness :
  exists w',
    get_job_id portal_env 1 sample_data (sample_world None) = (Returns tt, w')
    /\ job_id (hda w') = Some "job-7"
    /\ List.length (exchanges w') = 2%nat.
Proof.
  apply (get_job_id_accepted portal_env 1 0 sample_data (sample_world None)
           sample_headers "job-7").
  - reflexivity.
  - reflexivity.
  - reflexivity.
  - reflexivity.
  - lia.
  - split; [reflexivity|]. eexists. split; reflexivity.
  - intros m Hm. lia.
Defined.

(** X9.  The stages compose through the dictionary: after
    [get_access_token] got the token, the data request and the status
    request of [get_job_id] carry [Authorization: Bearer <token>]; with the
    request accepted and the job completed at once, the two stages send
    three requests in all and leave the headers and the job id in the
    dictionary, also when it came fresh from [init]. *)
Theorem token_then_job (E : Env)
    (response_headers : Response -> list (string * string)) (keys : Keys)
    (fuel : nat) (data : list (string * string)) (w : World)
    (token job : string) :
  CONST_HTTP_SUCCESS_CODE (hda w) = 200 ->
  let n := List.length (exchanges w) in
  let r0 := transport E n (token_rq (hda w)) in
  let submit := submit_rq (hda w) (bearer token) data in
  let r1 := transport E (S n) submit in
  let poll := request_status_rq (hda w) (bearer token) job in
  let r2 := transport E (S (S n)) poll in
  status_code r0 = 200 -> field "access_token" r0 = Some token ->
  status_code r1 = 200 -> field "jobId" r1 = Some job ->
  answers_status "completed" r2 ->
  exists w',
    (_ <- get_access_token E response_headers keys ;; get_job_id E (S fuel) data) w
    = (Returns tt, w')
    /\ exchanges w'
       = (exchanges w ++ [(token_rq (hda w), r0); (submit, r1); (poll, r2)])%list
    /\ hda w' = set_job_id job (set_headers (bearer token) (hda w)).
Proof.
  intros Hc n r0 submit r1 poll r2 H0 F0 H1 F1 H2.
  unfold get_access_token, requests_get. run. cbv zeta.
  fold (token_rq (hda w)). fold n. fold r0. rewrite H0, Hc. cbn [Z.eqb Pos.eqb].
  run. unfold field in F0. destruct (text r0) as [o0|]; [|discriminate].
  rewrite F0. run.
  unfold get_job_id, requests_post. run.
  cbn [headers broker_endpoint CONST_HTTP_SUCCESS_CODE set_headers]. run.
  cbv zeta. rewrite length_app. cbn [List.length].
  replace (List.length (exchanges w) + 1)%nat with (S n) by (unfold n; lia).
  fold (bearer token). fold (submit_rq (hda w) (bearer token) data).
  fold submit. fold r1.
  cbn [CONST_HTTP_SUCCESS_CODE set_headers]. rewrite H1, Hc.
  cbn [Z.eqb Pos.eqb]. run.
  unfold field in F1. destruct (text r1) as [o1|]; [|discriminate].
  rewrite F1. run.
  set (w1 := set_hda _ _).
  assert (L1 : List.length (exchanges w1) = S (S n)).
  { cbn [w1 exchanges set_hda add_out add_exchange]. rewrite !length_app.
    cbn. unfold n. lia. }
  pose proof (get_request_status_first E fuel w1 (bearer token) job
                eq_refl eq_refl Hc) as G.
  cbv zeta in G. rewrite L1 in G.
  change (request_status_rq (hda w1) (bearer token) job) with poll in G.
  fold r2 in G. rewrite (G H2).
  eexists. split; [reflexivity|].
  cbn [w1 exchanges hda set_hda add_out add_exchange].
  rewrite <- !app_assoc. split; reflexivity.
Qed.

Lemma token_then_job_witness :
  exists w',
    (_ <- get_access_token portal_env no_response_headers no_keys ;;
     get_job_id portal_env 1 sample_data) fresh_world
    = (Returns tt, w')
    /\ exchanges w'
       = ([] ++ [(token_rq (hda fresh_world),
                  transport portal_env 0 (token_rq (hda fresh_world)));
                 (submit_rq (hda fresh_world) (bearer "tok-1") sample_data,
                  transport portal_env 1
                    (submit_rq (hda fresh_world) (bearer "tok-1") sample_data));
                 (request_status_rq (hda fresh_world) (bearer "tok-1") "job-7",
                  transport portal_env 2
                    (request_status_rq (hda fresh_world) (bearer "tok-1") "job-7"))])%list
    /\ hda w' = set_job_id "job-7" (set_headers (bearer "tok-1") (hda fresh_world)).
Proof.
  apply (token_then_job portal_env no_response_headers no_keys 0 sample_data
           fresh_world "tok-1" "job-7").
  - reflexivity.
  - reflexivity.
  - reflexivity.
  - reflexivity.
  - reflexivity.
  - split; [reflexivity|]. eexists. split; reflexivity.
Defined.

(** X10.  No stage checks that the stages before it have run.  On a
    dictionary as [init] leaves it, every later stage raises [KeyError] for
    the first key it misses, before it sends a request, prints or writes
    anything. *)
Theorem stages_need_their_keys (E : Env) (fuel : nat) (w : World)
    (dataset key path order_id : string) (data : list (string * string))
    (dumps : list (string * string) -> string) (keys : Keys) :
  hda w = init dataset key path ->
  get_job_id E fuel data w = (Raises (KeyError "headers"), w)
  /\ query_metadata E dumps keys w = (Raises (KeyError "headers"), w)
  /\ get_request_status E (S fuel) w = (Raises (KeyError "job_id"), w)
  /\ get_order_status E (S fuel) order_id w = (Raises (KeyError "headers"), w)
  /\ get_order_ids E fuel w = (Raises (KeyError "results"), w)
  /\ get_filenames w = (Raises (KeyError "results"), w)
  /\ download_data E w = (Raises (KeyError "results"), w).
Proof.
  intros H.
  assert (Hh : headers (hda w) = None) by now rewrite H.
  assert (Hj : job_id (hda w) = None) by now rewrite H.
  assert (Hr : results (hda w) = None) by now rewrite H.
  repeat split.
  - unfold get_job_id. run. now rewrite Hh.
  - unfold query_metadata. run. now rewrite Hh.
  - unfold get_request_status. cbn [request_status_loop String.eqb Ascii.eqb
      Bool.eqb negb]. run. now rewrite Hj.
  - unfold get_order_status. cbn [order_status_loop String.eqb Ascii.eqb
      Bool.eqb negb]. run. now rewrite Hh.
  - unfold get_order_ids. run. now rewrite Hr.
  - unfold get_filenames. run. now rewrite Hr.
  - unfold download_data, get_filenames. run. now rewrite Hr.
Qed.

Lemma stages_need_their_keys_witness :
  get_job_id steady_env 2 sample_data fresh_world
  = (Raises (KeyError "headers"), fresh_world)
  /\ query_metadata steady_env (fun _ => "{}") no_keys fresh_world
     = (Raises (KeyError "headers"), fresh_world)
  /\ get_request_status steady_env 3 fresh_world
     = (Raises (KeyError "job_id"), fresh_world)
  /\ get_order_status steady_env 3 "order-1" fresh_world
     = (Raises (KeyError "headers"), fresh_world)
  /\ get_order_ids steady_env 2 fresh_world
     = (Raises (KeyError "results"), fresh_world)
  /\ get_filenames fresh_world = (Raises (KeyError "results"), fresh_world)
  /\ download_data steady_env fresh_world
     = (Raises (KeyError "results"), fresh_world).
Proof.
  apply (stages_need_their_keys steady_env 2 fresh_world
           "EO:ECMWF:DAT:CAMS_EUROPE_AIR_QUALITY_FORECASTS" "a2V5" "./data/"
           "order-1" sample_data (fun _ => "{}") no_keys).
  reflexivity.
Defined.

(** ** [get_order_ids] at its edges *)

(** X11.  With an empty result list, [get_order_ids] sends nothing, stores
    the two empty lists and then raises [UnboundLocalError]: the variable
    [response] was never assigned.  A call of [download_data] on the
    dictionary it leaves prints the empty list of names and makes no
    download. *)
Theorem get_order_ids_no_results (E : Env) (fuel : nat) (w : World) :
  results (hda w) = Some [] ->
  let w' := set_hda (set_order_sizes []) (set_hda (set_order_ids []) w) in
  get_order_ids E fuel w = (Raises (UnboundLocalError "response"), w')
  /\ exchanges w' = exchanges w
  /\ download_data E w' = (Returns tt, add_out (Names []) w').
Proof.
  intros Hr w'. repeat split.
  - unfold get_order_ids. run. reflexivity.
  - unfold download_data, get_filenames. unfold w' at 1. run.
    cbn [results order_ids set_order_ids set_order_sizes]. rewrite Hr. run.
    reflexivity.
Qed.

Lemma get_order_ids_no_results_witness :
  let w' := set_hda (set_order_sizes [])
              (set_hda (set_order_ids []) (sample_world (Some []))) in
  get_order_ids broker_env 1 (sample_world (Some []))
  = (Raises (UnboundLocalError "response"), w')
  /\ exchanges w' = exchanges (sample_world (Some []))
  /\ download_data broker_env w' = (Returns tt, add_out (Names []) w').
Proof.
  apply (get_order_ids_no_results broker_env 1 (sample_world (Some []))).
  reflexivity.
Defined.

(** X12.  The order ids are indexed with the count of result files, not of
    orders: when the first order is refused and the second one accepted,
    [get_order_ids] raises [IndexError] at [order_ids[i]] right after the
    second request, and the dictionary is left without the lists. *)
Theorem get_order_ids_accepted_after_refused (E : Env) (fuel : nat) (w : World)
    (h : list (string * string)) (job : string) (d1 d2 : Descriptor)
    (rest : list Descriptor) (order_id : string) :
  headers (hda w) = Some h ->
  job_id (hda w) = Some job ->
  results (hda w) = Some (d1 :: d2 :: rest) ->
  let n := List.length (exchanges w) in
  let r1 := transport E n (order_rq (hda w) h job d1) in
  let r2 := transport E (S n) (order_rq (hda w) h job d2) in
  status_code r1 <> CONST_HTTP_SUCCESS_CODE (hda w) ->
  status_code r2 = CONST_HTTP_SUCCESS_CODE (hda w) ->
  field "orderId" r2 = Some order_id ->
  exists w',
    get_order_ids E fuel w = (Raises IndexError, w')
    /\ hda w' = hda w
    /\ exchanges w'
       = (exchanges w ++ [(order_rq (hda w) h job d1, r1);
                          (order_rq (hda w) h job d2, r2)])%list.
Proof.
  intros Hh Hj Hr n r1 r2 H1 H2 F2. apply Z.eqb_neq in H1.
  unfold get_order_ids. run. cbn [order_loop].
  unfold order_step at 1, requests_post. run. cbv zeta.
  fold (order_rq (hda w) h job d1). fold n. fold r1. rewrite H1. run.
  unfold order_step at 1, requests_post. run. cbv zeta.
  rewrite length_app. cbn [List.length]. fold n.
  replace (n + 1)%nat with (S n) by lia.
  fold (order_rq (hda w) h job d2). fold r2. rewrite H2, Z.eqb_refl. run.
  unfold field in F2. destruct (text r2) as [o|]; [|discriminate].
  rewrite F2. run. cbn [ol_i ol_order_ids app nth_error].
  eexists. split; [reflexivity|]. cbn [hda exchanges add_exchange add_out].
  rewrite <- app_assoc. split; reflexivity.
Qed.

Lemma get_order_ids_accepted_after_refused_witness :
  exists w',
    get_order_ids picky_env 1 (sample_world (Some [file_b; file_a]))
    = (Raises IndexError, w')
    /\ hda w' = hda (sample_world (Some [file_b; file_a]))
    /\ exchanges w'
       = ([] ++ [(order_rq (sample_session (Some [file_b; file_a]))
                    sample_headers "job-1" file_b,
                  transport picky_env 0
                    (order_rq (sample_session (Some [file_b; file_a]))
                       sample_headers "job-1" file_b));
                 (order_rq (sample_session (Some [file_b; file_a]))
                    sample_headers "job-1" file_a,
                  transport picky_env 1
                    (order_rq (sample_session (Some [file_b; file_a]))
                       sample_headers "job-1" file_a))])%list.
Proof.
  apply (get_order_ids_accepted_after_refused picky_env 1
           (sample_world (Some [file_b; file_a])) sample_headers "job-1"
           file_b file_a [] "order-https://archive/a.nc").
  - reflexivity.
  - reflexivity.
  - reflexivity.
  - discriminate.
  - reflexivity.
  - reflexivity.
Defined.

(** ** [downloadFile] and [download_data], whatever happens *)

Section DownloadMore.
Variable E : Env.

(** A loop with a known total length that returns has read the clock once
    per chunk. *)
Lemma download_loop_reads filename start total :
  forall chunks dl w dl' w',
    download_loop E filename start (Some total) chunks dl w = (Returns dl', w') ->
    clock_reads w' = (clock_reads w + List.length chunks)%nat.
Proof.
  induction chunks as [|c cs IH]; intros dl w dl' w' R.
  - inversion R. subst. cbn. lia.
  - cbn [download_loop] in R. revert R. unfold f_write. run.
    destruct (total =? 0); [discriminate|]. run.
    destruct (_ =? 0); [discriminate|]. run.
    intros R. apply IH in R. rewrite R. cbn. lia.
Qed.

(** Everything a call of [downloadFile] does besides writing its file. *)
Lemma downloadFile_effects url h directory file_name total_length w :
  let r := transport E (List.length (exchanges w)) (download_rq url h) in
  let p := realpath E (os_path_join directory file_name) in
  exists o w',
    downloadFile E url h directory file_name total_length w = (o, w')
    /\ hda w' = hda w
    /\ downloads w'
       = (downloads w ++ [mkDownload url h directory file_name total_length])%list
    /\ exchanges w' = (exchanges w ++ [(download_rq url h, r)])%list
    /\ (forall q, q <> p -> files w' q = files w q)
    /\ (status_code r <> 200 -> files w' = files w /\ o = Returns None)
    /\ (status_code r = 200 -> exists content, files w' p = Some content)
    /\ (forall v, o = Returns (Some v) ->
          v = clock E (clock_reads w + List.length (iter_content r CHUNK_SIZE) + 2)
              - clock E (clock_reads w))
    /\ (forall t, total_length = Some t -> t <> 0 -> clock_moves E ->
                  status_code r = 200 -> exists v, o = Returns (Some v))
    /\ (status_code r = 200 -> o <> Returns None).
Proof.
  intros r p.
  destruct (Z.eq_dec (status_code r) 200) as [H200|H200].
  2:{ rewrite (downloadFile_not_200 E url h directory file_name total_length w H200).
      eexists _, _. split; [reflexivity|].
      repeat split; auto; try contradiction; discriminate. }
  rewrite (downloadFile_200 E url h directory file_name total_length w H200).
  cbv zeta. fold r.
  set (filename := os_path_join directory file_name) in *.
  set (start := clock E (clock_reads w)).
  set (w0 := opened E url h directory file_name total_length w).
  assert (F0 : files w0 p = Some []).
  { unfold w0, opened, p. fold filename. cbn [tick files]. apply files_set_same. }
  assert (O0 : forall q, q <> p -> files w0 q = files w q).
  { intros q Hq. unfold w0, opened. fold filename. cbn [tick files].
    now rewrite files_set_other. }
  assert (X0 : exchanges w0 = (exchanges w ++ [(download_rq url h, r)])%list)
    by reflexivity.
  destruct total_length as [total|]; run.
  2:{ exists (Raises TypeError), w0.
      repeat split; auto; try discriminate; try contradiction;
        try (intros; discriminate). now exists []. }
  destruct (download_loop_run E filename start (Some total)
              (iter_content r CHUNK_SIZE) 0 (add_out (FileSize total) w0) [] F0)
    as (o & w1 & k & R & _ & Hfile & Hoth & Hh & Hx & Hd & Ho).
  assert (Good : total <> 0 -> clock_moves E ->
                 o = Returns (0 + total_len (iter_content r CHUNK_SIZE))).
  { intros Ht Hc.
    destruct (download_loop_returns E filename start total Ht
                (iter_content r CHUNK_SIZE) 0 (add_out (FileSize total) w0))
      as (w1' & R' & T').
    - intros n Hn. cbn [clock_reads add_out] in Hn.
      intros Heq. apply (Hc (clock_reads w) n); [|now symmetry].
      change (clock_reads w0) with (S (clock_reads w)) in Hn. lia.
    - rewrite R in R'. now inversion R'. }
  rewrite (run_bind_with _ _ _ _ _ R).
  cbn [hda downloads exchanges add_out] in Hh, Hd, Hx.
  assert (Hoth' : forall q, q <> p -> files w1 q = files w q).
  { intros q Hq. rewrite Hoth by exact Hq. cbn [files add_out]. now apply O0. }
  destruct o as [dl|e|]; [| |contradiction].
  - pose proof (download_loop_reads _ _ _ _ _ _ _ _ R) as T.
    cbn [clock_reads add_out] in T.
    change (clock_reads w0) with (S (clock_reads w)) in T.
    run. destruct (_ =? 0) eqn:Z0.
    + eexists _, _. split; [reflexivity|].
      cbn [hda downloads exchanges files tick].
      repeat split; auto; try discriminate; try contradiction;
        try (intros; discriminate).
      * eexists. exact Hfile.
      * intros t [= <-] Ht Hc _. exfalso.
        apply Z.eqb_eq in Z0. rewrite T in Z0.
        apply (Hc (clock_reads w) (S (clock_reads w)
                                    + List.length (iter_content r CHUNK_SIZE))%nat).
        -- lia.
        -- fold start. lia.
    + run. eexists _, _. split; [reflexivity|].
      cbn [hda downloads exchanges files tick add_out clock_reads].
      repeat split; auto; try contradiction; try (intros; discriminate).
      * eexists. exact Hfile.
      * intros v [= <-]. rewrite T. unfold start. f_equal. f_equal. lia.
      * intros. now eexists.
  - eexists _, _. split; [reflexivity|].
    repeat split; auto; try discriminate; try contradiction;
      try (intros; discriminate).
    + eexists. exact Hfile.
    + intros t [= <-] Ht Hc _. specialize (Good Ht Hc). discriminate.
Qed.

End DownloadMore.

(** X13.  Whenever a call of [downloadFile] returns, it has sent exactly
    one request, the streamed GET of [url] with the given headers, left the
    dictionary alone and touched no file but [directory/file_name].  It
    returned [None] exactly when the response was not a success, and then
    the files are as they were; when it returned a time, that file is
    there. *)
Theorem downloadFile_one_request_one_file (E : Env) (url : string)
    (h : list (string * string)) (directory file_name : string)
    (total_length v : PyInt) (w w' : World) :
  downloadFile E url h directory file_name total_length w = (Returns v, w') ->
  let r := transport E (List.length (exchanges w)) (download_rq url h) in
  let p := realpath E (os_path_join directory file_name) in
  exchanges w' = (exchanges w ++ [(download_rq url h, r)])%list
  /\ hda w' = hda w
  /\ (forall q, q <> p -> files w' q = files w q)
  /\ (v = None <-> status_code r <> 200)
  /\ (v = None -> files w' = files w)
  /\ (v <> None -> files w' p <> None).
Proof.
  intros Hrun r p.
  destruct (downloadFile_effects E url h directory file_name total_length w)
    as (o & w1 & R & Hh & _ & Hx & Hoth & Hno & Hyes & _ & _ & Hsome).
  rewrite Hrun in R. injection R as <- <-.
  assert (Hiff : v = None <-> status_code r <> 200).
  { split.
    - intros -> H200. now apply (Hsome H200).
    - intros H. destruct (Hno H) as [_ [= ->]]. reflexivity. }
  repeat split; auto; try apply Hiff.
  - intros Hv. apply Hno. now apply Hiff.
  - intros Hv Hn.
    destruct (Z.eq_dec (status_code r) 200) as [H200|H200].
    + destruct (Hyes H200) as [c Hc]. unfold p in Hn. rewrite Hn in Hc.
      discriminate.
    + apply Hv. now apply Hiff.
Qed.

Lemma downloadFile_one_request_one_file_witness :
  let w := sample_world None in
  let w' := snd (downloadFile steady_env sample_url sample_headers "./data/"
                   "a.nc" (Some 3) w) in
  let r := transport steady_env 0 (download_rq sample_url sample_headers) in
  let p := realpath steady_env (os_path_join "./data/" "a.nc") in
  exchanges w' = (exchanges w ++ [(download_rq sample_url sample_headers, r)])%list
  /\ hda w' = hda w
  /\ (forall q, q <> p -> files w' q = files w q)
  /\ (Some 4 = None <-> status_code r <> 200)
  /\ (Some 4 = None -> files w' = files w)
  /\ (Some 4 <> None -> files w' p <> None).
Proof.
  intros w w'.
  apply (downloadFile_one_request_one_file steady_env sample_url sample_headers
           "./data/" "a.nc" (Some 3) (Some 4) w w').
  assert (H : fst (downloadFile steady_env sample_url sample_headers "./data/"
                     "a.nc" (Some 3) w) = Returns (Some 4))
    by (vm_compute; reflexivity).
  unfold w'. revert H.
  destruct (downloadFile steady_env sample_url sample_headers "./data/" "a.nc"
              (Some 3) w) as [o w1].
  cbn [fst snd]. intros ->. reflexivity.
Defined.

(** X14.  After a success response, with a total length other than zero and
    a clock whose readings grow, [downloadFile] returns the time between the
    reading taken when the file was opened and the one taken at the end, one
    reading per chunk and two more later; this time is positive. *)
Theorem downloadFile_elapsed_time (E : Env) (url : string)
    (h : list (string * string)) (directory file_name : string) (t : Z)
    (w : World) :
  let r := transport E (List.length (exchanges w)) (download_rq url h) in
  let k := clock_reads w in
  let n := List.length (iter_content r CHUNK_SIZE) in
  status_code r = 200 -> t <> 0 -> clock_grows E ->
  fst (downloadFile E url h directory file_name (Some t) w)
  = Returns (Some (clock E (k + n + 2) - clock E k))
  /\ 0 < clock E (k + n + 2) - clock E k.
Proof.
  intros r k n H200 Ht Hc.
  assert (Hm : clock_moves E).
  { intros a b Hab. specialize (Hc a b Hab). lia. }
  destruct (downloadFile_effects E url h directory file_name (Some t) w)
    as (o & w1 & R & _ & _ & _ & _ & _ & _ & Hv & Hret & _).
  destruct (Hret t eq_refl Ht Hm H200) as [v ->].
  rewrite R. cbn [fst]. split.
  - now rewrite (Hv v eq_refl).
  - specialize (Hc k (k + n + 2)%nat). lia.
Qed.

Lemma downloadFile_elapsed_time_witness :
  fst (downloadFile steady_env sample_url sample_headers "./data/" "a.nc"
         (Some 3) (sample_world None))
  = Returns (Some (clock steady_env (0 + 2 + 2) - clock steady_env 0))
  /\ 0 < clock steady_env (0 + 2 + 2) - clock steady_env 0.
Proof.
  apply (downloadFile_elapsed_time steady_env sample_url sample_headers
           "./data/" "a.nc" 3 (sample_world None)).
  - reflexivity.
  - lia.
  - intros n m H. unfold steady_env, ticking. cbn [clock]. lia.
Defined.

(** X19.  Whenever [downloadFile] returns a time, the file
    [directory/file_name] holds the chunks that [r.iter_content(64738)]
    yielded, all of them and in their order, and the byte count of the last
    line printed is the sum of their lengths. *)
Theorem downloadFile_returned_file (E : Env) (url : string)
    (h : list (string * string)) (directory file_name : string)
    (total_length : PyInt) (v : Z) (w w' : World) :
  downloadFile E url h directory file_name total_length w
  = (Returns (Some v), w') ->
  let r := transport E (List.length (exchanges w)) (download_rq url h) in
  let chunks := iter_content r 64738 in
  file_at E w' (os_path_join directory file_name) = Some (List.concat chunks)
  /\ exists outs elapsed,
       stdout w' = (outs ++ [Downloaded (total_len chunks) elapsed])%list.
Proof.
  intros Hrun r chunks.
  destruct (Z.eq_dec (status_code r) 200) as [H200|H200].
  2:{ rewrite (downloadFile_not_200 E url h directory file_name total_length w H200)
        in Hrun. discriminate. }
  rewrite (downloadFile_200 E url h directory file_name total_length w H200)
    in Hrun.
  cbv zeta in Hrun. fold r in Hrun.
  change (iter_content r CHUNK_SIZE) with chunks in Hrun.
  set (filename := os_path_join directory file_name) in *.
  set (start := clock E (clock_reads w)) in *.
  set (w0 := opened E url h directory file_name total_length w) in *.
  assert (F0 : files w0 (realpath E filename) = Some []).
  { unfold w0, opened. fold filename. cbn [tick files]. apply files_set_same. }
  destruct total_length as [total|]; [|discriminate].
  revert Hrun. run.
  destruct (download_loop_run E filename start (Some total) chunks 0
              (add_out (FileSize total) w0) [] F0)
    as (o & w1 & k & R & _ & Hfile & _ & _ & _ & _ & Ho).
  rewrite (run_bind_with _ _ _ _ _ R). cbn [app] in Hfile.
  destruct o as [dl|e|]; [|discriminate|contradiction].
  destruct Ho as [-> ->]. rewrite firstn_all in Hfile. run.
  destruct (_ =? 0); [discriminate|]. run.
  intros [= _ <-]. unfold file_at. cbn [files stdout tick add_out].
  split; [exact Hfile|]. now eexists _, _.
Qed.

Lemma downloadFile_returned_file_witness :
  let w := sample_world None in
  let w' := snd (downloadFile steady_env sample_url sample_headers "./data/"
                   "a.nc" (Some 3) w) in
  file_at steady_env w' (os_path_join "./data/" "a.nc")
  = Some (List.concat two_chunks)
  /\ exists outs elapsed,
       stdout w' = (outs ++ [Downloaded (total_len two_chunks) elapsed])%list.
Proof.
  intros w w'.
  apply (downloadFile_returned_file steady_env sample_url sample_headers
           "./data/" "a.nc" (Some 3) 4 w w').
  assert (H : fst (downloadFile steady_env sample_url sample_headers "./data/"
                     "a.nc" (Some 3) w) = Returns (Some 4))
    by (vm_compute; reflexivity).
  unfold w'. revert H.
  destruct (downloadFile steady_env sample_url sample_headers "./data/" "a.nc"
              (Some 3) w) as [o w1].
  cbn [fst snd]. intros ->. reflexivity.
Defined.

(** ** [download_data], whatever happens *)

Lemma nth_error_skipn {A} (l : list A) :
  forall i x, nth_error l i = Some x -> skipn i l = x :: skipn (S i) l.
Proof.
  induction l as [|a l IH]; intros i x H.
  - destruct i; discriminate.
  - destruct i as [|i].
    + cbn in H. inversion H. reflexivity.
    + cbn [nth_error] in H. cbn [skipn]. now apply IH.
Qed.

Section DownloadDataMore.
Variable E : Env.

(** An iteration of the loop of [download_data] that completes has called
    [downloadFile] once, with the file name and the size at its index. *)
Lemma download_step_returns fileName i order_id w w' :
  download_step E fileName i order_id w = (Returns tt, w') ->
  exists fn sz h sizes,
    nth_error fileName i = Some fn
    /\ order_sizes (hda w) = Some sizes /\ nth_error sizes i = Some sz
    /\ headers (hda w) = Some h
    /\ hda w' = hda w
    /\ downloads w'
       = (downloads w ++ [download_call (hda w) h (order_id, fn, sz)])%list.
Proof.
  unfold download_step. run.
  destruct (nth_error fileName i) as [fn|] eqn:Hfn; [|discriminate]. run.
  destruct (order_sizes (hda w)) as [sizes|] eqn:Hs; [|discriminate]. run.
  destruct (nth_error sizes i) as [sz|] eqn:Hsz; [|discriminate]. run.
  destruct (headers (hda w)) as [h|] eqn:Hh; [|discriminate]. run.
  set (w0 := add_out _ (add_out _ (add_out _ (add_out _ (add_out _ w))))).
  destruct (downloadFile_frame E
              (broker_endpoint (hda w) ++ "/dataorder/download/" ++ order_id)
              h (download_dir_path (hda w)) fn sz w0)
    as (o & w1 & R & A1 & A2 & _).
  rewrite (run_bind_with _ _ _ _ _ R).
  cbn [hda downloads w0 add_out] in A1, A2.
  assert (done : forall w2, hda w2 = hda w1 -> downloads w2 = downloads w1 ->
            (Returns tt, w2) = (Returns tt, w') ->
            exists fn0 sz0 h0 sizes0,
              Some fn = Some fn0 /\ Some sizes = Some sizes0
              /\ nth_error sizes0 i = Some sz0 /\ Some h = Some h0
              /\ hda w' = hda w
              /\ downloads w'
                 = (downloads w
                    ++ [download_call (hda w) h0 (order_id, fn0, sz0)])%list).
  { intros w2 B1 B2 [= <-]. exists fn, sz, h, sizes.
    repeat split; auto.
    - now rewrite B1.
    - rewrite B2, A2. reflexivity. }
  destruct o as [v|e|]; try discriminate. run. rewrite A1.
  destruct (order_status_response (hda w)) as [resp|]; [|discriminate]. run.
  rewrite A1.
  destruct (status_code resp =? _).
  - unfold os_path_isfile. run.
    destruct (files w1 _); [discriminate|]. now apply done.
  - run. now apply done.
Qed.

(** The loop of [download_data], when it completes. *)
Lemma download_loop_ids_returns fileName :
  forall ids i w w',
    download_loop_ids E fileName i ids w = (Returns tt, w') ->
    let h := match headers (hda w) with Some h => h | None => [] end in
    let sizes := match order_sizes (hda w) with Some l => l | None => [] end in
    hda w' = hda w
    /\ (ids <> [] -> headers (hda w) <> None /\ order_sizes (hda w) <> None)
    /\ (List.length ids <= List.length (skipn i fileName))%nat
    /\ (List.length ids <= List.length (skipn i sizes))%nat
    /\ downloads w'
       = (downloads w
          ++ map (download_call (hda w) h)
               (combine (combine ids (skipn i fileName)) (skipn i sizes)))%list.
Proof.
  induction ids as [|oid ids IH]; intros i w w' R; cbv zeta.
  - inversion R. subst. cbn. rewrite app_nil_r.
    repeat split; auto; try lia. all: intros N; now destruct N.
  - cbn [download_loop_ids] in R.
    destruct (download_step E fileName i oid w) as [o w1] eqn:S1.
    rewrite (run_bind_with _ _ _ _ _ S1) in R.
    destruct o as [[]|e|]; try discriminate.
    destruct (download_step_returns _ _ _ _ _ S1)
      as (fn & sz & h & sizes & Hfn & Hs & Hsz & Hh & B1 & B2).
    destruct (IH (S i) w1 w' R) as (C1 & _ & C3 & C4 & C5).
    rewrite B1 in *. rewrite Hh, Hs in *.
    rewrite (nth_error_skipn _ _ _ Hfn), (nth_error_skipn _ _ _ Hsz).
    cbn [List.length combine map]. repeat split; try lia; try discriminate.
    + congruence.
    + rewrite C5, B2, <- app_assoc. reflexivity.
Qed.

End DownloadDataMore.

(** X16.  Whenever [download_data] returns, it has called [downloadFile]
    once per order id and in their order, the i-th call with the i-th order
    id, the file name of the i-th result and the i-th stored size; there are
    then at most as many order ids as results and as sizes, and the
    dictionary is as it was. *)
Theorem download_data_calls (E : Env) (w w' : World) :
  download_data E w = (Returns tt, w') ->
  exists content ids,
    results (hda w) = Some content /\ order_ids (hda w) = Some ids
    /\ hda w' = hda w
    /\ (List.length ids <= List.length content)%nat
    /\ (ids = [] /\ downloads w' = downloads w
        \/ exists h sizes,
             headers (hda w) = Some h /\ order_sizes (hda w) = Some sizes
             /\ (List.length ids <= List.length sizes)%nat
             /\ downloads w'
                = (downloads w
                   ++ map (download_call (hda w) h)
                        (combine (combine ids (map d_filename content))
                           sizes))%list).
Proof.
  unfold download_data, get_filenames. run.
  destruct (results (hda w)) as [content|] eqn:Hr; [|discriminate]. run.
  destruct (order_ids (hda w)) as [ids|] eqn:Hi; [|discriminate]. run.
  intros R. apply download_loop_ids_returns in R.
  cbv zeta in R. cbn [hda add_out downloads skipn] in R.
  destruct R as (C1 & C2 & C3 & C4 & C5).
  exists content, ids. rewrite length_map in C3.
  repeat split; auto.
  destruct ids as [|oid ids].
  - left. split; [reflexivity|]. rewrite C5. cbn. now rewrite app_nil_r.
  - right. destruct C2 as [N1 N2]; [discriminate|].
    destruct (headers (hda w)) as [h|]; [|contradiction].
    destruct (order_sizes (hda w)) as [sizes|]; [|contradiction].
    exists h, sizes. repeat split; auto.
Qed.

Lemma download_data_calls_witness :
  let w := broker_ordered in
  let w' := snd (download_data broker_env w) in
  exists content ids,
    results (hda w) = Some content /\ order_ids (hda w) = Some ids
    /\ hda w' = hda w
    /\ (List.length ids <= List.length content)%nat
    /\ (ids = [] /\ downloads w' = downloads w
        \/ exists h sizes,
             headers (hda w) = Some h /\ order_sizes (hda w) = Some sizes
             /\ (List.length ids <= List.length sizes)%nat
             /\ downloads w'
                = (downloads w
                   ++ map (download_call (hda w) h)
                        (combine (combine ids (map d_filename content))
                           sizes))%list).
Proof.
  intros w w'.
  apply (download_data_calls broker_env w w').
  assert (H : fst (download_data broker_env w) = Returns tt)
    by (vm_compute; reflexivity).
  rewrite <- H. apply surjective_pairing.
Defined.

(** X17.  The line that [download_data] means to print when the downloaded
    file is found at [./file_name] adds a text and a response, which raises
    [TypeError].  So when the order was completed with success and the file
    is found there (the download directory is the working directory, or the
    file was there before), [download_data] stops after its first download:
    the files of the other orders are never asked for. *)
Theorem download_data_stops_at_found_file (E : Env) (w : World)
    (h : list (string * string)) (d : Descriptor) (rest : list Descriptor)
    (order_id : string) (more : list string) (t : Z) (sizes : list PyInt)
    (response : Response) :
  results (hda w) = Some (d :: rest) ->
  order_ids (hda w) = Some (order_id :: more) ->
  order_sizes (hda w) = Some (Some t :: sizes) ->
  headers (hda w) = Some h ->
  order_status_response (hda w) = Some response ->
  status_code response = CONST_HTTP_SUCCESS_CODE (hda w) ->
  let call := download_call (hda w) h (order_id, d_filename d, Some t) in
  let r := transport E (List.length (exchanges w)) (download_rq (dl_url call) h) in
  status_code r = 200 -> t <> 0 -> clock_moves E ->
  realpath E ("./" ++ d_filename d)
  = realpath E (os_path_join (download_dir_path (hda w)) (d_filename d))
  \/ files w (realpath E ("./" ++ d_filename d)) <> None ->
  exists w',
    download_data E w = (Raises TypeError, w')
    /\ downloads w' = (downloads w ++ [call])%list
    /\ exchanges w' = (exchanges w ++ [(download_rq (dl_url call) h, r)])%list.
Proof.
  intros Hr Hi Hs Hh Hresp Hok call r H200 Ht Hc Hfile.
  set (url := broker_endpoint (hda w) ++ "/dataorder/download/" ++ order_id).
  set (w0 := add_out (Size (Some t))
               (add_out (Line "<class 'str'>")
                  (add_out (Headers h)
                     (add_out (Line url)
                        (add_out (Line order_id)
                           (add_out (Names (map d_filename (d :: rest))) w)))))).
  destruct (downloadFile_effects E url h (download_dir_path (hda w))
              (d_filename d) (Some t) w0)
    as (o & w1 & R & A1 & A2 & A3 & A4 & _ & A6 & _ & A8 & _).
  cbn [hda downloads exchanges w0 add_out] in A1, A2, A3, A6, A8.
  destruct (A8 t eq_refl Ht Hc H200) as [v ->].
  assert (F : files w1 (realpath E ("./" ++ d_filename d)) <> None).
  { destruct (string_dec (realpath E ("./" ++ d_filename d))
                (realpath E (os_path_join (download_dir_path (hda w))
                               (d_filename d)))) as [Heq|Hneq].
    - rewrite Heq. destruct (A6 H200) as [c Hc']. rewrite Hc'. discriminate.
    - destruct Hfile as [Heq|Hthere]; [contradiction|].
      rewrite (A4 _ Hneq). exact Hthere. }
  eexists. split.
  - unfold download_data, get_filenames. run.
    cbn [download_loop_ids]. unfold download_step. run.
    cbn [map nth_error]. run. cbn [nth_error]. run. fold url.
    unfold w0 in R. cbn [map] in R.
    rewrite (run_bind_with _ _ _ _ _ R). run.
    rewrite A1, Hresp. run. rewrite A1, Hok, Z.eqb_refl.
    unfold os_path_isfile. run.
    destruct (files w1 (realpath E ("./" ++ d_filename d))); [|contradiction].
    run. reflexivity.
  - cbn [downloads exchanges add_out]. split; assumption.
Qed.

Lemma download_data_stops_at_found_file_witness :
  let call := download_call (hda here_world) sample_headers
                ("order-1", "a.nc", Some 3) in
  let r := transport steady_env 0 (download_rq (dl_url call) sample_headers) in
  exists w',
    download_data steady_env here_world = (Raises TypeError, w')
    /\ downloads w' = (downloads here_world ++ [call])%list
    /\ exchanges w'
       = (exchanges here_world
          ++ [(download_rq (dl_url call) sample_headers, r)])%list.
Proof.
  apply (download_data_stops_at_found_file steady_env here_world sample_headers
           file_a [file_b] "order-1" ["order-2"] 3 [Some 7]
           (mkResponse 200 (Some [("status", "completed")]) no_chunks));
    try reflexivity.
  - lia.
  - intros n m H. unfold steady_env, ticking. cbn [clock]. lia.
  - left. reflexivity.
Defined.

(** ** The shape of an API key *)

Lemma length_string_append (a b : string) :
  String.length (a ++ b) = (String.length a + String.length b)%nat.
Proof. induction a as [|c a IH]; cbn; [reflexivity | now rewrite IH]. Qed.

Lemma length_str_encode (s : string) :
  List.length (str_encode s) = String.length s.
Proof.
  unfold str_encode, list_byte_of_string.
  now rewrite length_map, length_list_ascii.
Qed.

Lemma length_bytes_decode (b : bytes) :
  String.length (bytes_decode b) = List.length b.
Proof.
  rewrite <- length_str_encode. unfold str_encode, bytes_decode.
  now rewrite list_byte_of_string_of_list_byte.
Qed.

Lemma enc6_in_table (n : N) : (n < 64)%N -> In (Base64.enc6 n) Base64.table.
Proof.
  intros H. unfold Base64.enc6. apply nth_In.
  change (List.length Base64.table) with 64%nat. lia.
Qed.

Lemma b64encode_length (data : bytes) :
  List.length (Base64.b64encode data) = (4 * ((List.length data + 2) / 3))%nat.
Proof.
  induction data as [|b0|b0 b1|b0 b1 b2 rest IH] using Base64Facts.list_ind3;
    try reflexivity.
  cbn [Base64.b64encode List.length]. rewrite IH.
  replace (S (S (S (List.length rest))) + 2)%nat
    with (1 * 3 + (List.length rest + 2))%nat by lia.
  rewrite Nat.div_add_l by lia. lia.
Qed.

Lemma b64encode_chars (data : bytes) :
  forall c, In c (Base64.b64encode data) -> base64_char c.
Proof.
  induction data as [|b0|b0 b1|b0 b1 b2 rest IH] using Base64Facts.list_ind3;
    intros c Hc.
  - destruct Hc.
  - destruct (Base64Facts.front_spec _ _ (Base64Facts.to_N_lt b0)
                Base64Facts.zero_lt) as (S0 & S1 & _).
    cbn [Base64.b64encode In] in Hc.
    destruct Hc as [<-|[<-|[<-|[<-|[]]]]];
      first [ left; now apply enc6_in_table | now right ].
  - destruct (Base64Facts.front_spec _ _ (Base64Facts.to_N_lt b0)
                (Base64Facts.to_N_lt b1)) as (S0 & S1 & _).
    destruct (Base64Facts.back_spec _ _ (Base64Facts.to_N_lt b1)
                Base64Facts.zero_lt) as (S2 & _).
    cbn [Base64.b64encode In] in Hc.
    destruct Hc as [<-|[<-|[<-|[<-|[]]]]];
      first [ left; now apply enc6_in_table | now right ].
  - destruct (Base64Facts.front_spec _ _ (Base64Facts.to_N_lt b0)
                (Base64Facts.to_N_lt b1)) as (S0 & S1 & _).
    destruct (Base64Facts.back_spec _ _ (Base64Facts.to_N_lt b1)
                (Base64Facts.to_N_lt b2)) as (S2 & S3 & _).
    cbn [Base64.b64encode In] in Hc. fold Base64.b64encode in Hc.
    destruct Hc as [<-|[<-|[<-|[<-|Hc]]]];
      first [ left; now apply enc6_in_table | now apply IH ].
Qed.

(** X18.  An API key is made of characters of the Base64 alphabet and of
    [=] only, and it has four characters for every three characters, or
    part of three, of [username:password]. *)
Theorem generate_api_key_shape (username password : string) :
  let key := generate_api_key username password in
  let n := (String.length username + 1 + String.length password)%nat in
  String.length key = (4 * ((n + 2) / 3))%nat
  /\ forall c, In c (str_encode key) -> base64_char c.
Proof.
  intros key n. unfold key, generate_api_key. split.
  - rewrite length_bytes_decode, b64encode_length, length_str_encode.
    rewrite !length_string_append. cbn [String.length]. unfold n.
    do 3 f_equal. lia.
  - intros c. unfold str_encode at 1, bytes_decode.
    rewrite list_byte_of_string_of_list_byte. apply b64encode_chars.
Qed.
